(** * cvxportfolio: causal window estimators and risk models

    A shallow embedding of [cvxportfolio/returns.py] and
    [cvxportfolio/risks.py].  Floating point numbers are idealised as real
    numbers, with one extra value for pandas' missing cell ([nan]).  A
    DataFrame is stored column by column, in column order, so that the cash
    column is the last element.  Python calls that can raise are written in
    an exception monad; methods that assign attributes of [self] thread the
    object explicitly. *)

From Stdlib Require Import String Reals Lra Lia Bool Arith PeanoNat List.
Import ListNotations.

Set Implicit Arguments.
Set Warnings "-register-all".

(** ** Python results and exceptions *)

Module Py.

Inductive exn : Type :=
| NameError
| AttributeError
| IndexError
| KeyError
| ValueError
| TypeError
| AssertionError
| NotImplementedError
| MissingValueError
| InsufficientHistoryError.

Inductive Result (A : Type) : Type :=
| Ok (a : A)
| Raise (e : exn).

Arguments Ok {A} a.
Arguments Raise {A} e.

Definition bind {A B} (m : Result A) (k : A -> Result B) : Result B :=
  match m with
  | Ok a => k a
  | Raise e => Raise e
  end.

Fixpoint mapM {A B} (f : A -> Result B) (l : list A) : Result (list B) :=
  match l with
  | [] => Ok []
  | a :: l' =>
      bind (f a) (fun b => bind (mapM f l') (fun bs => Ok (b :: bs)))
  end.

Definition succeeds {A} (m : Result A) : Prop := exists a, m = Ok a.

End Py.

Import Py.

Declare Scope py_scope.
Delimit Scope py_scope with py.
Notation "x <- m ;; k" := (Py.bind m (fun x => k))
  (at level 61, m at next level, right associativity) : py_scope.
Open Scope py_scope.

(** ** numpy scalars and pandas frames *)

Module np.

(** A float cell: a real number or the missing value. *)
Inductive float : Type :=
| num (x : R)
| nan.

Definition isnull (c : float) : bool :=
  match c with
  | num _ => false
  | nan => true
  end.

(** [np.sqrt] on a cell: the root of a negative number is nan. *)
Definition sqrt (c : float) : float :=
  match c with
  | num x => if Rlt_dec x 0 then nan else num (R_sqrt.sqrt x)
  | nan => nan
  end.

(** [c / d] for a real divisor.  numpy yields an infinity or nan when
    [d] is zero; the model has no infinities and maps both to [nan]. *)
Definition divide (c : float) (d : R) : float :=
  match c with
  | num x => if Req_dec_T d 0 then nan else num (x / d)%R
  | nan => nan
  end.

End np.

Module pd.

Import np.

Definition Series (A : Type) : Type := list A.

(** The columns of the frame, in order; all of one length. *)
Definition DataFrame (A : Type) : Type := list (Series A).

Definition well_formed {A} (df : DataFrame A) : Prop :=
  exists T : nat, Forall (fun c => length c = T) df.

(** [len(df.index)] *)
Definition nrows {A} (df : DataFrame A) : nat :=
  match df with
  | [] => 0
  | c :: _ => length c
  end.

(** [df.shape[1]] *)
Definition shape1 {A} (df : DataFrame A) : nat := length df.

(** [df.iloc[:t]]: the rows before position [t]. *)
Definition head {A} (t : nat) (df : DataFrame A) : DataFrame A :=
  map (firstn t) df.

(** [df.iloc[:, :-1]] *)
Definition iloc_all_but_last {A} (df : DataFrame A) : DataFrame A :=
  removelast df.

(** [df.iloc[:, -1]]; out of bounds on a frame without columns. *)
Definition iloc_last {A} (df : DataFrame A) : Result (Series A) :=
  match rev df with
  | [] => Raise IndexError
  | c :: _ => Ok c
  end.

(** [df.iloc[:, -1] = c] *)
Definition iloc_set_last {A} (df : DataFrame A) (c : Series A)
  : Result (DataFrame A) :=
  match df with
  | [] => Raise IndexError
  | _ :: _ => Ok (removelast df ++ [c])
  end.

(** [df.iloc[:, -1] = x] for a scalar [x], broadcast down the column. *)
Definition iloc_fill_last {A} (df : DataFrame A) (x : A)
  : Result (DataFrame A) :=
  iloc_set_last df (repeat x (nrows df)).

(** [s.shift(k)] for [k >= 0]: the data move down by [k] positions, the
    index stays, the first [k] cells become missing. *)
Definition shift (k : nat) (s : Series float) : Series float :=
  firstn (length s) (repeat nan k ++ s).

(** The cells of the frame labelled with time position [t], when every
    time label owns [k] consecutive rows ([k = 1] for an ordinary frame,
    [k] = number of assets for the stacked frame of covariances). *)
Definition at_time {A} (k t : nat) (df : DataFrame A) : list (list A) :=
  map (fun c => firstn k (skipn (t * k) c)) df.

(** *** Window statistics *)

Definition sum (l : list R) : R := fold_right Rplus 0%R l.

Definition mean (l : list R) : R := (sum l / INR (length l))%R.

(** Sample covariance, [ddof = 1]. *)
Definition cov (xy : list (R * R)) : R :=
  let mx := mean (map fst xy) in
  let my := mean (map snd xy) in
  (sum (map (fun p => (fst p - mx) * (snd p - my)) xy)
     / (INR (length xy) - 1))%R.

Definition var (l : list R) : R := cov (combine l l).

Definition std (l : list R) : R := R_sqrt.sqrt (var l).

(** The non-missing observations of a window. *)
Definition observations (win : list float) : list R :=
  flat_map (fun c => match c with num x => [x] | nan => [] end) win.

(** The positions of two windows where both cells are present. *)
Definition observations2 (wx wy : list float) : list (R * R) :=
  flat_map (fun p => match p with
                     | (num x, num y) => [(x, y)]
                     | _ => []
                     end) (combine wx wy).

(** Rows [i - w + 1 .. i] of the series, clipped at its start. *)
Definition window {A} (w i : nat) (s : Series A) : list A :=
  skipn (i + 1 - w) (firstn (i + 1) s).

(** [s.rolling(window=w).mean()]: [min_periods] defaults to [w], so a
    window with fewer than [w] observations gives a missing cell. *)
Definition rolling_mean (w : nat) (s : Series float) : Series float :=
  map (fun i =>
         let obs := observations (window w i s) in
         if (length obs <? w) || (length obs =? 0) then nan
         else num (mean obs))
      (seq 0 (length s)).

(** Rolling covariance of two columns at row [i]. *)
Definition rolling_cov_at (w i : nat) (sx sy : Series float) : float :=
  let obs := observations2 (window w i sx) (window w i sy) in
  if (length obs <? w) || (length obs <=? 1) then nan
  else num (cov obs).

(** [s.rolling(window=w).var()] *)
Definition rolling_var (w : nat) (s : Series float) : Series float :=
  map (fun i => rolling_cov_at w i s s) (seq 0 (length s)).

(** pandas' root of a variance: a negative operand, which only rounding
    can produce, gives zero. *)
Definition zsqrt (c : float) : float :=
  match c with
  | num x => if Rlt_dec x 0 then num 0 else num (R_sqrt.sqrt x)
  | nan => nan
  end.

(** [s.rolling(window=w).std()] *)
Definition rolling_std (w : nat) (s : Series float) : Series float :=
  map zsqrt (rolling_var w s).

(** [df.rolling(window=w).cov()]: a frame with one column per asset and,
    for each time label in turn, one row per asset. *)
Definition rolling_cov (w : nat) (df : DataFrame float) : DataFrame float :=
  map (fun cj =>
         flat_map (fun i => map (fun ca => rolling_cov_at w i ca cj) df)
                  (seq 0 (nrows df)))
      df.

(** *** Exponentially weighted statistics ([adjust=True], [ignore_na=False]) *)

(** Weight of an observation [k] periods back: [0.5 ^ (k / halflife)]. *)
Definition decay (halflife : R) (k : nat) : R :=
  Rpower (1 / 2) (INR k / halflife)%R.

(** The rows [0 .. i] of a series, each with its weight as seen from
    row [i]. *)
Definition weighted {A} (halflife : R) (i : nat) (s : Series A)
  : list (R * A) :=
  let past := firstn (i + 1) s in
  combine (map (decay halflife) (rev (seq 0 (length past)))) past.

Definition ewm_mean_at (halflife : R) (i : nat) (s : Series float) : float :=
  let wx := flat_map (fun p => match p with
                               | (w, num x) => [(w, x)]
                               | (_, nan) => []
                               end) (weighted halflife i s) in
  match wx with
  | [] => nan
  | _ :: _ =>
      num (sum (map (fun p => fst p * snd p) wx) / sum (map fst wx))%R
  end.

(** Exponentially weighted covariance with the bias correction of
    [bias=False]: missing until the correction factor is defined. *)
Definition ewm_cov_at (halflife : R) (i : nat) (sx sy : Series float)
  : float :=
  let wxy := flat_map (fun p => match p with
                                | (w, (num x, num y)) => [(w, (x, y))]
                                | _ => []
                                end)
                      (weighted halflife i (combine sx sy)) in
  match wxy with
  | [] => nan
  | _ :: _ =>
      let W := sum (map fst wxy) in
      let W2 := sum (map (fun p => fst p * fst p) wxy) in
      let mx := sum (map (fun p => fst p * fst (snd p)) wxy) / W in
      let my := sum (map (fun p => fst p * snd (snd p)) wxy) / W in
      let c := sum (map (fun p => fst p * (fst (snd p) - mx)
                                  * (snd (snd p) - my)) wxy) / W in
      if Rlt_dec 0 (W * W - W2)
      then num (W * W / (W * W - W2) * c)
      else nan
  end%R.

(** [df.ewm(halflife=h)]: pandas rejects a non-positive half life. *)
Definition ewm_check (halflife : R) : Result unit :=
  if Rlt_dec 0 halflife then Ok tt else Raise ValueError.

Definition ewm_mean (halflife : R) (s : Series float) : Series float :=
  map (fun i => ewm_mean_at halflife i s) (seq 0 (length s)).

Definition ewm_var (halflife : R) (s : Series float) : Series float :=
  map (fun i => ewm_cov_at halflife i s s) (seq 0 (length s)).

Definition ewm_cov (halflife : R) (df : DataFrame float) : DataFrame float :=
  map (fun cj =>
         flat_map (fun i => map (fun ca => ewm_cov_at halflife i ca cj) df)
                  (seq 0 (nrows df)))
      df.

End pd.

(** ** cvxpy terms *)

Module cvx.

(** Every value is a matrix, stored row by row: a scalar is 1 x 1 and a
    vector of holdings is a column. *)
Definition Tensor : Type := list (list R).

Definition scalar (x : R) : Tensor := [[x]].

Definition column (v : list R) : Tensor := map (fun x => [x]) v.

Definition ncols (a : Tensor) : nat :=
  match a with
  | [] => 0
  | r :: _ => length r
  end.

Definition same_shape (a b : Tensor) : bool :=
  (length a =? length b) && (ncols a =? ncols b).

Definition is_scalar (a : Tensor) : option R :=
  match a with
  | [[x]] => Some x
  | _ => None
  end.

Definition map2 (f : R -> R -> R) (a b : Tensor) : Tensor :=
  map (fun rs => map (fun p => f (fst p) (snd p)) (combine (fst rs) (snd rs)))
      (combine a b).

(** Elementwise operation with numpy's broadcast of a 1 x 1 operand. *)
Definition broadcast (f : R -> R -> R) (a b : Tensor) : option Tensor :=
  if same_shape a b then Some (map2 f a b)
  else match is_scalar a, is_scalar b with
       | Some x, _ => Some (map (map (f x)) b)
       | None, Some y => Some (map (map (fun x => f x y)) a)
       | None, None => None
       end.

Definition transpose_ (a : Tensor) : Tensor :=
  map (fun j => map (fun r => nth j r 0%R) a) (seq 0 (ncols a)).

Definition dot (u v : list R) : R :=
  pd.sum (map (fun p => (fst p * snd p)%R) (combine u v)).

Definition matmul_ (a b : Tensor) : option Tensor :=
  if ncols a =? length b
  then Some (map (fun r => map (dot r) (transpose_ b)) a)
  else None.

Definition entries (a : Tensor) : list R := concat a.

(** The diagonal matrix with the given diagonal. *)
Fixpoint diag (d : list R) : Tensor :=
  match d with
  | [] => []
  | x :: d' => (x :: repeat 0%R (length d')) :: map (cons 0%R) (diag d')
  end.

Inductive Expression : Type :=
| Var (value : option Tensor)    (* cvx.Variable *)
| Param (value : option Tensor)  (* cvx.Parameter *)
| Const (c : Tensor)             (* cvx.Constant, Python numbers *)
| Sub (a b : Expression)
| Add (a b : Expression)
| Div (a : Expression) (c : R)
| transpose (a : Expression)
| matmul (a b : Expression)
| multiply (a b : Expression)
| abs (a : Expression)
| sum_squares (a : Expression)
| quad_form (x P : Expression)
| max_elemwise (args : list Expression).

Definition lift2 (f : Tensor -> Tensor -> option Tensor)
           (a b : option Tensor) : option Tensor :=
  match a, b with
  | Some x, Some y => f x y
  | _, _ => None
  end.

(** [e.value]: [None] while a variable or parameter below [e] has no
    value, and for operands whose shapes do not fit (which cvxpy refuses
    when the term is built). *)
Fixpoint value (e : Expression) : option Tensor :=
  match e with
  | Var v => v
  | Param v => v
  | Const c => Some c
  | Sub a b => lift2 (broadcast Rminus) (value a) (value b)
  | Add a b => lift2 (broadcast Rplus) (value a) (value b)
  | Div a c =>
      match value a with
      | Some x => if Req_dec_T c 0 then None
                  else Some (map (map (fun y => y / c)%R) x)
      | None => None
      end
  | transpose a => option_map transpose_ (value a)
  | matmul a b => lift2 matmul_ (value a) (value b)
  | multiply a b => lift2 (broadcast Rmult) (value a) (value b)
  | abs a => option_map (map (map Rabs)) (value a)
  | sum_squares a =>
      option_map (fun x => scalar (pd.sum (map (fun y => y * y)%R (entries x))))
                 (value a)
  | quad_form x P =>
      lift2 (fun vx vP =>
               lift2 matmul_ (matmul_ (transpose_ vx) vP) (Some vx))
            (value x) (value P)
  | max_elemwise args =>
      (fix go (l : list Expression) : option Tensor :=
         match l with
         | [] => None
         | [a] => value a
         | a :: l' => lift2 (broadcast Rmax) (value a) (go l')
         end) args
  end.

End cvx.

(** ** Time-indexed parameters *)

Module estimator.

Import np pd.

(** Modelled from the spec: [ParameterEstimator] and its base
    [DataEstimator] live in [cvxportfolio/estimator.py], which is not part
    of the sources at hand.  Section 3 and 4.1 of the specification give
    the data (a constant, or one tensor per time label), the contract of
    the lookup (a label without entry fails with [MissingValueError]) and
    section 4.2 what happens at a label whose estimate is missing
    ([InsufficientHistoryError]); section 7 says that construction is lazy
    and validates nothing. *)
Inductive data : Type :=
| Constant (v : DataFrame float)
| TimeIndexed (rows_per_label : nat) (df : DataFrame float).

(** [value] is the value the parameter currently shows to cvxpy: absent
    until the parameter has been resolved at some time. *)
Record ParameterEstimator : Type := mkParameterEstimator {
  data_ : data;
  positive_semi_definite : bool;
  value : option cvx.Tensor
}.

(** Modelled from the spec: [ParameterEstimator.__init__] stores its
    argument and never fails. *)
Definition __init__ (d : data) (psd : bool) : Result ParameterEstimator :=
  Ok (mkParameterEstimator d psd None).

(** The parameter as an operand of a cvxpy term. *)
Definition as_cvxpy (p : ParameterEstimator) : cvx.Expression :=
  cvx.Param (value p).

Definition reals (cells : list float) : option (list R) :=
  if existsb isnull cells then None else Some (observations cells).

(** Modelled from the spec: the lookup of section 4.1, [valueAt]. *)
Definition values_in_time (self : ParameterEstimator) (t : nat)
  : Result (list (list R)) :=
  match data_ self with
  | Constant v =>
      mapM (fun cells => match reals cells with
                         | Some xs => Ok xs
                         | None => Raise MissingValueError
                         end) v
  | TimeIndexed k df =>
      if nrows df <? (t + 1) * k then Raise MissingValueError
      else mapM (fun cells => match reals cells with
                              | Some xs => Ok xs
                              | None => Raise InsufficientHistoryError
                              end) (at_time k t df)
  end.

End estimator.

(** ** Python objects passed around untyped *)

Module builtins.

Import cvx.

Inductive object : Type :=
| None_
| float_ (x : R)
| expr (e : Expression)
| tuple (items : list object)
| list_ (items : list object)
| instance_ (class_name : string)
| global (name : string).

(** [a, b = o] *)
Definition unpack2 (o : object) : Result (object * object) :=
  match o with
  | tuple [a; b] | list_ [a; b] => Ok (a, b)
  | tuple _ | list_ _ => Raise ValueError
  | expr _ => Raise ValueError
  | None_ | float_ _ | instance_ _ | global _ => Raise TypeError
  end.

(** [o.value] *)
Definition getattr_value (o : object) : Result (option Tensor) :=
  match o with
  | expr e => Ok (value e)
  | _ => Raise AttributeError
  end.

(** Truth value of [e.value]: [None] is false, an array of one entry is
    true when the entry is not zero, a larger one has no truth value. *)
Definition truth (v : option Tensor) : Result bool :=
  match v with
  | None => Ok false
  | Some a =>
      match entries a with
      | [] => Ok false
      | [x] => Ok (if Req_dec_T x 0 then false else true)
      | _ :: _ :: _ => Raise ValueError
      end
  end.

(** [v[0, 0]] *)
Definition item00 (v : option Tensor) : Result R :=
  match v with
  | None => Raise TypeError
  | Some ((x :: _) :: _) => Ok x
  | Some _ => Raise IndexError
  end.

(** What a caller may hand to a constructor as data: a pandas object
    (its cells, column by column), a numpy array or a plain number. *)
Inductive argument : Type :=
| pandas (df : pd.DataFrame np.float)
| ndarray (a : list (list np.float))
| number (x : np.float).

(** [a.isnull().values.any()]: only a pandas object has the method
    [isnull]. *)
Definition isnull_values_any (a : argument) : Result bool :=
  match a with
  | pandas df => Ok (existsb (existsb np.isnull) df)
  | ndarray _ | number _ => Raise AttributeError
  end.

(** Name lookup in a function body: the local names, then the names
    bound at module level. *)
Definition load_name (locals : list (string * object))
           (globals : list string) (name : string) : Result object :=
  match find (fun p => String.eqb (fst p) name) locals with
  | Some p => Ok (snd p)
  | None => if existsb (String.eqb name) globals then Ok (global name)
            else Raise NameError
  end.

End builtins.

(** ** returns.py *)

Module returns.

Import np pd cvx builtins.
Import estimator(ParameterEstimator, TimeIndexed).

Module ReturnsForecast.

Record instance : Type := mk { expected_returns : ParameterEstimator }.

Definition __init__ (expected_returns : estimator.data) : Result instance :=
  p <- estimator.__init__ expected_returns false ;;
  Ok (mk p).

Definition compile_to_cvxpy (self : instance) (w_plus z v : Expression)
  : Expression :=
  matmul (transpose w_plus) (estimator.as_cvxpy (expected_returns self)).

End ReturnsForecast.

(** The windowed subclasses do not call the constructor of their base:
    the derived parameter is absent until [pre_evaluation] has run.  The
    call [super().pre_evaluation(...)] that ends each [pre_evaluation]
    goes to [estimator.py] and is not followed here. *)
Module RollingWindowReturnsForecast.

Record instance : Type := mk {
  lookback_period : nat;
  use_last_for_cash : bool;
  expected_returns : option ParameterEstimator
}.

Definition __init__ (lookback_period : nat) (use_last_for_cash : bool)
  : Result instance :=
  Ok (mk lookback_period use_last_for_cash None).

Definition forecasts (self : instance) (returns : DataFrame float)
  : Result (DataFrame float) :=
  let forecasts :=
    map (fun c => shift 1 (rolling_mean (lookback_period self) c)) returns
  in
  if use_last_for_cash self
  then cash <- iloc_last returns ;;
       iloc_set_last forecasts (shift 1 cash)
  else Ok forecasts.

Definition pre_evaluation (self : instance) (returns : DataFrame float)
  : Result instance :=
  f <- forecasts self returns ;;
  p <- estimator.__init__ (TimeIndexed 1 f) false ;;
  Ok (mk (lookback_period self) (use_last_for_cash self) (Some p)).

End RollingWindowReturnsForecast.

Module ExponentialWindowReturnsForecast.

Record instance : Type := mk {
  half_life : R;
  use_last_for_cash : bool;
  expected_returns : option ParameterEstimator
}.

Definition __init__ (half_life : R) (use_last_for_cash : bool)
  : Result instance :=
  Ok (mk half_life use_last_for_cash None).

Definition forecasts (self : instance) (returns : DataFrame float)
  : Result (DataFrame float) :=
  _ <- ewm_check (half_life self) ;;
  let forecasts :=
    map (fun c => shift 1 (ewm_mean (half_life self) c)) returns
  in
  if use_last_for_cash self
  then cash <- iloc_last returns ;;
       iloc_set_last forecasts (shift 1 cash)
  else Ok forecasts.

Definition pre_evaluation (self : instance) (returns : DataFrame float)
  : Result instance :=
  f <- forecasts self returns ;;
  p <- estimator.__init__ (TimeIndexed 1 f) false ;;
  Ok (mk (half_life self) (use_last_for_cash self) (Some p)).

End ExponentialWindowReturnsForecast.

Module ReturnsForecastErrorRisk.

(** [benchmark_weights] is the attribute of the class [BaseRiskModel],
    0.0 until [set_benchmark] replaces it. *)
Record instance : Type := mk {
  benchmark_weights : Expression;
  deltas_errors : ParameterEstimator
}.

Definition __init__ (deltas_errors : estimator.data) : Result instance :=
  p <- estimator.__init__ deltas_errors false ;;
  Ok (mk (Const (scalar 0)) p).

Definition compile_to_cvxpy (self : instance) (w_plus z v : Expression)
  : Expression :=
  matmul (transpose (abs (Sub w_plus (benchmark_weights self))))
         (estimator.as_cvxpy (deltas_errors self)).

End ReturnsForecastErrorRisk.

Module RollingWindowReturnsForecastErrorRisk.

Record instance : Type := mk {
  lookback_period : nat;
  zero_for_cash : bool;
  deltas_errors : option ParameterEstimator
}.

Definition __init__ (lookback_period : nat) (zero_for_cash : bool)
  : Result instance :=
  Ok (mk lookback_period zero_for_cash None).

Definition errors (self : instance) (returns : DataFrame float)
  : Result (DataFrame float) :=
  let tmp :=
    map (fun c =>
           map (fun x => divide x (R_sqrt.sqrt (INR (lookback_period self))))
               (shift 1 (rolling_std (lookback_period self) c)))
        returns
  in
  if zero_for_cash self
  then iloc_fill_last tmp (num 0)
  else Ok tmp.

Definition pre_evaluation (self : instance) (returns : DataFrame float)
  : Result instance :=
  tmp <- errors self returns ;;
  p <- estimator.__init__ (TimeIndexed 1 tmp) false ;;
  Ok (mk (lookback_period self) (zero_for_cash self) (Some p)).

End RollingWindowReturnsForecastErrorRisk.

Module ExponentialWindowReturnsForecastErrorRisk.

Record instance : Type := mk { deltas_errors : option ParameterEstimator }.

Definition __init__ : Result instance := Raise NotImplementedError.

End ExponentialWindowReturnsForecastErrorRisk.

Module LegacyReturnsForecast.

Record instance : Type := mk {
  returns : argument;
  delta : argument;
  gamma_decay : option R;
  name : option string
}.

Section init.

(** [null_checker] is imported from [utils.py]; which data it refuses,
    and with which exception, is its own business. *)
Variable null_checker : argument -> Result unit.

Definition __init__ (returns delta : argument) (gamma_decay : option R)
           (name : option string) : Result instance :=
  _ <- null_checker returns ;;
  _ <- null_checker delta ;;
  Ok (mk returns delta gamma_decay name).

End init.

End LegacyReturnsForecast.

Module MPOReturnsForecast.

(** [alpha_data] is a dict of series keyed by the pair [(t, tau)]. *)
Record instance : Type := mk {
  alpha_data : list ((nat * nat) * Series float)
}.

Definition __init__ (alpha_data : list ((nat * nat) * Series float))
  : Result instance :=
  Ok (mk alpha_data).

End MPOReturnsForecast.

Module MultipleReturnsForecasts.

(** A source is seen through its [weight_expr(t, wplus)]. *)
Definition source : Type := nat -> Expression -> Result Expression.

Record instance : Type := mk {
  alpha_sources : list source;
  weights : list R
}.

Definition __init__ (alpha_sources : list source) (weights : list R)
  : Result instance :=
  Ok (mk alpha_sources weights).

(** [self.weights[idx]] *)
Definition getitem (weights : list R) (idx : nat) : Result R :=
  match nth_error weights idx with
  | Some w => Ok w
  | None => Raise IndexError
  end.

(** The body of [for idx, source in enumerate(self.alpha_sources)], from
    position [idx] on, with the sum so far in [alpha]: the source is
    called first, then its weight is looked up. *)
Fixpoint loop (sources : list source) (idx : nat) (weights : list R)
         (alpha : Expression) (t : nat) (wplus : Expression)
  : Result Expression :=
  match sources with
  | [] => Ok alpha
  | src :: rest =>
      a <- src t wplus ;;
      w <- getitem weights idx ;;
      loop rest (S idx) weights
           (Add alpha (multiply a (Const (scalar w)))) t wplus
  end.

Definition weight_expr (self : instance) (t : nat) (wplus : Expression)
  : Result Expression :=
  loop (alpha_sources self) 0 (weights self) (Const (scalar 0)) t wplus.

End MultipleReturnsForecasts.

End returns.

(** ** risks.py *)

Module risks.

Import np pd cvx builtins.
Import estimator(ParameterEstimator, TimeIndexed).

(** The names bound at module level in [risks.py]. *)
Definition module_globals : list string :=
  ["logging"; "cvx"; "np"; "pd"; "BaseCost"; "values_in_time"; "logger";
   "ParameterEstimator"; "__all__"; "BaseRiskModel"; "FullCovariance";
   "RollingWindowFullCovariance"; "ExponentialWindowFullCovariance";
   "DiagonalCovariance"; "RollingWindowDiagonalCovariance";
   "ExponentialWindowDiagonalCovariance"; "EmpSigma"; "FactorModelSigma";
   "RobustSigma"; "RobustFactorModelSigma"; "WorstCaseRisk"]%string.

Module BaseRiskModel.

(** The attributes the base class reads and writes.  [w_bench] exists
    only once [BaseRiskModel.__init__] has run; [expression] only once
    a term has been compiled. *)
Record attrs : Type := mk {
  w_bench : option Expression;
  benchmark_weights : Expression;
  expression : option object
}.

(** A new instance before any [__init__]: the class attribute
    [benchmark_weights = 0.0] is all it shows. *)
Definition new : attrs := mk None (Const (scalar 0)) None.

(** [kwargs.pop("w_bench", 0.0)] *)
Definition __init__ (self : attrs) (w_bench_kwarg : option Expression)
  : attrs :=
  mk (Some (match w_bench_kwarg with
            | Some w => w
            | None => Const (scalar 0)
            end))
     (benchmark_weights self) (expression self).

Definition set_benchmark (self : attrs) (bw : estimator.data)
  : Result attrs :=
  p <- estimator.__init__ bw false ;;
  Ok (mk (w_bench self) (estimator.as_cvxpy p) (expression self)).

Definition set_expression (self : attrs) (e : object) : attrs :=
  mk (w_bench self) (benchmark_weights self) (Some e).

(** An instance of some subclass, as the base class sees it: its class
    name, its base attributes and the [_estimate] its class resolves
    to, which runs on the attributes and may assign them. *)
Record instance : Type := Build {
  __class__ : string;
  self_ : attrs;
  _estimate : attrs -> nat -> Expression -> Expression -> Expression
              -> attrs * Result object
}.

Definition with_attrs (m : instance) (a : attrs) : instance :=
  Build (__class__ m) a (_estimate m).

Definition weight_expr (m : instance) (t : nat)
           (w_plus z value : Expression) : instance * Result object :=
  match w_bench (self_ m) with
  | None => (m, Raise AttributeError)
  | Some wb =>
      let (s1, r) := _estimate m (self_ m) t (Sub w_plus wb) z value in
      match o <- r ;; unpack2 o with
      | Raise e => (with_attrs m s1, Raise e)
      | Ok (e, _) =>
          (with_attrs m (set_expression s1 e), Ok (tuple [e; list_ []]))
      end
  end.

(** [_estimate] is a pure read: it assigns no attribute and does not
    look at the term a previous call has left in [expression]. *)
Definition pure_estimate (m : instance) : Prop :=
  forall a t w_plus z value,
    fst (_estimate m a t w_plus z value) = a /\
    forall o, snd (_estimate m (set_expression a o) t w_plus z value)
              = snd (_estimate m a t w_plus z value).

(** What [optimization_log] hands back: the realized value or
    [np.NaN]. *)
Inductive logged : Type :=
| realized (v : Tensor)
| NaN.

Definition optimization_log (self : attrs) (t : nat) : Result logged :=
  match expression self with
  | None => Raise AttributeError
  | Some e =>
      v <- getattr_value e ;;
      b <- truth v ;;
      match b, v with
      | true, Some a => Ok (realized a)
      | _, _ => Ok NaN
      end
  end.

End BaseRiskModel.

Module FullCovariance.

Record instance : Type := mk {
  base : BaseRiskModel.attrs;
  Sigma : ParameterEstimator
}.

Definition __init__ (Sigma : estimator.data)
           (w_bench_kwarg : option Expression) : Result instance :=
  let base := BaseRiskModel.__init__ BaseRiskModel.new w_bench_kwarg in
  p <- estimator.__init__ Sigma true ;;
  Ok (mk base p).

Definition compile_to_cvxpy (self : instance) (w_plus z value : Expression)
  : Expression :=
  quad_form (Sub w_plus (BaseRiskModel.benchmark_weights (base self)))
            (estimator.as_cvxpy (Sigma self)).

End FullCovariance.

Module RollingWindowFullCovariance.

Record instance : Type := mk {
  lookback_period : nat;
  Sigma : option ParameterEstimator
}.

Definition __init__ (lookback_period : nat) : Result instance :=
  Ok (mk lookback_period None).

Definition covariances (self : instance) (returns : DataFrame float)
  : DataFrame float :=
  let returns := iloc_all_but_last returns in
  map (shift (shape1 returns))
      (rolling_cov (lookback_period self) returns).

Definition pre_evaluation (self : instance) (returns : DataFrame float)
  : Result instance :=
  p <- estimator.__init__
         (TimeIndexed (shape1 (iloc_all_but_last returns))
                      (covariances self returns)) true ;;
  Ok (mk (lookback_period self) (Some p)).

End RollingWindowFullCovariance.

Module ExponentialWindowFullCovariance.

Record instance : Type := mk {
  half_life : R;
  Sigma : option ParameterEstimator
}.

Definition __init__ (half_life : R) : Result instance :=
  Ok (mk half_life None).

Definition covariances (self : instance) (returns : DataFrame float)
  : Result (DataFrame float) :=
  let returns := iloc_all_but_last returns in
  _ <- ewm_check (half_life self) ;;
  Ok (map (shift (shape1 returns)) (ewm_cov (half_life self) returns)).

Definition pre_evaluation (self : instance) (returns : DataFrame float)
  : Result instance :=
  c <- covariances self returns ;;
  p <- estimator.__init__
         (TimeIndexed (shape1 (iloc_all_but_last returns)) c) true ;;
  Ok (mk (half_life self) (Some p)).

End ExponentialWindowFullCovariance.

Module DiagonalCovariance.

(** [__init__] does not call the constructor of the base class. *)
Record instance : Type := mk {
  base : BaseRiskModel.attrs;
  standard_deviations : ParameterEstimator
}.

Definition __init__ (standard_deviations : estimator.data) : Result instance :=
  p <- estimator.__init__ standard_deviations false ;;
  Ok (mk BaseRiskModel.new p).

Definition compile_to_cvxpy (self : instance) (w_plus z value : Expression)
  : Expression :=
  sum_squares
    (multiply w_plus (estimator.as_cvxpy (standard_deviations self))).

End DiagonalCovariance.

Module RollingWindowDiagonalCovariance.

Record instance : Type := mk {
  lookback_period : nat;
  standard_deviations : option ParameterEstimator
}.

Definition __init__ (lookback_period : nat) : Result instance :=
  Ok (mk lookback_period None).

Definition deviations (self : instance) (returns : DataFrame float)
  : DataFrame float :=
  let returns := iloc_all_but_last returns in
  map (fun c => map np.sqrt (shift 1 (rolling_var (lookback_period self) c)))
      returns.

Definition pre_evaluation (self : instance) (returns : DataFrame float)
  : Result instance :=
  p <- estimator.__init__ (TimeIndexed 1 (deviations self returns)) false ;;
  Ok (mk (lookback_period self) (Some p)).

End RollingWindowDiagonalCovariance.

Module ExponentialWindowDiagonalCovariance.

Record instance : Type := mk {
  half_life : R;
  standard_deviations : option ParameterEstimator
}.

Definition __init__ (half_life : R) : Result instance :=
  Ok (mk half_life None).

Definition deviations (self : instance) (returns : DataFrame float)
  : Result (DataFrame float) :=
  let returns := iloc_all_but_last returns in
  _ <- ewm_check (half_life self) ;;
  Ok (map (fun c => map np.sqrt (shift 1 (ewm_var (half_life self) c)))
          returns).

Definition pre_evaluation (self : instance) (returns : DataFrame float)
  : Result instance :=
  d <- deviations self returns ;;
  p <- estimator.__init__ (TimeIndexed 1 d) false ;;
  Ok (mk (half_life self) (Some p)).

End ExponentialWindowDiagonalCovariance.

Module EmpSigma.

Record instance : Type := mk {
  base : BaseRiskModel.attrs;
  returns : DataFrame float;
  lookback : nat
}.

(** [pd.isnull] looks at the cells of whatever it is given, frame or
    array alike; [_estimate] below needs the index of a frame. *)
Definition __init__ (returns : DataFrame float) (lookback : nat)
           (w_bench_kwarg : option Expression) : Result instance :=
  if existsb (existsb isnull) returns then Raise AssertionError
  else Ok (mk (BaseRiskModel.__init__ BaseRiskModel.new w_bench_kwarg)
              returns lookback).

(** [R.values]: the rows of the frame as a matrix. *)
Definition values (df : DataFrame float) : option Tensor :=
  if existsb (existsb isnull) df then None
  else Some (transpose_ (map observations df)).

(** The slice [iloc[max(idx - 1 - lookback, 0) : idx - 1]]: at
    [idx = 0] the stop [-1] counts from the end of the frame. *)
Definition _estimate (self : instance) (t : nat)
           (wplus z value : Expression) : instance * Result object :=
  let n := nrows (returns self) in
  if n <=? t then (self, Raise KeyError)
  else
    let idx := t in
    let start := idx - 1 - lookback self in
    let stop := if idx =? 0 then n - 1 else idx - 1 in
    let R := map (fun c => firstn (stop - start) (skipn start c))
                 (returns self) in
    if nrows R =? 0 then (self, Raise AssertionError)
    else match values R with
         | None => (self, Raise ValueError)
         | Some Rv =>
             let e := Div (sum_squares (matmul (Const Rv) wplus))
                          (INR (lookback self)) in
             (mk (BaseRiskModel.set_expression (base self) (expr e))
                 (returns self) (lookback self),
              Ok (expr e))
         end.


End EmpSigma.

Module FactorModelSigma.

Record instance : Type := mk {
  base : BaseRiskModel.attrs;
  exposures : ParameterEstimator;
  factor_Sigma : ParameterEstimator;
  idiosync : ParameterEstimator
}.

Definition __init__ (exposures factor_Sigma idiosync : estimator.data)
           (w_bench_kwarg : option Expression) : Result instance :=
  e <- estimator.__init__ exposures false ;;
  f <- estimator.__init__ factor_Sigma false ;;
  i <- estimator.__init__ idiosync false ;;
  Ok (mk (BaseRiskModel.__init__ BaseRiskModel.new w_bench_kwarg) e f i).

Definition operand (o : object) : Result Expression :=
  match o with
  | expr e => Ok e
  | float_ x => Ok (Const (scalar x))
  | _ => Raise TypeError
  end.

Section compile.

(** What [np.sqrt] makes of a parameter object is numpy's and
    [estimator.py]'s business. *)
Variable np_sqrt : ParameterEstimator -> Result object.

(** The body reads the name [wplus]; the arguments are bound to
    [self], [w_plus], [z] and [value]. *)
Definition compile_to_cvxpy (self : instance)
           (w_plus z value : Expression)
  : instance * Result Expression :=
  let locals := [("self", instance_ "FactorModelSigma");
                 ("w_plus", expr w_plus); ("z", expr z);
                 ("value", expr value)]%string in
  let term :=
    root <- np_sqrt (idiosync self) ;;
    wplus <- load_name locals module_globals "wplus" ;;
    root <- operand root ;;
    wplus <- operand wplus ;;
    let idio := sum_squares (multiply root wplus) in
    wplus <- load_name locals module_globals "wplus" ;;
    wplus <- operand wplus ;;
    Ok (Add idio
            (quad_form
               (transpose
                  (matmul (transpose wplus)
                          (transpose (estimator.as_cvxpy (exposures self)))))
               (estimator.as_cvxpy (factor_Sigma self))))
  in
  match term with
  | Raise e => (self, Raise e)
  | Ok e =>
      (mk (BaseRiskModel.set_expression (base self) (expr e))
          (exposures self) (factor_Sigma self) (idiosync self),
       Ok e)
  end.

End compile.

End FactorModelSigma.

Module RobustSigma.

Record instance : Type := mk {
  base : BaseRiskModel.attrs;
  Sigma : estimator.data;
  epsilon : estimator.data
}.

Definition __init__ (Sigma epsilon : estimator.data)
           (w_bench_kwarg : option Expression) : Result instance :=
  Ok (mk (BaseRiskModel.__init__ BaseRiskModel.new w_bench_kwarg)
         Sigma epsilon).

End RobustSigma.

Module RobustFactorModelSigma.

(** The docstring allows a pandas object or a plain vector or matrix
    for each of the three; the attributes hold whatever was passed. *)
Record instance : Type := mk {
  base : BaseRiskModel.attrs;
  exposures : argument;
  factor_Sigma : argument;
  idiosync : argument;
  epsilon : R
}.

(** [assert not a.isnull().values.any()] *)
Definition assert_not_null (a : argument) : Result unit :=
  b <- isnull_values_any a ;;
  if b then Raise AssertionError else Ok tt.

Definition __init__ (exposures factor_Sigma idiosync : argument)
           (epsilon : R) (w_bench_kwarg : option Expression)
  : Result instance :=
  _ <- assert_not_null exposures ;;
  _ <- assert_not_null factor_Sigma ;;
  _ <- assert_not_null idiosync ;;
  Ok (mk (BaseRiskModel.__init__ BaseRiskModel.new w_bench_kwarg)
         exposures factor_Sigma idiosync epsilon).

End RobustFactorModelSigma.

Module WorstCaseRisk.

(** [risks] exists only once [_estimate] has got past its first
    statement. *)
Record instance : Type := mk {
  base : BaseRiskModel.attrs;
  riskmodels : list BaseRiskModel.instance;
  risks : option (list object)
}.

Definition __init__ (riskmodels : list BaseRiskModel.instance)
           (w_bench_kwarg : option Expression) : Result instance :=
  Ok (mk (BaseRiskModel.__init__ BaseRiskModel.new w_bench_kwarg)
         riskmodels None).

(** [[risk.weight_expr(t, wplus, z, value) for risk in models]]: the
    models are visited in order, each call may assign attributes of its
    model, and the first exception ends the loop. *)
Fixpoint comprehension (models : list BaseRiskModel.instance) (t : nat)
         (wplus z value : Expression)
  : list BaseRiskModel.instance * Result (list object) :=
  match models with
  | [] => ([], Ok [])
  | m :: ms =>
      let (m', r) := BaseRiskModel.weight_expr m t wplus z value in
      match r with
      | Raise e => (m' :: ms, Raise e)
      | Ok o =>
          let (ms', rs) := comprehension ms t wplus z value in
          (m' :: ms', l <- rs ;; Ok (o :: l))
      end
  end.

Section estimate.

(** cvxpy turns an argument that is not a term into a constant; what
    it does with a tuple is its own business. *)
Variable cast_to_const : object -> Result Expression.

(** [cvx.max_elemwise(arg1, arg2, *args)] *)
Definition max_elemwise_call (args : list object) : Result Expression :=
  match args with
  | [] | [_] => Raise TypeError
  | _ :: _ :: _ =>
      es <- mapM (fun o => match o with
                           | expr e => Ok e
                           | _ => cast_to_const o
                           end) args ;;
      Ok (max_elemwise es)
  end.

Definition _estimate (self : instance) (t : nat)
           (wplus z value : Expression) : instance * Result object :=
  let (ms, r) := comprehension (riskmodels self) t wplus z value in
  match r with
  | Raise e => (mk (base self) ms (risks self), Raise e)
  | Ok rs =>
      (mk (base self) ms (Some rs),
       e <- max_elemwise_call rs ;; Ok (expr e))
  end.

End estimate.

(** The [pd.Series] of the log, as its (index, data) pairs. *)
Definition optimization_log (self : instance) (t : nat)
  : Result (list (string * R)) :=
  let index := map BaseRiskModel.__class__ (riskmodels self) in
  match risks self with
  | None => Raise AttributeError
  | Some rs =>
      data <- mapM (fun risk => v <- getattr_value risk ;; item00 v) rs ;;
      if length index =? length data then Ok (combine index data)
      else Raise ValueError
  end.

End WorstCaseRisk.

End risks.

(** ** The estimators and models of the core, side by side *)

Module core.

Import np pd cvx builtins.
Import estimator(ParameterEstimator, TimeIndexed).
Import returns risks.

(** [df.iat[t, j]] *)
Definition iat {A} (df : DataFrame A) (t j : nat) : option A :=
  match nth_error df j with
  | Some c => nth_error c t
  | None => None
  end.

(** The windowed estimators, each with its hyper-parameters. *)
Inductive WindowEstimator : Type :=
| RollingReturns (self : RollingWindowReturnsForecast.instance)
| ExponentialReturns (self : ExponentialWindowReturnsForecast.instance)
| RollingForecastError (self : RollingWindowReturnsForecastErrorRisk.instance)
| RollingFullCovariance (self : RollingWindowFullCovariance.instance)
| ExponentialFullCovariance (self : ExponentialWindowFullCovariance.instance)
| RollingDiagonal (self : RollingWindowDiagonalCovariance.instance)
| ExponentialDiagonal (self : ExponentialWindowDiagonalCovariance.instance).

Definition attribute {A} (o : option A) : Result A :=
  match o with
  | Some a => Ok a
  | None => Raise AttributeError
  end.

(** The parameter an estimator holds once [pre_evaluation] has seen the
    panel. *)
Definition pre_evaluation (e : WindowEstimator) (returns : DataFrame float)
  : Result ParameterEstimator :=
  match e with
  | RollingReturns self =>
      s <- RollingWindowReturnsForecast.pre_evaluation self returns ;;
      attribute (RollingWindowReturnsForecast.expected_returns s)
  | ExponentialReturns self =>
      s <- ExponentialWindowReturnsForecast.pre_evaluation self returns ;;
      attribute (ExponentialWindowReturnsForecast.expected_returns s)
  | RollingForecastError self =>
      s <- RollingWindowReturnsForecastErrorRisk.pre_evaluation self returns ;;
      attribute (RollingWindowReturnsForecastErrorRisk.deltas_errors s)
  | RollingFullCovariance self =>
      s <- RollingWindowFullCovariance.pre_evaluation self returns ;;
      attribute (RollingWindowFullCovariance.Sigma s)
  | ExponentialFullCovariance self =>
      s <- ExponentialWindowFullCovariance.pre_evaluation self returns ;;
      attribute (ExponentialWindowFullCovariance.Sigma s)
  | RollingDiagonal self =>
      s <- RollingWindowDiagonalCovariance.pre_evaluation self returns ;;
      attribute (RollingWindowDiagonalCovariance.standard_deviations s)
  | ExponentialDiagonal self =>
      s <- ExponentialWindowDiagonalCovariance.pre_evaluation self returns ;;
      attribute (ExponentialWindowDiagonalCovariance.standard_deviations s)
  end.

(** The cells of a parameter that carry the time label [t], missing
    cells included. *)
Definition attributed (p : ParameterEstimator) (t : nat)
  : list (list float) :=
  match estimator.data_ p with
  | estimator.Constant v => v
  | TimeIndexed k df => at_time k t df
  end.

(** The estimate an estimator attributes to [t] on a given panel. *)
Definition estimate_at (e : WindowEstimator) (returns : DataFrame float)
           (t : nat) : Result (list (list float)) :=
  p <- pre_evaluation e returns ;;
  Ok (attributed p t).

(** The two return forecasts that can copy the last cash return. *)
Definition use_last_for_cash (e : WindowEstimator) : bool :=
  match e with
  | RollingReturns self => RollingWindowReturnsForecast.use_last_for_cash self
  | ExponentialReturns self =>
      ExponentialWindowReturnsForecast.use_last_for_cash self
  | _ => false
  end.

(** pandas accepts the window parameter: any lookback, a positive half
    life. *)
Definition accepted (e : WindowEstimator) : Prop :=
  match e with
  | ExponentialReturns self =>
      (0 < ExponentialWindowReturnsForecast.half_life self)%R
  | ExponentialFullCovariance self =>
      (0 < ExponentialWindowFullCovariance.half_life self)%R
  | ExponentialDiagonal self =>
      (0 < ExponentialWindowDiagonalCovariance.half_life self)%R
  | _ => True
  end.

(** A call of a constructor of the core, with its arguments: every class
    of [returns.py] and [risks.py] but [BaseReturnsModel], whose body is
    [pass] and whose constructor is the one of [BaseCost].  The call of
    [LegacyReturnsForecast] comes with the [null_checker] that [utils.py]
    supplies. *)
Inductive construction : Type :=
| new_ReturnsForecast (expected_returns : estimator.data)
| new_RollingWindowReturnsForecast (lookback_period : nat)
                                   (use_last_for_cash : bool)
| new_ExponentialWindowReturnsForecast (half_life : R)
                                       (use_last_for_cash : bool)
| new_ReturnsForecastErrorRisk (deltas_errors : estimator.data)
| new_RollingWindowReturnsForecastErrorRisk (lookback_period : nat)
                                            (zero_for_cash : bool)
| new_ExponentialWindowReturnsForecastErrorRisk
| new_LegacyReturnsForecast (null_checker : argument -> Result unit)
                            (returns delta : argument)
                            (gamma_decay : option R) (name : option string)
| new_MPOReturnsForecast (alpha_data : list ((nat * nat) * Series float))
| new_MultipleReturnsForecasts
    (alpha_sources : list MultipleReturnsForecasts.source) (weights : list R)
| new_BaseRiskModel (w_bench : option Expression)
| new_FullCovariance (Sigma : estimator.data) (w_bench : option Expression)
| new_RollingWindowFullCovariance (lookback_period : nat)
| new_ExponentialWindowFullCovariance (half_life : R)
| new_DiagonalCovariance (standard_deviations : estimator.data)
| new_RollingWindowDiagonalCovariance (lookback_period : nat)
| new_ExponentialWindowDiagonalCovariance (half_life : R)
| new_EmpSigma (returns : DataFrame float) (lookback : nat)
               (w_bench : option Expression)
| new_FactorModelSigma (exposures factor_Sigma idiosync : estimator.data)
                       (w_bench : option Expression)
| new_RobustSigma (Sigma epsilon : estimator.data)
                  (w_bench : option Expression)
| new_RobustFactorModelSigma (exposures factor_Sigma idiosync : argument)
                             (epsilon : R) (w_bench : option Expression)
| new_WorstCaseRisk (riskmodels : list BaseRiskModel.instance)
                    (w_bench : option Expression).

Definition outcome {A} (r : Result A) : Result unit :=
  _ <- r ;; Ok tt.

(** Whether the constructor returns or raises. *)
Definition construct (c : construction) : Result unit :=
  match c with
  | new_ReturnsForecast d => outcome (ReturnsForecast.__init__ d)
  | new_RollingWindowReturnsForecast l b =>
      outcome (RollingWindowReturnsForecast.__init__ l b)
  | new_ExponentialWindowReturnsForecast h b =>
      outcome (ExponentialWindowReturnsForecast.__init__ h b)
  | new_ReturnsForecastErrorRisk d =>
      outcome (ReturnsForecastErrorRisk.__init__ d)
  | new_RollingWindowReturnsForecastErrorRisk l b =>
      outcome (RollingWindowReturnsForecastErrorRisk.__init__ l b)
  | new_ExponentialWindowReturnsForecastErrorRisk =>
      outcome ExponentialWindowReturnsForecastErrorRisk.__init__
  | new_LegacyReturnsForecast null_checker r d g n =>
      outcome (LegacyReturnsForecast.__init__ null_checker r d g n)
  | new_MPOReturnsForecast a => outcome (MPOReturnsForecast.__init__ a)
  | new_MultipleReturnsForecasts srcs ws =>
      outcome (MultipleReturnsForecasts.__init__ srcs ws)
  | new_BaseRiskModel w =>
      outcome (Ok (BaseRiskModel.__init__ BaseRiskModel.new w))
  | new_FullCovariance s w => outcome (FullCovariance.__init__ s w)
  | new_RollingWindowFullCovariance l =>
      outcome (RollingWindowFullCovariance.__init__ l)
  | new_ExponentialWindowFullCovariance h =>
      outcome (ExponentialWindowFullCovariance.__init__ h)
  | new_DiagonalCovariance s => outcome (DiagonalCovariance.__init__ s)
  | new_RollingWindowDiagonalCovariance l =>
      outcome (RollingWindowDiagonalCovariance.__init__ l)
  | new_ExponentialWindowDiagonalCovariance h =>
      outcome (ExponentialWindowDiagonalCovariance.__init__ h)
  | new_EmpSigma r l w => outcome (EmpSigma.__init__ r l w)
  | new_FactorModelSigma e f i w => outcome (FactorModelSigma.__init__ e f i w)
  | new_RobustSigma s e w => outcome (RobustSigma.__init__ s e w)
  | new_RobustFactorModelSigma e f i eps w =>
      outcome (RobustFactorModelSigma.__init__ e f i eps w)
  | new_WorstCaseRisk ms w => outcome (WorstCaseRisk.__init__ ms w)
  end.

End core.

(** ** Concrete panels and models *)

Module scenarios.

Import np pd cvx builtins returns risks core.

(** Two periods of one asset and cash, and the same panel with the
    second period changed. *)
Definition panel : DataFrame float := [[num 1; num 2]; [num 3; num 4]].

Definition panel' : DataFrame float := [[num 1; num 5]; [num 3; num 6]].

(** Three periods of one asset and cash at zero. *)
Definition panel3 : DataFrame float :=
  [[num 1; num 3; num 5]; [num 0; num 0; num 0]].

Definition rolling1 : WindowEstimator :=
  RollingReturns (RollingWindowReturnsForecast.mk 1 true None).

(** A parameter that shows the value [v] to cvxpy. *)
Definition resolved (v : Tensor) : estimator.ParameterEstimator :=
  estimator.mkParameterEstimator
    (estimator.Constant (map (map num) (transpose_ v))) false (Some v).

(** One asset with standard deviation 1, benchmark weight 1, and
    post-trade weight 1: the deviation from the benchmark is zero. *)
Definition benchmarked : BaseRiskModel.attrs :=
  BaseRiskModel.mk None (estimator.as_cvxpy (resolved (column [1%R]))) None.

Definition diagonal : DiagonalCovariance.instance :=
  DiagonalCovariance.mk benchmarked (resolved (column [1%R])).

Definition full : FullCovariance.instance :=
  FullCovariance.mk benchmarked (resolved (diag [(1 * 1)%R])).

Definition holdings : Expression := Var (Some (column [1%R])).

(** A legacy model with a three-period panel of one asset. *)
Definition emp_sigma : EmpSigma.instance :=
  EmpSigma.mk (BaseRiskModel.__init__ BaseRiskModel.new None)
              [[num 1; num 2; num 3]] 1.


(** A model whose [_estimate] compiles the full covariance term and
    assigns nothing. *)
Definition pure_full : BaseRiskModel.instance :=
  BaseRiskModel.Build "FullCovariance"
    (BaseRiskModel.__init__ BaseRiskModel.new None)
    (fun a _ w_plus z value =>
       (a, Ok (tuple [expr (FullCovariance.compile_to_cvxpy
                              (FullCovariance.mk a (resolved (diag [1%R])))
                              w_plus z value);
                      list_ []]))).

(** Holdings at zero in a diagonal model: the realized risk is zero. *)
Definition at_rest : Expression :=
  DiagonalCovariance.compile_to_cvxpy
    (DiagonalCovariance.mk BaseRiskModel.new (resolved (column [1%R])))
    (Var (Some (column [0%R]))) (Const (scalar 0)) (Const (scalar 1)).

End scenarios.

(** ** Notions used in the statements *)

(** A transformation of a series is causal at [t] when its cell at [t] is
    the same on any two series that agree on the rows before [t]. *)
Definition causal_at (t : nat)
           (F : pd.Series np.float -> pd.Series np.float) : Prop :=
  forall s s',
    firstn t s = firstn t s' -> t < length s -> t < length s' ->
    nth_error (F s) t = nth_error (F s') t.

(** The products of two vectors, entry by entry. *)
Definition zipmul (u v : list R) : list R :=
  map (fun p => (fst p * snd p)%R) (combine u v).

(** The cell of a stacked frame in column [j], at the row that time label
    [t] holds for asset [a], when every label owns [k] rows. *)
Definition block_entry {A} (k t a j : nat) (df : pd.DataFrame A) : option A :=
  match nth_error df j with
  | Some c => nth_error c (t * k + a)
  | None => None
  end.

(** Every cell is missing. *)
Definition all_missing (cells : list (list np.float)) : Prop :=
  Forall (Forall (fun c => c = np.nan)) cells.

(** The forecast error that overwrites its cash column with zero. *)
Definition zeroes_cash (e : core.WindowEstimator) : bool :=
  match e with
  | core.RollingForecastError self =>
      returns.RollingWindowReturnsForecastErrorRisk.zero_for_cash self
  | _ => false
  end.

(** The half life of the exponential estimators. *)
Definition half_life_of (e : core.WindowEstimator) : option R :=
  match e with
  | core.ExponentialReturns self =>
      Some (returns.ExponentialWindowReturnsForecast.half_life self)
  | core.ExponentialFullCovariance self =>
      Some (risks.ExponentialWindowFullCovariance.half_life self)
  | core.ExponentialDiagonal self =>
      Some (risks.ExponentialWindowDiagonalCovariance.half_life self)
  | _ => None
  end.

(** The estimators that drop the cash column before they estimate. *)
Definition drops_cash (e : core.WindowEstimator) : bool :=
  match e with
  | core.RollingFullCovariance _ | core.ExponentialFullCovariance _
  | core.RollingDiagonal _ | core.ExponentialDiagonal _ => true
  | _ => false
  end.

(** The number of rows a time label owns in the derived frame. *)
Definition rows_per_label (e : core.WindowEstimator)
           (returns : pd.DataFrame np.float) : nat :=
  match e with
  | core.RollingFullCovariance _ | core.ExponentialFullCovariance _ =>
      pd.shape1 returns - 1
  | _ => 1
  end.



(** Closes an equation between two 1 x 1 values by linear arithmetic. *)
Ltac real_cell :=
  match goal with
  | |- Some [[?a]] = Some [[?b]] => replace a with b by lra; reflexivity
  end.

(** * Properties *)

Import np pd.

(** ** Lists, series and shifts *)

Lemma firstn1_skipn {A} (l : list A) (t : nat) :
  firstn 1 (skipn t l) =
  match nth_error l t with
  | Some x => [x]
  | None => []
  end.
Proof.
  revert l; induction t as [|t IH]; intros [|x l]; try reflexivity.
  apply IH.
Qed.

Lemma nth_error_map_seq {A} (g : nat -> A) (n i : nat) :
  i < n -> nth_error (map g (seq 0 n)) i = Some (g i).
Proof.
  intros Hi.
  rewrite nth_error_map, nth_error_seq.
  destruct (Nat.ltb_spec i n); [reflexivity | lia].
Qed.

Lemma nth_error_shift (k t : nat) (s : Series float) :
  nth_error (shift k s) t =
  if t <? length s
  then if t <? k then Some nan else nth_error s (t - k)
  else None.
Proof.
  unfold shift.
  destruct (Nat.ltb_spec t (length s)) as [Hlt|Hge].
  - rewrite nth_error_firstn.
    destruct (Nat.ltb_spec t (length s)); [|lia].
    destruct (Nat.ltb_spec t k) as [Hk|Hk].
    + rewrite nth_error_app1 by (rewrite repeat_length; lia).
      apply nth_error_repeat; assumption.
    + rewrite nth_error_app2 by (rewrite repeat_length; lia).
      rewrite repeat_length; reflexivity.
  - apply nth_error_None.
    rewrite length_firstn; lia.
Qed.

Lemma shift_length (k : nat) (s : Series float) :
  length (shift k s) = length s.
Proof.
  unfold shift.
  rewrite length_firstn, length_app, repeat_length; lia.
Qed.

(** The cell at [t] of a shifted causal series. *)
Lemma cell_shift1 (g : nat -> float) (n t : nat) :
  t < n ->
  nth_error (shift 1 (map g (seq 0 n))) t =
  Some (match t with
        | O => nan
        | S i => g i
        end).
Proof.
  intros Ht.
  rewrite nth_error_shift, length_map, length_seq.
  destruct (Nat.ltb_spec t n); [|lia].
  destruct t as [|i]; simpl; [reflexivity|].
  rewrite Nat.sub_0_r.
  apply nth_error_map_seq; lia.
Qed.

Lemma firstn_agree {A} (s s' : list A) (i t : nat) :
  i <= t -> firstn t s = firstn t s' -> firstn i s = firstn i s'.
Proof.
  intros Hi H.
  rewrite <- (Nat.min_l i t Hi), <- !firstn_firstn.
  now rewrite H.
Qed.

Lemma head_agree {A} (t : nat) (p1 p2 : DataFrame A) :
  head t p1 = head t p2 ->
  Forall2 (fun c1 c2 => firstn t c1 = firstn t c2) p1 p2.
Proof.
  unfold head.
  revert p2; induction p1 as [|c1 p1 IH]; intros [|c2 p2] H;
    simpl in H; try discriminate; constructor.
  - now injection H.
  - apply IH; now injection H.
Qed.

Lemma map_Forall2 {A B} (P : A -> A -> Prop) (f g : A -> B) (l1 l2 : list A) :
  (forall a b, P a b -> f a = g b) ->
  Forall2 P l1 l2 -> map f l1 = map g l2.
Proof.
  intros Hfg H; induction H; simpl; [reflexivity|].
  f_equal; auto.
Qed.

Lemma shifted_causal (G : nat -> Series float -> float) (s s' : Series float)
      (t : nat) :
  (forall i, S i = t -> G i s = G i s') ->
  t < length s -> t < length s' ->
  nth_error (shift 1 (map (fun i => G i s) (seq 0 (length s)))) t =
  nth_error (shift 1 (map (fun i => G i s') (seq 0 (length s')))) t.
Proof.
  intros HG Hs Hs'.
  rewrite !cell_shift1 by assumption.
  destruct t as [|i]; [reflexivity|].
  f_equal; apply HG; reflexivity.
Qed.

Lemma at_time1 {A} (t : nat) (df : DataFrame A) :
  at_time 1 t df =
  map (fun c => match nth_error c t with
                | Some x => [x]
                | None => []
                end) df.
Proof.
  unfold at_time.
  apply map_ext; intros c.
  rewrite Nat.mul_1_r.
  apply firstn1_skipn.
Qed.

Lemma at_time1_agree (F F' : Series float -> Series float)
      (p1 p2 : DataFrame float) (t : nat) :
  Forall2 (fun c1 c2 => nth_error (F c1) t = nth_error (F' c2) t) p1 p2 ->
  at_time 1 t (map F p1) = at_time 1 t (map F' p2).
Proof.
  intros H.
  rewrite !at_time1, !map_map.
  eapply map_Forall2; [|exact H].
  intros a b Hab; simpl in Hab; now rewrite Hab.
Qed.

Lemma at_time_app {A} (k t : nat) (df df' : DataFrame A) :
  at_time k t (df ++ df') = at_time k t df ++ at_time k t df'.
Proof. apply map_app. Qed.

(** *** Frames with a last column *)

Lemma snoc_cases {A} (l : list A) :
  l = [] \/ exists init x, l = init ++ [x].
Proof.
  destruct l as [|a l]; [now left|right].
  destruct (exists_last (l := a :: l)) as (init & x & E); [discriminate|].
  now exists init, x.
Qed.

Lemma iloc_last_snoc {A} (init : DataFrame A) (c : Series A) :
  iloc_last (init ++ [c]) = Ok c.
Proof.
  unfold iloc_last; now rewrite rev_unit.
Qed.

Lemma iloc_set_last_snoc {A} (init : DataFrame A) (c c' : Series A) :
  iloc_set_last (init ++ [c]) c' = Ok (init ++ [c']).
Proof.
  unfold iloc_set_last.
  rewrite removelast_last.
  destruct init; reflexivity.
Qed.

Lemma nrows_map {A B} (F : Series A -> Series B) (df : DataFrame A) :
  (forall c, length (F c) = length c) ->
  nrows (map F df) = nrows df.
Proof.
  intros HF; destruct df; simpl; auto.
Qed.

Lemma Forall2_snoc_inv {A} (P : A -> A -> Prop) (init : list A) (x : A)
      (l : list A) :
  Forall2 P (init ++ [x]) l ->
  exists init' x', l = init' ++ [x'] /\ Forall2 P init init' /\ P x x'.
Proof.
  intros H.
  apply Forall2_app_inv_l in H as (init' & l2 & Hinit & Hx & ->).
  inversion Hx as [|? x' ? l3 Hxx Hnil]; subst.
  inversion Hnil; subst.
  now exists init', x'.
Qed.

(** *** Windows only look back *)

Lemma window_causal {A} (w i : nat) (s s' : Series A) :
  firstn (S i) s = firstn (S i) s' -> window w i s = window w i s'.
Proof.
  unfold window; rewrite Nat.add_1_r; now intros ->.
Qed.

Lemma weighted_causal {A} (h : R) (i : nat) (s s' : Series A) :
  firstn (S i) s = firstn (S i) s' -> weighted h i s = weighted h i s'.
Proof.
  unfold weighted; rewrite Nat.add_1_r; now intros ->.
Qed.

Lemma rolling_cov_at_causal (w i : nat) (sx sx' sy sy' : Series float) :
  firstn (S i) sx = firstn (S i) sx' ->
  firstn (S i) sy = firstn (S i) sy' ->
  rolling_cov_at w i sx sy = rolling_cov_at w i sx' sy'.
Proof.
  intros Hx Hy; unfold rolling_cov_at.
  now rewrite (window_causal w i _ _ Hx), (window_causal w i _ _ Hy).
Qed.

Lemma ewm_mean_at_causal (h : R) (i : nat) (s s' : Series float) :
  firstn (S i) s = firstn (S i) s' -> ewm_mean_at h i s = ewm_mean_at h i s'.
Proof.
  intros H; unfold ewm_mean_at.
  now rewrite (weighted_causal h i _ _ H).
Qed.

Lemma ewm_cov_at_causal (h : R) (i : nat) (sx sx' sy sy' : Series float) :
  firstn (S i) sx = firstn (S i) sx' ->
  firstn (S i) sy = firstn (S i) sy' ->
  ewm_cov_at h i sx sy = ewm_cov_at h i sx' sy'.
Proof.
  intros Hx Hy; unfold ewm_cov_at.
  rewrite (weighted_causal h i (combine sx sy) (combine sx' sy'));
    [reflexivity|].
  now rewrite !combine_firstn, Hx, Hy.
Qed.

(** *** Series transformations whose cell at [t] only sees earlier rows *)

Lemma causal_map (t : nat) (f : float -> float) F :
  causal_at t F -> causal_at t (fun c => map f (F c)).
Proof.
  intros HF s s' H Hs Hs'.
  rewrite !nth_error_map.
  now rewrite (HF s s' H Hs Hs').
Qed.

Lemma causal_shift (t : nat) : causal_at t (shift 1).
Proof.
  intros s s' H Hs Hs'.
  rewrite !nth_error_shift.
  destruct (Nat.ltb_spec t (length s)); [|lia].
  destruct (Nat.ltb_spec t (length s')); [|lia].
  destruct (Nat.ltb_spec t 1); [reflexivity|].
  assert (E : forall l : Series float,
             nth_error l (t - 1) = nth_error (firstn t l) (t - 1)).
  { intros l; rewrite nth_error_firstn.
    destruct (Nat.ltb_spec (t - 1) t); [reflexivity | lia]. }
  now rewrite (E s), (E s'), H.
Qed.

Lemma causal_rolling_mean (t w : nat) :
  causal_at t (fun c => shift 1 (rolling_mean w c)).
Proof.
  intros s s' H Hs Hs'; unfold rolling_mean.
  apply (shifted_causal
           (fun i c => let obs := observations (window w i c) in
                       if (length obs <? w) || (length obs =? 0) then nan
                       else num (mean obs))); auto.
  intros i <-; simpl.
  now rewrite (window_causal w i s s' H).
Qed.

Lemma causal_rolling_var (t w : nat) :
  causal_at t (fun c => shift 1 (rolling_var w c)).
Proof.
  intros s s' H Hs Hs'; unfold rolling_var.
  apply (shifted_causal (fun i c => rolling_cov_at w i c c)); auto.
  intros i <-; now apply rolling_cov_at_causal.
Qed.

Lemma causal_rolling_std (t w : nat) :
  causal_at t (fun c => shift 1 (rolling_std w c)).
Proof.
  intros s s' H Hs Hs'; unfold rolling_std, rolling_var.
  rewrite !map_map.
  apply (shifted_causal (fun i c => zsqrt (rolling_cov_at w i c c))); auto.
  intros i <-; f_equal; now apply rolling_cov_at_causal.
Qed.

Lemma causal_ewm_mean (t : nat) (h : R) :
  causal_at t (fun c => shift 1 (ewm_mean h c)).
Proof.
  intros s s' H Hs Hs'; unfold ewm_mean.
  apply (shifted_causal (fun i c => ewm_mean_at h i c)); auto.
  intros i <-; now apply ewm_mean_at_causal.
Qed.

Lemma causal_ewm_var (t : nat) (h : R) :
  causal_at t (fun c => shift 1 (ewm_var h c)).
Proof.
  intros s s' H Hs Hs'; unfold ewm_var.
  apply (shifted_causal (fun i c => ewm_cov_at h i c c)); auto.
  intros i <-; now apply ewm_cov_at_causal.
Qed.

Lemma wf_rows {A} (t : nat) (p : DataFrame A) :
  well_formed p -> t < nrows p -> Forall (fun c => t < length c) p.
Proof.
  intros [T HT] Ht.
  destruct p as [|c p]; [constructor|].
  simpl in Ht.
  assert (T = length c) by (inversion HT; subst; reflexivity); subst T.
  eapply Forall_impl; [|exact HT].
  simpl; intros a ->; assumption.
Qed.

Lemma agree_cells (F : Series float -> Series float) (t : nat)
      (p1 p2 : DataFrame float) :
  causal_at t F ->
  Forall2 (fun c1 c2 => firstn t c1 = firstn t c2) p1 p2 ->
  Forall (fun c => t < length c) p1 ->
  Forall (fun c => t < length c) p2 ->
  at_time 1 t (map F p1) = at_time 1 t (map F p2).
Proof.
  intros HF H H1 H2.
  apply at_time1_agree.
  induction H as [|c1 c2 p1 p2 Hc Hp IH]; constructor.
  - apply HF; [assumption| |]; [now inversion H1 | now inversion H2].
  - apply IH; [now inversion H1 | now inversion H2].
Qed.

(** *** Stacked frames of covariances *)

Lemma length_flat_map_const {A B} (f : A -> list B) (N : nat) (l : list A) :
  (forall a, length (f a) = N) -> length (flat_map f l) = length l * N.
Proof.
  intros Hf; induction l as [|a l IH]; simpl; [reflexivity|].
  rewrite length_app, Hf, IH; reflexivity.
Qed.

Lemma block_flat_map {A} (f : nat -> list A) (N : nat) :
  (forall i, length (f i) = N) ->
  forall n a i, i < n ->
    firstn N (skipn (i * N) (flat_map f (seq a n))) = f (a + i).
Proof.
  intros Hf; induction n as [|n IH]; intros a i Hi; [lia|].
  simpl seq; simpl flat_map.
  destruct i as [|i].
  - simpl skipn. rewrite Nat.add_0_r.
    rewrite firstn_app, Hf, Nat.sub_diag, firstn_O, app_nil_r.
    rewrite <- (Hf a) at 1; apply firstn_all.
  - rewrite skipn_app, Hf.
    rewrite (skipn_all2 (f a)) by (rewrite Hf; simpl; lia).
    simpl app.
    replace (N + i * N - N) with (i * N) by lia.
    rewrite IH by lia.
    f_equal; lia.
Qed.

Lemma block_shift (f : nat -> list float) (N T t : nat) :
  (forall i, length (f i) = N) ->
  t < T ->
  firstn N (skipn (t * N) (shift N (flat_map f (seq 0 T)))) =
  match t with
  | O => repeat nan N
  | S i => f i
  end.
Proof.
  intros Hf Ht.
  unfold shift.
  rewrite (length_flat_map_const f (seq 0 T) Hf), length_seq.
  rewrite skipn_firstn_comm, firstn_firstn.
  assert (HN : Nat.min N (T * N - t * N) = N).
  { apply Nat.min_l. rewrite <- Nat.mul_sub_distr_r.
    destruct (T - t) eqn:E; [lia|]. simpl; lia. }
  rewrite HN.
  destruct t as [|i].
  - simpl skipn.
    rewrite firstn_app, repeat_length, Nat.sub_diag, firstn_O, app_nil_r.
    rewrite <- (repeat_length nan N) at 1; apply firstn_all.
  - rewrite skipn_app, repeat_length.
    rewrite (skipn_all2 (repeat nan N)) by (rewrite repeat_length; simpl; lia).
    simpl app.
    change (S i * N) with (N + i * N).
    replace (N + i * N - N) with (i * N) by lia.
    rewrite (block_flat_map f Hf) by lia.
    reflexivity.
Qed.

Lemma cov_blocks (G : nat -> Series float -> Series float -> float)
      (t : nat) (df : DataFrame float) :
  Forall (fun c => t < length c) df ->
  at_time (length df) t
          (map (shift (length df))
               (map (fun cj =>
                       flat_map (fun i => map (fun ca => G i ca cj) df)
                                (seq 0 (nrows df)))
                    df)) =
  map (fun cj => match t with
                 | O => repeat nan (length df)
                 | S i => map (fun ca => G i ca cj) df
                 end) df.
Proof.
  intros Hrows.
  destruct df as [|c df]; [reflexivity|].
  remember (c :: df) as p eqn:Ep.
  unfold at_time; rewrite !map_map.
  apply map_ext; intros cj.
  apply (block_shift (fun i => map (fun ca => G i ca cj) p)).
  - intros i; apply length_map.
  - subst p; inversion Hrows; subst; assumption.
Qed.

Lemma cov_blocks_agree (G : nat -> Series float -> Series float -> float)
      (t : nat) (p1 p2 : DataFrame float) :
  (forall i sx sx' sy sy',
      firstn (S i) sx = firstn (S i) sx' ->
      firstn (S i) sy = firstn (S i) sy' ->
      G i sx sy = G i sx' sy') ->
  Forall2 (fun c1 c2 => firstn t c1 = firstn t c2) p1 p2 ->
  map (fun cj => match t with
                 | O => repeat nan (length p1)
                 | S i => map (fun ca => G i ca cj) p1
                 end) p1 =
  map (fun cj => match t with
                 | O => repeat nan (length p2)
                 | S i => map (fun ca => G i ca cj) p2
                 end) p2.
Proof.
  intros HG H.
  pose proof (Forall2_length H) as HN.
  apply map_Forall2 with (P := fun c1 c2 => firstn t c1 = firstn t c2);
    [|assumption].
  intros cj cj' Hj.
  destruct t as [|i]; [f_equal; exact HN|].
  apply map_Forall2 with (P := fun c1 c2 => firstn (S i) c1 = firstn (S i) c2);
    [|assumption].
  intros ca ca' Ha; now apply HG.
Qed.

(** ** The frames the estimators derive *)

Import core returns risks.

Lemma rolling_forecasts_snoc (self : RollingWindowReturnsForecast.instance)
      (init : DataFrame float) (cash : Series float) :
  RollingWindowReturnsForecast.forecasts self (init ++ [cash]) =
  let L := RollingWindowReturnsForecast.lookback_period self in
  let F := fun c => shift 1 (rolling_mean L c) in
  Ok (map F init ++
      [if RollingWindowReturnsForecast.use_last_for_cash self
       then shift 1 cash else F cash]).
Proof.
  unfold RollingWindowReturnsForecast.forecasts.
  rewrite map_app; simpl map.
  destruct (RollingWindowReturnsForecast.use_last_for_cash self);
    [|reflexivity].
  rewrite iloc_last_snoc; simpl.
  apply iloc_set_last_snoc.
Qed.

Lemma exponential_forecasts_snoc
      (self : ExponentialWindowReturnsForecast.instance)
      (init : DataFrame float) (cash : Series float) :
  (0 < ExponentialWindowReturnsForecast.half_life self)%R ->
  ExponentialWindowReturnsForecast.forecasts self (init ++ [cash]) =
  let F := fun c =>
             shift 1 (ewm_mean
                        (ExponentialWindowReturnsForecast.half_life self) c) in
  Ok (map F init ++
      [if ExponentialWindowReturnsForecast.use_last_for_cash self
       then shift 1 cash else F cash]).
Proof.
  intros Hh.
  unfold ExponentialWindowReturnsForecast.forecasts, ewm_check.
  destruct (Rlt_dec 0 (ExponentialWindowReturnsForecast.half_life self));
    [|contradiction].
  simpl bind.
  rewrite map_app; simpl map.
  destruct (ExponentialWindowReturnsForecast.use_last_for_cash self);
    [|reflexivity].
  rewrite iloc_last_snoc; simpl.
  apply iloc_set_last_snoc.
Qed.

Lemma rolling_std_length (w : nat) (s : Series float) :
  length (rolling_std w s) = length s.
Proof.
  unfold rolling_std, rolling_var.
  now rewrite !length_map, length_seq.
Qed.

Lemma errors_snoc (self : RollingWindowReturnsForecastErrorRisk.instance)
      (init : DataFrame float) (cash : Series float) :
  RollingWindowReturnsForecastErrorRisk.errors self (init ++ [cash]) =
  let L := RollingWindowReturnsForecastErrorRisk.lookback_period self in
  let F := fun c =>
             map (fun x => divide x (R_sqrt.sqrt (INR L)))
                 (shift 1 (rolling_std L c)) in
  Ok (map F init ++
      [if RollingWindowReturnsForecastErrorRisk.zero_for_cash self
       then repeat (num 0) (nrows (init ++ [cash])) else F cash]).
Proof.
  unfold RollingWindowReturnsForecastErrorRisk.errors.
  destruct (RollingWindowReturnsForecastErrorRisk.zero_for_cash self).
  - unfold iloc_fill_last.
    rewrite nrows_map
      by (intros c; now rewrite length_map, shift_length, rolling_std_length).
    rewrite map_app; simpl map.
    apply iloc_set_last_snoc.
  - now rewrite map_app.
Qed.

Lemma at_time1_repeat {A} (a : A) (n t : nat) :
  t < n -> at_time 1 t [repeat a n] = [[a]].
Proof.
  intros Ht; rewrite at_time1; simpl.
  now rewrite nth_error_repeat.
Qed.

Lemma nrows_snoc_rows {A} (t : nat) (init : DataFrame A) (x : Series A) :
  Forall (fun c => t < length c) (init ++ [x]) ->
  t < nrows (init ++ [x]) /\ t < length x /\
  Forall (fun c => t < length c) init.
Proof.
  intros H.
  apply Forall_app in H as [Hi Hx].
  inversion Hx; subst.
  repeat split; try assumption.
  destruct init as [|c init]; simpl; [assumption|].
  now inversion Hi.
Qed.

Lemma agree_snoc (F G : Series float -> Series float) (t : nat)
      (i1 i2 : DataFrame float) (x1 x2 : Series float) :
  causal_at t F -> causal_at t G ->
  Forall2 (fun c1 c2 => firstn t c1 = firstn t c2) i1 i2 ->
  firstn t x1 = firstn t x2 ->
  Forall (fun c => t < length c) (i1 ++ [x1]) ->
  Forall (fun c => t < length c) (i2 ++ [x2]) ->
  at_time 1 t (map F i1 ++ [G x1]) = at_time 1 t (map F i2 ++ [G x2]).
Proof.
  intros HF HG Hi Hx R1 R2.
  apply nrows_snoc_rows in R1 as (_ & L1 & R1).
  apply nrows_snoc_rows in R2 as (_ & L2 & R2).
  rewrite !at_time_app; f_equal.
  - now apply agree_cells.
  - apply (agree_cells (p1 := [x1]) (p2 := [x2]) HG); auto.
Qed.

(** ** No look-ahead *)

(** C1.  For every rolling or exponential window estimator (return
    forecast, forecast error, full covariance, diagonal covariance), two
    return panels that agree on all rows before [t] get the same estimate
    attributed to [t]: rows at or after [t] have no influence on it. *)
Theorem estimate_has_no_lookahead
        (e : WindowEstimator) (p1 p2 : DataFrame float) (t : nat) :
  well_formed p1 -> well_formed p2 ->
  t < nrows p1 -> t < nrows p2 ->
  head t p1 = head t p2 ->
  estimate_at e p1 t = estimate_at e p2 t.
Proof.
  intros W1 W2 T1 T2 H.
  pose proof (wf_rows W1 T1) as R1.
  pose proof (wf_rows W2 T2) as R2.
  apply head_agree in H.
  destruct (snoc_cases p1) as [->|(i1 & x1 & ->)]; [simpl in T1; lia|].
  apply Forall2_snoc_inv in H as (i2 & x2 & -> & Hi & Hx).
  destruct (nrows_snoc_rows _ _ R1) as (_ & L1 & Ri1).
  destruct (nrows_snoc_rows _ _ R2) as (_ & L2 & Ri2).
  unfold estimate_at, pre_evaluation.
  destruct e as [s|s|s|s|s|s|s].
  - unfold RollingWindowReturnsForecast.pre_evaluation.
    rewrite !rolling_forecasts_snoc; cbn.
    f_equal.
    destruct (RollingWindowReturnsForecast.use_last_for_cash s);
      [apply (agree_snoc (G := shift 1))
      |apply (agree_snoc (G := fun c => shift 1 (rolling_mean _ c)))];
      auto using causal_shift, causal_rolling_mean.
  - unfold ExponentialWindowReturnsForecast.pre_evaluation.
    destruct (Rlt_dec 0 (ExponentialWindowReturnsForecast.half_life s))
      as [Hh|Hh].
    + rewrite !exponential_forecasts_snoc by assumption; cbn.
      f_equal.
      destruct (ExponentialWindowReturnsForecast.use_last_for_cash s);
        [apply (agree_snoc (G := shift 1))
        |apply (agree_snoc (G := fun c => shift 1 (ewm_mean _ c)))];
        auto using causal_shift, causal_ewm_mean.
    + unfold ExponentialWindowReturnsForecast.forecasts, ewm_check.
      destruct (Rlt_dec 0 (ExponentialWindowReturnsForecast.half_life s));
        [contradiction | reflexivity].
  - unfold RollingWindowReturnsForecastErrorRisk.pre_evaluation.
    rewrite !errors_snoc; cbn.
    f_equal.
    destruct (RollingWindowReturnsForecastErrorRisk.zero_for_cash s).
    + rewrite !at_time_app; f_equal.
      * apply agree_cells;
          auto using causal_map, causal_rolling_std.
      * rewrite !at_time1_repeat; [reflexivity| |].
        -- now destruct (nrows_snoc_rows _ _ R2).
        -- now destruct (nrows_snoc_rows _ _ R1).
    + apply (agree_snoc
               (G := fun c => map _ (shift 1 (rolling_std _ c))));
        auto using causal_map, causal_rolling_std.
  - unfold RollingWindowFullCovariance.pre_evaluation,
      RollingWindowFullCovariance.covariances, iloc_all_but_last, shape1.
    rewrite !removelast_last; cbn.
    f_equal.
    unfold rolling_cov.
    rewrite !cov_blocks by assumption.
    apply cov_blocks_agree; [|assumption].
    intros; now apply rolling_cov_at_causal.
  - unfold ExponentialWindowFullCovariance.pre_evaluation,
      ExponentialWindowFullCovariance.covariances, iloc_all_but_last, shape1,
      ewm_check.
    rewrite !removelast_last.
    destruct (Rlt_dec 0 (ExponentialWindowFullCovariance.half_life s));
      [|reflexivity].
    cbn; f_equal.
    unfold ewm_cov.
    rewrite !cov_blocks by assumption.
    apply cov_blocks_agree; [|assumption].
    intros; now apply ewm_cov_at_causal.
  - unfold RollingWindowDiagonalCovariance.pre_evaluation,
      RollingWindowDiagonalCovariance.deviations, iloc_all_but_last.
    rewrite !removelast_last; cbn.
    f_equal.
    apply agree_cells; auto using causal_map, causal_rolling_var.
  - unfold ExponentialWindowDiagonalCovariance.pre_evaluation,
      ExponentialWindowDiagonalCovariance.deviations, iloc_all_but_last,
      ewm_check.
    rewrite !removelast_last.
    destruct (Rlt_dec 0 (ExponentialWindowDiagonalCovariance.half_life s));
      [|reflexivity].
    cbn; f_equal.
    apply agree_cells; auto using causal_map, causal_ewm_var.
Qed.

(** ** Windows of observed returns *)

Lemma observations_num (xs : list R) : observations (map num xs) = xs.
Proof.
  unfold observations.
  induction xs as [|x xs IH]; simpl; [reflexivity|now rewrite IH].
Qed.

Lemma observations2_num (xs : list R) :
  observations2 (map num xs) (map num xs) = combine xs xs.
Proof.
  unfold observations2.
  induction xs as [|x xs IH]; simpl; [reflexivity|now rewrite IH].
Qed.

Lemma observations_length (win : list float) :
  length (observations win) <= length win.
Proof.
  unfold observations.
  induction win as [|[x|] win IH]; simpl; lia.
Qed.

Lemma observations2_length (wx wy : list float) :
  length (observations2 wx wy) <= length wx.
Proof.
  unfold observations2.
  revert wy; induction wx as [|x wx IH]; intros [|y wy]; simpl; try lia.
  specialize (IH wy).
  destruct x, y; simpl; lia.
Qed.

Lemma window_length {A} (w i : nat) (s : Series A) :
  length (window w i s) <= i + 1.
Proof.
  unfold window.
  rewrite length_skipn, length_firstn; lia.
Qed.

(** A full window that ends at row [i] is the [w] rows up to [i]. *)
Lemma window_full {A} (w i : nat) (s : Series A) :
  w <= i + 1 -> window w i s = firstn w (skipn (i + 1 - w) s).
Proof.
  intros Hw; unfold window.
  rewrite firstn_skipn_comm.
  do 2 f_equal; lia.
Qed.

Lemma map_fst_combine_diag {A} (l : list A) : map fst (combine l l) = l.
Proof. induction l; simpl; congruence. Qed.

Lemma map_snd_combine_diag {A} (l : list A) : map snd (combine l l) = l.
Proof. induction l; simpl; congruence. Qed.

Lemma sum_squares_nonneg (m : R) (l : list R) :
  (0 <= pd.sum (map (fun p => (fst p - m) * (snd p - m)) (combine l l)))%R.
Proof.
  induction l as [|x l IH]; simpl; [lra|].
  pose proof (Rle_0_sqr (x - m)) as H; unfold Rsqr in H; lra.
Qed.

Lemma var_nonneg (l : list R) : 2 <= length l -> (0 <= var l)%R.
Proof.
  intros Hl; unfold var, cov.
  rewrite map_fst_combine_diag, map_snd_combine_diag, length_combine,
    Nat.min_id.
  apply Rmult_le_pos; [apply sum_squares_nonneg|].
  apply Rlt_le, Rinv_0_lt_compat.
  apply le_INR in Hl; simpl in Hl; lra.
Qed.

Lemma nth_error_snoc_init {A} (init : list A) (x : A) (j : nat) :
  j < length init -> nth_error (init ++ [x]) j = nth_error init j.
Proof. intros; now apply nth_error_app1. Qed.

Lemma nth_error_snoc_last {A} (init : list A) (x : A) :
  nth_error (init ++ [x]) (length init) = Some x.
Proof.
  rewrite nth_error_app2, Nat.sub_diag by lia; reflexivity.
Qed.

(** The cells of the rolling mean, shifted by one row. *)
Lemma rolling_mean_cell (w t : nat) (s : Series float) :
  t < length s ->
  nth_error (shift 1 (rolling_mean w s)) t =
  Some (match t with
        | O => nan
        | S i =>
            let obs := observations (window w i s) in
            if (length obs <? w) || (length obs =? 0) then nan
            else num (mean obs)
        end).
Proof.
  intros Ht; unfold rolling_mean.
  now rewrite cell_shift1.
Qed.

Lemma rolling_mean_cell_early (w t : nat) (s : Series float) :
  t < length s -> t < w ->
  nth_error (shift 1 (rolling_mean w s)) t = Some nan.
Proof.
  intros Ht Hw.
  rewrite rolling_mean_cell by assumption.
  destruct t as [|i]; [reflexivity|].
  cbv zeta.
  pose proof (observations_length (window w i s)).
  pose proof (window_length w i s).
  destruct (Nat.ltb_spec (length (observations (window w i s))) w);
    [reflexivity | lia].
Qed.

Lemma rolling_mean_cell_first (w : nat) (s : Series float) (xs : list R) :
  1 <= w -> w < length s -> firstn w s = map num xs ->
  nth_error (shift 1 (rolling_mean w s)) w = Some (num (mean xs)).
Proof.
  intros Hw Hs Hxs.
  rewrite rolling_mean_cell by assumption.
  destruct w as [|i]; [lia|].
  cbv zeta.
  rewrite window_full by lia.
  replace (i + 1 - S i) with 0 by lia.
  simpl skipn; rewrite Hxs, observations_num.
  assert (Hlen : length xs = S i).
  { rewrite <- (length_map num), <- Hxs, length_firstn; lia. }
  rewrite Hlen, Nat.ltb_irrefl; reflexivity.
Qed.

(** ** Rolling mean forecast *)

Lemma mapM_raises {A B} (f : A -> Result B) (e : Py.exn) (l : list A) :
  (forall a, In a l -> f a = Raise e \/ exists b, f a = Ok b) ->
  (exists a, In a l /\ f a = Raise e) ->
  mapM f l = Raise e.
Proof.
  induction l as [|a l IH]; intros Hall (a0 & Hin & Ha0); [destruct Hin|].
  simpl.
  destruct (Hall a (or_introl eq_refl)) as [E|(b & E)]; rewrite E;
    [reflexivity|].
  simpl.
  rewrite IH; [reflexivity| |].
  - intros a' Ha'; apply Hall; now right.
  - destruct Hin as [->|Hin]; [congruence|now exists a0].
Qed.

Lemma forecasts_nrows (self : RollingWindowReturnsForecast.instance)
      (returns f : DataFrame float) :
  well_formed returns ->
  RollingWindowReturnsForecast.forecasts self returns = Ok f ->
  nrows f = nrows returns.
Proof.
  intros [T HT] Hf.
  destruct (snoc_cases returns) as [->|(init & cash & ->)].
  - unfold RollingWindowReturnsForecast.forecasts in Hf; simpl in Hf.
    destruct (RollingWindowReturnsForecast.use_last_for_cash self);
      [discriminate|].
    injection Hf as <-; reflexivity.
  - rewrite rolling_forecasts_snoc in Hf; injection Hf as <-.
    destruct init as [|c init]; simpl.
    + destruct (RollingWindowReturnsForecast.use_last_for_cash self);
        rewrite shift_length; [reflexivity|].
      unfold rolling_mean; now rewrite length_map, length_seq.
    + rewrite shift_length.
      unfold rolling_mean; now rewrite length_map, length_seq.
Qed.

Lemma forecasts_column (self : RollingWindowReturnsForecast.instance)
      (returns f : DataFrame float) (j : nat) (c : Series float) :
  RollingWindowReturnsForecast.forecasts self returns = Ok f ->
  nth_error returns j = Some c ->
  RollingWindowReturnsForecast.use_last_for_cash self = false
  \/ S j < shape1 returns ->
  nth_error f j =
  Some (shift 1 (rolling_mean
                   (RollingWindowReturnsForecast.lookback_period self) c)).
Proof.
  intros Hf Hc Hj.
  destruct (snoc_cases returns) as [->|(init & cash & ->)];
    [destruct j; discriminate|].
  rewrite rolling_forecasts_snoc in Hf; injection Hf as <-.
  unfold shape1 in Hj; rewrite length_app in Hj; simpl in Hj.
  assert (Hlt : j < length (init ++ [cash]))
    by (apply nth_error_Some; congruence).
  rewrite length_app in Hlt; simpl in Hlt.
  destruct (Nat.eq_dec j (length init)) as [->|Hne].
  - rewrite nth_error_snoc_last in Hc; injection Hc as ->.
    replace (length init) with (length (map (fun c0 =>
      shift 1 (rolling_mean
                 (RollingWindowReturnsForecast.lookback_period self) c0)) init))
      by apply length_map.
    rewrite nth_error_snoc_last.
    destruct Hj as [->|Hj]; [reflexivity | lia].
  - rewrite nth_error_snoc_init in Hc by lia.
    rewrite nth_error_snoc_init by (rewrite length_map; lia).
    now rewrite nth_error_map, Hc.
Qed.

(** C2.  Rolling-window mean forecast with window [L] over a panel of at
    least [L + 1] periods: in a column that is forecast by the window mean
    (any column without [use_last_for_cash], every column but the cash
    column with it), the forecast at the [(L+1)]-th timestamp (position
    [L]) is the arithmetic mean of the first [L] returns; at every earlier
    position the cell is missing, and resolving the parameter there fails
    instead of yielding a partial-window estimate. *)
Theorem rolling_mean_forecast_after_full_window
        (L : nat) (use_last_for_cash : bool) (returns : DataFrame float)
        (j : nat) (c : Series float) (xs : list R) :
  1 <= L ->
  well_formed returns ->
  L < nrows returns ->
  nth_error returns j = Some c ->
  use_last_for_cash = false \/ S j < shape1 returns ->
  firstn L c = map num xs ->
  exists self p f,
    RollingWindowReturnsForecast.__init__ L use_last_for_cash = Ok self /\
    RollingWindowReturnsForecast.pre_evaluation self returns =
      Ok (RollingWindowReturnsForecast.mk L use_last_for_cash (Some p)) /\
    estimator.data_ p = estimator.TimeIndexed 1 f /\
    iat f L j = Some (num (mean xs)) /\
    (forall t, t < L -> iat f t j = Some nan) /\
    (forall t, t < L ->
       estimator.values_in_time p t = Raise InsufficientHistoryError).
Proof.
  intros HL W HT Hc Hj Hxs.
  set (self := RollingWindowReturnsForecast.mk L use_last_for_cash None).
  assert (Hex : exists f,
             RollingWindowReturnsForecast.forecasts self returns = Ok f).
  { destruct (snoc_cases returns) as [->|(init & cash & ->)];
      [destruct j; discriminate|].
    rewrite rolling_forecasts_snoc; eauto. }
  destruct Hex as [f Hf].
  pose proof (forecasts_nrows self W Hf) as Hrows.
  pose proof (forecasts_column self _ Hf Hc Hj) as Hcol.
  simpl in Hcol.
  pose proof (wf_rows W HT) as Rall.
  assert (Hlen : L < length c).
  { rewrite Forall_forall in Rall; apply Rall.
    eapply nth_error_In; eassumption. }
  exists self,
    (estimator.mkParameterEstimator (estimator.TimeIndexed 1 f) false None),
    f.
  assert (Hearly : forall t, t < L -> iat f t j = Some nan).
  { intros t Ht; unfold iat; rewrite Hcol.
    apply rolling_mean_cell_early; lia. }
  repeat split.
  - unfold RollingWindowReturnsForecast.pre_evaluation; now rewrite Hf.
  - unfold iat; rewrite Hcol.
    now apply rolling_mean_cell_first.
  - exact Hearly.
  - intros t Ht.
    unfold estimator.values_in_time; simpl.
    rewrite Hrows.
    destruct (Nat.ltb_spec (nrows returns) ((t + 1) * 1)); [lia|].
    apply mapM_raises.
    + intros a _; destruct (estimator.reals a); eauto.
    + exists [nan]; split; [|reflexivity].
      rewrite at_time1.
      apply in_map_iff.
      exists (shift 1 (rolling_mean L c)); split.
      * specialize (Hearly t Ht); unfold iat in Hearly.
        rewrite Hcol in Hearly; now rewrite Hearly.
      * eapply nth_error_In; eassumption.
Qed.

(** ** Cash column of the return forecasts *)

Lemma cash_cell (F : Series float -> Series float)
      (init : DataFrame float) (cash : Series float) (t : nat) :
  1 <= t -> t < length cash ->
  iat (map F init ++ [shift 1 cash]) t (shape1 (init ++ [cash]) - 1) =
  nth_error cash (t - 1).
Proof.
  intros H1 Ht.
  unfold iat, shape1.
  rewrite length_app; simpl length.
  replace (length init + 1 - 1) with (length (map F init))
    by (rewrite length_map; lia).
  rewrite nth_error_snoc_last, nth_error_shift.
  destruct (Nat.ltb_spec t (length cash)); [|lia].
  destruct (Nat.ltb_spec t 1); [lia | reflexivity].
Qed.

(** C3.  For the rolling and the exponential return forecast built with
    [use_last_for_cash=True], and every timestamp [t] after the first, the
    cash forecast attributed to [t] is the cash return realized at
    [t - 1], whatever the lookback period or (positive) half life. *)
Theorem cash_forecast_is_previous_cash_return
        (e : WindowEstimator) (returns : DataFrame float)
        (cash : Series float) (t : nat) :
  use_last_for_cash e = true ->
  accepted e ->
  well_formed returns ->
  iloc_last returns = Ok cash ->
  1 <= t -> t < nrows returns ->
  exists p f r,
    pre_evaluation e returns = Ok p /\
    estimator.data_ p = estimator.TimeIndexed 1 f /\
    nth_error cash (t - 1) = Some r /\
    iat f t (shape1 returns - 1) = Some r.
Proof.
  intros Hb Hacc W Hcash H1 Ht.
  pose proof (wf_rows W Ht) as Rall.
  destruct (snoc_cases returns) as [->|(init & cash' & ->)];
    [discriminate|].
  rewrite iloc_last_snoc in Hcash; injection Hcash as ->.
  destruct (nrows_snoc_rows _ _ Rall) as (_ & Hlen & _).
  destruct (nth_error cash (t - 1)) as [r|] eqn:Er;
    [|apply nth_error_None in Er; lia].
  destruct e as [s|s|s|s|s|s|s]; simpl in Hb; try discriminate.
  - eexists _, _, r; repeat split.
    + unfold pre_evaluation, RollingWindowReturnsForecast.pre_evaluation.
      rewrite rolling_forecasts_snoc, Hb; reflexivity.
    + reflexivity.
    + rewrite <- Er; now apply cash_cell.
  - simpl in Hacc.
    eexists _, _, r; repeat split.
    + unfold pre_evaluation, ExponentialWindowReturnsForecast.pre_evaluation.
      rewrite exponential_forecasts_snoc, Hb by assumption; reflexivity.
    + reflexivity.
    + rewrite <- Er; now apply cash_cell.
Qed.

(** ** Rolling forecast error *)

Lemma rolling_std_cell (w t : nat) (s : Series float) :
  t < length s ->
  nth_error (shift 1 (rolling_std w s)) t =
  Some (match t with
        | O => nan
        | S i => zsqrt (rolling_cov_at w i s s)
        end).
Proof.
  intros Ht; unfold rolling_std, rolling_var.
  rewrite map_map.
  now rewrite cell_shift1.
Qed.

(** The shifted rolling deviation over a window of observed returns. *)
Lemma rolling_std_cell_full (w t : nat) (s : Series float) (xs : list R) :
  w <= t -> t < length s ->
  firstn w (skipn (t - w) s) = map num xs ->
  nth_error (shift 1 (rolling_std w s)) t =
  Some (if w <=? 1 then nan else num (std xs)).
Proof.
  intros Hw Ht Hxs.
  rewrite rolling_std_cell by assumption.
  assert (Hlen : length xs = w).
  { rewrite <- (length_map num), <- Hxs, length_firstn, length_skipn; lia. }
  destruct t as [|i].
  - destruct (Nat.leb_spec w 1); [reflexivity | lia].
  - unfold rolling_cov_at.
    rewrite window_full by lia.
    replace (i + 1 - w) with (S i - w) by lia.
    rewrite Hxs, observations2_num, length_combine, Nat.min_id, Hlen.
    rewrite Nat.ltb_irrefl; simpl orb.
    destruct (Nat.leb_spec w 1); [reflexivity|].
    unfold zsqrt.
    fold (var xs).
    destruct (Rlt_dec (var xs) 0) as [Hneg|_]; [|reflexivity].
    assert (Hv : (0 <= var xs)%R) by (apply var_nonneg; lia); lra.
Qed.

Lemma sqrt_INR_neq_0 (w : nat) : 1 <= w -> R_sqrt.sqrt (INR w) <> 0%R.
Proof.
  intros Hw H.
  apply sqrt_eq_0 in H; [|apply pos_INR].
  apply le_INR in Hw; simpl in Hw; lra.
Qed.

(** C7.  Rolling forecast error with window [L] and [zero_for_cash=True]:
    in a column other than cash, at a timestamp [t] with at least [L]
    preceding periods, the value is the sample standard deviation of the
    [L] returns before [t] divided by [sqrt L] (missing when [L <= 1],
    where the sample deviation does not exist); the cash column is [0] at
    every timestamp. *)
Theorem rolling_forecast_error_is_standard_error
        (L : nat) (returns : DataFrame float) (j t : nat)
        (c : Series float) (xs : list R) :
  well_formed returns ->
  nth_error returns j = Some c ->
  S j < shape1 returns ->
  L <= t -> t < nrows returns ->
  firstn L (skipn (t - L) c) = map num xs ->
  exists self f,
    RollingWindowReturnsForecastErrorRisk.__init__ L true = Ok self /\
    RollingWindowReturnsForecastErrorRisk.errors self returns = Ok f /\
    iat f t j =
      Some (if L <=? 1 then nan
            else num (std xs / R_sqrt.sqrt (INR L))) /\
    (forall t', t' < nrows returns ->
       iat f t' (shape1 returns - 1) = Some (num 0)).
Proof.
  intros W Hc Hj HL Ht Hxs.
  pose proof (wf_rows W Ht) as Rall.
  assert (Hlen : t < length c).
  { rewrite Forall_forall in Rall; apply Rall.
    eapply nth_error_In; eassumption. }
  destruct (snoc_cases returns) as [->|(init & cash & ->)];
    [destruct j; discriminate|].
  unfold shape1 in *; rewrite length_app in *; simpl length in *.
  rewrite nth_error_snoc_init in Hc by lia.
  eexists _, _; split; [reflexivity|].
  split; [apply errors_snoc|].
  cbv zeta; simpl RollingWindowReturnsForecastErrorRisk.zero_for_cash.
  simpl RollingWindowReturnsForecastErrorRisk.lookback_period.
  cbv iota.
  split.
  - unfold iat.
    rewrite nth_error_snoc_init by (rewrite length_map; lia).
    rewrite nth_error_map, Hc; simpl option_map; cbv iota.
    rewrite nth_error_map, (rolling_std_cell_full c xs HL Hlen Hxs).
    simpl option_map.
    destruct (Nat.leb_spec L 1); [reflexivity|].
    unfold divide.
    destruct (Req_dec_T (R_sqrt.sqrt (INR L)) 0) as [E|_]; [|reflexivity].
    apply sqrt_INR_neq_0 in E; [contradiction | lia].
  - intros t' Ht'.
    unfold iat.
    match goal with
    | |- context [nth_error (map ?F init ++ _) _] =>
        replace (length init + 1 - 1) with (length (map F init))
          by (rewrite length_map; lia)
    end.
    rewrite nth_error_snoc_last.
    now apply nth_error_repeat.
Qed.

(** ** Construction *)

Import cvx builtins.

(** C8, as stated, fails: the constructor of the exponential forecast
    error raises on every call. *)
Lemma construction_of_unimplemented_variant_fails :
  construct new_ExponentialWindowReturnsForecastErrorRisk
  = Raise NotImplementedError.
Proof. reflexivity. Qed.

(** The legacy empirical covariance refuses a panel with a missing cell
    when it is built, wherever in time the cell lies. *)
Lemma construction_of_EmpSigma_checks_data :
  construct (new_EmpSigma [[num 1; nan]] 1 None) = Raise AssertionError.
Proof. reflexivity. Qed.

(** [RobustFactorModelSigma] calls [isnull] on its data: a plain matrix,
    which its docstring allows, has no such method, whatever it holds. *)
Lemma construction_of_RobustFactorModelSigma_needs_pandas
      (a : list (list float)) (f i : argument) (eps : R)
      (w : option Expression) :
  construct (new_RobustFactorModelSigma (ndarray a) f i eps w)
  = Raise AttributeError.
Proof. reflexivity. Qed.

(** [LegacyReturnsForecast] hands its returns to [null_checker] before
    anything else: what the checker raises, the constructor raises. *)
Lemma construction_of_LegacyReturnsForecast_checks_returns
      (null_checker : argument -> Result unit) (r d : argument)
      (g : option R) (n : option string) (e : exn) :
  null_checker r = Raise e ->
  construct (new_LegacyReturnsForecast null_checker r d g n) = Raise e.
Proof.
  intros H; simpl; unfold LegacyReturnsForecast.__init__.
  now rewrite H.
Qed.

(** C8, amended.  Construction succeeds for every estimator and model of
    the core, whatever its arguments, except where the constructor
    itself raises or checks its data: the exponential forecast error
    always raises [NotImplementedError]; [LegacyReturnsForecast] raises
    what [null_checker] raises on its returns or else on its delta;
    [EmpSigma] raises [AssertionError] exactly when its returns hold a
    missing cell; [RobustFactorModelSigma] takes exposures, factor
    covariance and idiosyncratic part in turn and raises
    [AttributeError] at the first that is not a pandas object,
    [AssertionError] at the first that holds a missing cell. *)
Theorem construction_fails_only_by_guard (c : construction) :
  construct c =
  match c with
  | new_ExponentialWindowReturnsForecastErrorRisk => Raise NotImplementedError
  | new_LegacyReturnsForecast null_checker returns delta _ _ =>
      match null_checker returns with
      | Raise e => Raise e
      | Ok _ => match null_checker delta with
                | Raise e => Raise e
                | Ok _ => Ok tt
                end
      end
  | new_EmpSigma r _ _ =>
      if existsb (existsb isnull) r then Raise AssertionError else Ok tt
  | new_RobustFactorModelSigma e f i _ _ =>
      match e with
      | pandas e =>
          if existsb (existsb isnull) e then Raise AssertionError
          else match f with
               | pandas f =>
                   if existsb (existsb isnull) f then Raise AssertionError
                   else match i with
                        | pandas i =>
                            if existsb (existsb isnull) i
                            then Raise AssertionError
                            else Ok tt
                        | _ => Raise AttributeError
                        end
               | _ => Raise AttributeError
               end
      | _ => Raise AttributeError
      end
  | _ => Ok tt
  end.
Proof.
  destruct c; try reflexivity.
  - simpl; unfold LegacyReturnsForecast.__init__.
    destruct (null_checker returns); [|reflexivity].
    simpl; destruct (null_checker delta); reflexivity.
  - simpl; unfold EmpSigma.__init__.
    destruct (existsb (existsb isnull) returns); reflexivity.
  - simpl; unfold RobustFactorModelSigma.__init__,
      RobustFactorModelSigma.assert_not_null, isnull_values_any.
    destruct exposures as [e| |]; try reflexivity; simpl.
    destruct (existsb (existsb isnull) e); [reflexivity|]; simpl.
    destruct factor_Sigma as [f| |]; try reflexivity; simpl.
    destruct (existsb (existsb isnull) f); [reflexivity|]; simpl.
    destruct idiosync as [i| |]; try reflexivity; simpl.
    destruct (existsb (existsb isnull) i); reflexivity.
Qed.

(** ** Diagnostics of the base risk model *)

(** C10.  [BaseRiskModel.optimization_log] reports [NaN] when the compiled
    term has no realized value and also when its realized value is exactly
    zero; only a value other than zero is reported as it is. *)
Theorem optimization_log_reports_zero_as_nan
        (self : BaseRiskModel.attrs) (e : Expression) (t : nat) :
  BaseRiskModel.expression self = Some (expr e) ->
  (value e = None ->
   BaseRiskModel.optimization_log self t = Ok BaseRiskModel.NaN) /\
  (value e = Some (scalar 0) ->
   BaseRiskModel.optimization_log self t = Ok BaseRiskModel.NaN) /\
  (forall x, x <> 0%R -> value e = Some (scalar x) ->
   BaseRiskModel.optimization_log self t
   = Ok (BaseRiskModel.realized (scalar x))).
Proof.
  intros He.
  unfold BaseRiskModel.optimization_log; rewrite He; simpl.
  repeat split.
  - intros ->; reflexivity.
  - intros ->; simpl.
    destruct (Req_dec_T 0 0) as [_|N]; [reflexivity|now elim N].
  - intros x Hx ->; simpl.
    destruct (Req_dec_T x 0) as [E|_]; [contradiction|reflexivity].
Qed.

(** ** Compiling through [weight_expr] *)


Lemma weight_expr_ok (m : BaseRiskModel.instance) (t : nat)
      (w z v wb : Expression) (s1 : BaseRiskModel.attrs) (e c : object) :
  BaseRiskModel.w_bench (BaseRiskModel.self_ m) = Some wb ->
  BaseRiskModel._estimate m (BaseRiskModel.self_ m) t (Sub w wb) z v
  = (s1, Ok (tuple [e; c])) ->
  BaseRiskModel.weight_expr m t w z v
  = (BaseRiskModel.with_attrs m (BaseRiskModel.set_expression s1 e),
     Ok (tuple [e; list_ []])).
Proof.
  intros Hwb Hest.
  unfold BaseRiskModel.weight_expr.
  now rewrite Hwb, Hest.
Qed.

(** The case of a class whose [_estimate] is itself a pure read and
    returns a pair: [weight_expr] stores the term in [expression] and
    does nothing else, [w_bench] and [benchmark_weights] are as before,
    the call returns the term with an empty list of constraints, and a
    second call with the same inputs returns the same term and leaves
    the same attributes. *)
Lemma weight_expr_only_assigns_expression
        (m : BaseRiskModel.instance) (t : nat) (w z v wb : Expression)
        (e c : object) :
  BaseRiskModel.pure_estimate m ->
  BaseRiskModel.w_bench (BaseRiskModel.self_ m) = Some wb ->
  snd (BaseRiskModel._estimate m (BaseRiskModel.self_ m) t (Sub w wb) z v)
  = Ok (tuple [e; c]) ->
  let m1 := fst (BaseRiskModel.weight_expr m t w z v) in
  let a1 := BaseRiskModel.self_ m1 in
  snd (BaseRiskModel.weight_expr m t w z v) = Ok (tuple [e; list_ []]) /\
  BaseRiskModel.expression a1 = Some e /\
  BaseRiskModel.w_bench a1 = BaseRiskModel.w_bench (BaseRiskModel.self_ m) /\
  BaseRiskModel.benchmark_weights a1
  = BaseRiskModel.benchmark_weights (BaseRiskModel.self_ m) /\
  BaseRiskModel.weight_expr m1 t w z v = (m1, Ok (tuple [e; list_ []])).
Proof.
  intros Hpure Hwb Hsnd m1 a1.
  destruct (Hpure (BaseRiskModel.self_ m) t (Sub w wb) z v) as [Hfst Hign].
  assert (Hest : BaseRiskModel._estimate m (BaseRiskModel.self_ m) t
                                          (Sub w wb) z v
                 = (BaseRiskModel.self_ m, Ok (tuple [e; c]))).
  { rewrite <- Hfst at 2; rewrite <- Hsnd; apply surjective_pairing. }
  pose proof (weight_expr_ok m t w z v Hwb Hest) as Hcall.
  subst a1 m1; rewrite Hcall; simpl.
  repeat split.
  set (a := BaseRiskModel.set_expression (BaseRiskModel.self_ m) e).
  set (m1 := BaseRiskModel.with_attrs m a).
  destruct (Hpure a t (Sub w wb) z v) as [Hfst1 _].
  assert (Hest1 : BaseRiskModel._estimate m1 (BaseRiskModel.self_ m1) t
                                           (Sub w wb) z v
                  = (a, Ok (tuple [e; c]))).
  { simpl. rewrite <- Hfst1 at 2.
    unfold a at 1; rewrite <- Hsnd, <- (Hign e).
    apply surjective_pairing. }
  rewrite (weight_expr_ok m1 t w z v (wb := wb) (s1 := a) (e := e) (c := c));
    [reflexivity | exact Hwb | exact Hest1].
Qed.

(** ** Factor model *)

(** C5, at every input: the body of [FactorModelSigma.compile_to_cvxpy]
    reads [wplus], a name that is bound neither in the function (whose
    argument is [w_plus]) nor in the module, so the call never returns a
    term: whatever [np.sqrt] makes of the idiosyncratic parameter, the
    call raises ([NameError] once [np.sqrt] has returned) and assigns
    nothing. *)
Theorem factor_model_compile_raises
        (np_sqrt : estimator.ParameterEstimator -> Result object)
        (self : FactorModelSigma.instance) (w_plus z v : Expression) :
  FactorModelSigma.compile_to_cvxpy np_sqrt self w_plus z v =
  (self,
   match np_sqrt (FactorModelSigma.idiosync self) with
   | Ok _ => Raise NameError
   | Raise e => Raise e
   end).
Proof.
  unfold FactorModelSigma.compile_to_cvxpy.
  destruct (np_sqrt (FactorModelSigma.idiosync self)); reflexivity.
Qed.

(** ** Worst-case risk *)

Lemma weight_expr_returns_pair (m : BaseRiskModel.instance) (t : nat)
      (w z v : Expression) (o : object) :
  snd (BaseRiskModel.weight_expr m t w z v) = Ok o ->
  exists e, o = tuple [e; list_ []].
Proof.
  unfold BaseRiskModel.weight_expr.
  destruct (BaseRiskModel.w_bench (BaseRiskModel.self_ m)); [|discriminate].
  destruct (BaseRiskModel._estimate m (BaseRiskModel.self_ m) t (Sub w e) z v)
    as [s1 [o1|x]]; simpl; [|discriminate].
  destruct (unpack2 o1) as [[e1 c1]|x]; simpl; [|discriminate].
  intros H; injection H as <-; eauto.
Qed.

Lemma comprehension_pairs (models : list BaseRiskModel.instance) (t : nat)
      (w z v : Expression) (rs : list object) :
  snd (WorstCaseRisk.comprehension models t w z v) = Ok rs ->
  length rs = length models /\
  Forall (fun o => exists e, o = tuple [e; list_ []]) rs.
Proof.
  revert rs; induction models as [|m ms IH]; intros rs; simpl.
  - intros H; injection H as <-; split; [reflexivity|constructor].
  - pose proof (weight_expr_returns_pair m t w z v) as Hm.
    destruct (BaseRiskModel.weight_expr m t w z v) as [m' [o|x]];
      simpl in *; [|discriminate].
    destruct (WorstCaseRisk.comprehension ms t w z v) as [ms' [l|x]];
      simpl in *; [|discriminate].
    intros H; injection H as <-.
    destruct (IH l eq_refl) as [Hlen Hall].
    split; [simpl; congruence|].
    constructor; [apply Hm; reflexivity | assumption].
Qed.

(** C6, at every non-empty list of risk models: each component's
    [weight_expr] hands back the pair (term, constraints), so what
    [WorstCaseRisk._estimate] stores in [risks] and passes to
    [max_elemwise] are pairs, not terms, and [optimization_log] raises
    [AttributeError] instead of reporting the components' values. *)
Theorem worst_case_log_raises
        (cast_to_const : object -> Result Expression)
        (m : BaseRiskModel.instance) (ms : list BaseRiskModel.instance)
        (w_bench : option Expression) (t : nat) (wplus z v : Expression) :
  let self := WorstCaseRisk.mk
                (BaseRiskModel.__init__ BaseRiskModel.new w_bench)
                (m :: ms) None in
  let self' := fst (WorstCaseRisk._estimate cast_to_const self t wplus z v) in
  WorstCaseRisk.__init__ (m :: ms) w_bench = Ok self /\
  WorstCaseRisk.optimization_log self' t = Raise AttributeError /\
  (forall rs, WorstCaseRisk.risks self' = Some rs ->
     Forall (fun o => exists e, o = tuple [e; list_ []]) rs).
Proof.
  intros self self'.
  split; [reflexivity|].
  subst self'; unfold WorstCaseRisk._estimate.
  pose proof (comprehension_pairs (WorstCaseRisk.riskmodels self) t wplus z v)
    as Hpairs.
  destruct (WorstCaseRisk.comprehension (WorstCaseRisk.riskmodels self)
                                        t wplus z v) as [ms' [rs|x]];
    simpl in *.
  - destruct (Hpairs rs eq_refl) as [Hlen Hall].
    split; [|intros rs' H; injection H as <-; assumption].
    unfold WorstCaseRisk.optimization_log; simpl.
    destruct rs as [|o rs]; [discriminate|].
    inversion Hall as [|? ? [e ->] _]; subst.
    reflexivity.
  - split; [reflexivity | discriminate].
Qed.

(** ** What a compile call leaves behind *)

Lemma weight_expr_keeps_class (m : BaseRiskModel.instance) (t : nat)
      (w z v : Expression) :
  let m' := fst (BaseRiskModel.weight_expr m t w z v) in
  BaseRiskModel.__class__ m' = BaseRiskModel.__class__ m /\
  BaseRiskModel._estimate m' = BaseRiskModel._estimate m.
Proof.
  unfold BaseRiskModel.weight_expr.
  destruct (BaseRiskModel.w_bench (BaseRiskModel.self_ m));
    [|split; reflexivity].
  destruct (BaseRiskModel._estimate m (BaseRiskModel.self_ m) t (Sub w e) z v)
    as [s1 [o|x]]; simpl; [|split; reflexivity].
  destruct (unpack2 o) as [[e1 c1]|x]; split; reflexivity.
Qed.

Lemma comprehension_keeps_classes (models : list BaseRiskModel.instance)
      (t : nat) (w z v : Expression) :
  Forall2 (fun m m' =>
             BaseRiskModel.__class__ m' = BaseRiskModel.__class__ m /\
             BaseRiskModel._estimate m' = BaseRiskModel._estimate m)
          models (fst (WorstCaseRisk.comprehension models t w z v)).
Proof.
  induction models as [|m ms IH]; simpl; [constructor|].
  pose proof (weight_expr_keeps_class m t w z v) as Hm.
  destruct (BaseRiskModel.weight_expr m t w z v) as [m' [o|x]]; simpl in *.
  - destruct (WorstCaseRisk.comprehension ms t w z v) as [ms' rs];
      simpl in *.
    constructor; assumption.
  - constructor; [assumption|].
    clear; induction ms; constructor; auto.
Qed.







(** ** Diagonal and full covariance *)

Lemma dot_cons (a x : R) (u v : list R) :
  dot (a :: u) (x :: v) = (a * x + dot u v)%R.
Proof. reflexivity. Qed.

Lemma dot_zeros (u : list R) (n : nat) : dot u (repeat 0%R n) = 0%R.
Proof.
  revert n; induction u as [|a u IH]; intros [|n]; try reflexivity.
  simpl repeat; rewrite dot_cons, IH; lra.
Qed.

Lemma length_diag (d : list R) : length (diag d) = length d.
Proof.
  induction d as [|x d IH]; simpl; [reflexivity|].
  now rewrite length_map, IH.
Qed.

Lemma ncols_diag (d : list R) : ncols (diag d) = length d.
Proof.
  destruct d as [|x d]; simpl; [reflexivity|].
  now rewrite repeat_length.
Qed.

Lemma map_const_repeat {A B} (b : B) (l : list A) :
  map (fun _ => b) l = repeat b (length l).
Proof. induction l; simpl; congruence. Qed.

Lemma transpose_diag (d : list R) : transpose_ (diag d) = diag d.
Proof.
  induction d as [|x d IH]; [reflexivity|].
  unfold transpose_.
  rewrite ncols_diag.
  simpl length; simpl seq; simpl diag.
  rewrite map_cons.
  f_equal.
  - simpl; f_equal.
    rewrite map_map; simpl.
    now rewrite map_const_repeat, length_diag.
  - rewrite <- seq_shift, map_map.
    unfold transpose_ in IH.
    rewrite ncols_diag in IH.
    etransitivity; [|apply (f_equal (map (cons 0%R))); exact IH].
    rewrite map_map.
    apply map_ext_in; intros j Hj.
    apply in_seq in Hj.
    simpl map; f_equal.
    + apply nth_repeat.
    + rewrite map_map; reflexivity.
Qed.

Lemma dot_rows_diag (v d : list R) :
  length v = length d -> map (dot v) (diag d) = zipmul v d.
Proof.
  revert v; induction d as [|x d IH]; intros [|a v] Hlen;
    try discriminate; [reflexivity|].
  simpl in Hlen; injection Hlen as Hlen.
  simpl diag; simpl map.
  unfold zipmul in *; simpl combine; simpl map.
  f_equal.
  - rewrite dot_cons, dot_zeros; simpl; lra.
  - rewrite map_map.
    rewrite <- (IH v Hlen).
    apply map_ext; intros r.
    rewrite dot_cons; lra.
Qed.

Lemma dot_weighted_squares (v s : list R) :
  length v = length s ->
  dot (zipmul v (map (fun y => y * y)%R s)) v
  = pd.sum (map (fun y => y * y)%R (zipmul v s)).
Proof.
  revert s; induction v as [|a v IH]; intros [|x s] Hlen;
    try discriminate; [reflexivity|].
  simpl in Hlen; injection Hlen as Hlen.
  unfold zipmul in *; simpl map; simpl combine; simpl map.
  rewrite dot_cons; simpl pd.sum.
  rewrite (IH s Hlen); simpl; lra.
Qed.

Lemma transpose_column (v : list R) :
  v <> [] -> transpose_ (column v) = [v].
Proof.
  intros Hv; destruct v as [|x v]; [contradiction|].
  unfold transpose_, column; simpl ncols; simpl seq; simpl map at 1.
  f_equal.
  rewrite map_map; simpl.
  f_equal; apply map_id.
Qed.

Lemma entries_column (v : list R) : entries (column v) = v.
Proof.
  unfold entries, column.
  induction v as [|x v IH]; simpl; congruence.
Qed.

Lemma length_column (v : list R) : length (column v) = length v.
Proof. apply length_map. Qed.

Lemma ncols_column (v : list R) : v <> [] -> ncols (column v) = 1.
Proof. destruct v; [contradiction|reflexivity]. Qed.

Lemma map2_column (f : R -> R -> R) (u v : list R) :
  map2 f (column u) (column v)
  = column (map (fun p => f (fst p) (snd p)) (combine u v)).
Proof.
  unfold map2, column.
  revert v; induction u as [|a u IH]; intros [|x v]; try reflexivity.
  simpl; f_equal; apply IH.
Qed.

(** The quadratic form of a vector of holdings against a square matrix. *)
Lemma quad_form_value (v : list R) (P : Tensor) :
  v <> [] -> length P = length v -> ncols P = length v ->
  lift2 (fun vx vP => lift2 matmul_ (matmul_ (transpose_ vx) vP) (Some vx))
        (Some (column v)) (Some P)
  = Some (scalar (dot (map (dot v) (transpose_ P)) v)).
Proof.
  intros Hv HP HnP; simpl.
  rewrite (transpose_column Hv).
  unfold matmul_ at 2; simpl ncols.
  rewrite HP, Nat.eqb_refl; simpl.
  unfold matmul_; simpl ncols.
  rewrite length_map, length_column.
  unfold transpose_ at 1; rewrite length_map, length_seq, HnP, Nat.eqb_refl.
  rewrite (transpose_column Hv); reflexivity.
Qed.

Lemma sub_zero_column (v : list R) :
  broadcast Rminus (column v) (scalar 0) = Some (column v).
Proof.
  assert (E : map (map (fun x => x - 0)%R) (column v) = column v).
  { unfold column; rewrite map_map; apply map_ext; intros x; simpl.
    now rewrite Rminus_0_r. }
  destruct v as [|x [|y v]].
  - reflexivity.
  - change (broadcast Rminus (column [x]) (scalar 0))
      with (Some [[(x - 0)%R]]).
    now rewrite Rminus_0_r.
  - unfold broadcast.
    change (same_shape (column (x :: y :: v)) (scalar 0)) with false.
    change (is_scalar (column (x :: y :: v))) with (@None R).
    simpl is_scalar; cbv iota.
    now rewrite E.
Qed.

Lemma multiply_columns (u v : list R) :
  length u = length v ->
  broadcast Rmult (column u) (column v) = Some (column (zipmul u v)).
Proof.
  intros Hlen; unfold broadcast, same_shape.
  rewrite !length_column, Hlen, Nat.eqb_refl.
  assert (Hn : ncols (column u) = ncols (column v)).
  { destruct u, v; try discriminate; reflexivity. }
  rewrite Hn, Nat.eqb_refl; simpl.
  now rewrite map2_column.
Qed.

(** With the benchmark weights left at their default of zero, the
    diagonal term and the full-covariance term over the diagonal matrix of
    squared deviations have the same value at every vector of holdings. *)
Lemma diagonal_agrees_with_full_at_zero_benchmark
      (d : DiagonalCovariance.instance) (f : FullCovariance.instance)
      (ws sds : list R) (z v : Expression) :
  ws <> [] -> length ws = length sds ->
  estimator.value (DiagonalCovariance.standard_deviations d)
  = Some (column sds) ->
  estimator.value (FullCovariance.Sigma f)
  = Some (diag (map (fun s => s * s)%R sds)) ->
  BaseRiskModel.benchmark_weights (FullCovariance.base f) = Const (scalar 0) ->
  value (DiagonalCovariance.compile_to_cvxpy d (Var (Some (column ws))) z v)
  = value (FullCovariance.compile_to_cvxpy f (Var (Some (column ws))) z v).
Proof.
  intros Hws Hlen Hsd HSigma Hbench.
  unfold DiagonalCovariance.compile_to_cvxpy, FullCovariance.compile_to_cvxpy,
    estimator.as_cvxpy.
  rewrite Hsd, HSigma, Hbench.
  cbn [value lift2 option_map].
  rewrite sub_zero_column, (multiply_columns _ _ Hlen).
  cbn [option_map].
  rewrite entries_column.
  rewrite quad_form_value;
    [|assumption
     |now rewrite length_diag, length_map
     |now rewrite ncols_diag, length_map].
  rewrite transpose_diag, dot_rows_diag by (now rewrite length_map).
  now rewrite dot_weighted_squares.
Qed.

(** C4, at a failing input: one asset with standard deviation 1, held at
    weight 1 against a benchmark weight of 1.  The full-covariance term is
    the quadratic form of the deviation from the benchmark, which is zero;
    the diagonal term leaves the benchmark out and evaluates to 1. *)
Theorem diagonal_covariance_ignores_benchmark (z v : Expression) :
  estimator.value (FullCovariance.Sigma scenarios.full)
  = Some (diag (map (fun s => s * s)%R [1%R])) /\
  value (FullCovariance.compile_to_cvxpy scenarios.full scenarios.holdings z v)
  = Some (scalar 0) /\
  value (DiagonalCovariance.compile_to_cvxpy
           scenarios.diagonal scenarios.holdings z v)
  = Some (scalar 1) /\
  value (DiagonalCovariance.compile_to_cvxpy
           scenarios.diagonal scenarios.holdings z v)
  <> value (FullCovariance.compile_to_cvxpy
              scenarios.full scenarios.holdings z v).
Proof.
  assert (HF : value (FullCovariance.compile_to_cvxpy
                        scenarios.full scenarios.holdings z v)
               = Some (scalar 0)).
  { cbn; unfold scalar, dot, pd.sum; simpl; real_cell. }
  assert (HD : value (DiagonalCovariance.compile_to_cvxpy
                        scenarios.diagonal scenarios.holdings z v)
               = Some (scalar 1)).
  { cbn; unfold scalar, pd.sum; simpl; real_cell. }
  repeat split; try assumption.
  rewrite HF, HD; unfold scalar.
  intros H; injection H as H; lra.
Qed.

(** ** The theorems at concrete inputs *)

Lemma panel_well_formed : well_formed scenarios.panel.
Proof. exists 2; repeat constructor. Defined.

Lemma panel'_well_formed : well_formed scenarios.panel'.
Proof. exists 2; repeat constructor. Defined.

Lemma panel3_well_formed : well_formed scenarios.panel3.
Proof. exists 3; repeat constructor. Defined.

Lemma estimate_has_no_lookahead_witness :
  head 1 scenarios.panel = head 1 scenarios.panel' /\
  estimate_at scenarios.rolling1 scenarios.panel 1
  = estimate_at scenarios.rolling1 scenarios.panel' 1.
Proof.
  split; [reflexivity|].
  apply (@estimate_has_no_lookahead
           scenarios.rolling1 scenarios.panel scenarios.panel' 1).
  - exact panel_well_formed.
  - exact panel'_well_formed.
  - simpl; lia.
  - simpl; lia.
  - reflexivity.
Defined.

Lemma rolling_mean_forecast_after_full_window_witness :
  exists self p f,
    RollingWindowReturnsForecast.__init__ 1 true = Ok self /\
    RollingWindowReturnsForecast.pre_evaluation self scenarios.panel =
      Ok (RollingWindowReturnsForecast.mk 1 true (Some p)) /\
    estimator.data_ p = estimator.TimeIndexed 1 f /\
    iat f 1 0 = Some (num (mean [1%R])) /\
    (forall t, t < 1 -> iat f t 0 = Some nan) /\
    (forall t, t < 1 ->
       estimator.values_in_time p t = Raise InsufficientHistoryError).
Proof.
  apply (@rolling_mean_forecast_after_full_window
           1 true scenarios.panel 0 [num 1; num 2] [1%R]).
  - lia.
  - exact panel_well_formed.
  - simpl; lia.
  - reflexivity.
  - right; unfold shape1; simpl; lia.
  - reflexivity.
Defined.

Lemma cash_forecast_is_previous_cash_return_witness :
  exists p f r,
    pre_evaluation scenarios.rolling1 scenarios.panel = Ok p /\
    estimator.data_ p = estimator.TimeIndexed 1 f /\
    nth_error [num 3; num 4] (1 - 1) = Some r /\
    iat f 1 (shape1 scenarios.panel - 1) = Some r.
Proof.
  apply (@cash_forecast_is_previous_cash_return
           scenarios.rolling1 scenarios.panel [num 3; num 4] 1).
  - reflexivity.
  - exact I.
  - exact panel_well_formed.
  - reflexivity.
  - lia.
  - simpl; lia.
Defined.

Lemma rolling_forecast_error_is_standard_error_witness :
  exists self f,
    RollingWindowReturnsForecastErrorRisk.__init__ 2 true = Ok self /\
    RollingWindowReturnsForecastErrorRisk.errors self scenarios.panel3 = Ok f /\
    iat f 2 0 =
      Some (if 2 <=? 1 then nan
            else num (std [1%R; 3%R] / R_sqrt.sqrt (INR 2))) /\
    (forall t', t' < nrows scenarios.panel3 ->
       iat f t' (shape1 scenarios.panel3 - 1) = Some (num 0)).
Proof.
  apply (@rolling_forecast_error_is_standard_error
           2 scenarios.panel3 0 2 [num 1; num 3; num 5] [1%R; 3%R]).
  - exact panel3_well_formed.
  - reflexivity.
  - unfold shape1; simpl; lia.
  - lia.
  - simpl; lia.
  - reflexivity.
Defined.

Lemma pure_full_is_pure : BaseRiskModel.pure_estimate scenarios.pure_full.
Proof. intros a t w z v; split; [reflexivity | intros o; reflexivity]. Defined.

Lemma weight_expr_only_assigns_expression_witness :
  let m := scenarios.pure_full in
  let w := scenarios.holdings in
  let e := expr (quad_form (Sub (Sub w (Const (scalar 0))) (Const (scalar 0)))
                           (Param (Some (diag [1%R])))) in
  let m1 := fst (BaseRiskModel.weight_expr m 0 w w w) in
  let a1 := BaseRiskModel.self_ m1 in
  snd (BaseRiskModel.weight_expr m 0 w w w) = Ok (tuple [e; list_ []]) /\
  BaseRiskModel.expression a1 = Some e /\
  BaseRiskModel.w_bench a1 = BaseRiskModel.w_bench (BaseRiskModel.self_ m) /\
  BaseRiskModel.benchmark_weights a1
  = BaseRiskModel.benchmark_weights (BaseRiskModel.self_ m) /\
  BaseRiskModel.weight_expr m1 0 w w w = (m1, Ok (tuple [e; list_ []])).
Proof.
  intros m w e.
  apply (@weight_expr_only_assigns_expression
           m 0 w w w (Const (scalar 0)) e (list_ [])).
  - exact pure_full_is_pure.
  - reflexivity.
  - reflexivity.
Defined.


Lemma at_rest_is_zero : value scenarios.at_rest = Some (scalar 0).
Proof. cbn; unfold scalar, pd.sum; simpl; real_cell. Defined.

Lemma optimization_log_reports_zero_as_nan_witness :
  value scenarios.at_rest = Some (scalar 0) /\
  BaseRiskModel.optimization_log
    (BaseRiskModel.set_expression BaseRiskModel.new (expr scenarios.at_rest)) 0
  = Ok BaseRiskModel.NaN.
Proof.
  split; [exact at_rest_is_zero|].
  apply (@optimization_log_reports_zero_as_nan
           (BaseRiskModel.set_expression BaseRiskModel.new
                                         (expr scenarios.at_rest))
           scenarios.at_rest 0 eq_refl).
  exact at_rest_is_zero.
Defined.

(** * Further properties of the code *)

(** ** The legacy empirical covariance *)

Lemma slice_before {A} (start stop : nat) (c : list A) :
  start <= stop ->
  firstn (stop - start) (skipn start c) = skipn start (firstn stop c).
Proof.
  intros H.
  rewrite firstn_skipn_comm.
  do 2 f_equal; lia.
Qed.

Lemma slices_agree {A} (start stop : nat) (p1 p2 : DataFrame A) :
  start <= stop ->
  head stop p1 = head stop p2 ->
  map (fun c => firstn (stop - start) (skipn start c)) p1
  = map (fun c => firstn (stop - start) (skipn start c)) p2.
Proof.
  intros Hle H.
  apply map_Forall2 with (P := fun c1 c2 => firstn stop c1 = firstn stop c2);
    [|now apply head_agree].
  intros a b Hab.
  now rewrite !slice_before, Hab by assumption.
Qed.

(** X1.  From the second timestamp on, the term [EmpSigma._estimate]
    compiles at [t] does not depend on the row just before [t], nor on any
    later row: two panels that agree on the rows before [t - 1] give the
    same outcome and leave the same base attributes. *)
Theorem emp_sigma_estimate_skips_previous_period
        (base : BaseRiskModel.attrs) (lookback t : nat)
        (p1 p2 : DataFrame float) (wplus z v : Expression) :
  1 <= t ->
  t < nrows p1 -> t < nrows p2 ->
  head (t - 1) p1 = head (t - 1) p2 ->
  let r1 := EmpSigma._estimate (EmpSigma.mk base p1 lookback) t wplus z v in
  let r2 := EmpSigma._estimate (EmpSigma.mk base p2 lookback) t wplus z v in
  snd r1 = snd r2 /\ EmpSigma.base (fst r1) = EmpSigma.base (fst r2).
Proof.
  intros H1 T1 T2 H.
  unfold EmpSigma._estimate; simpl.
  destruct (Nat.leb_spec (nrows p1) t); [lia|].
  destruct (Nat.leb_spec (nrows p2) t); [lia|].
  destruct (Nat.eqb_spec t 0); [lia|].
  rewrite (slices_agree (start := t - 1 - lookback) (stop := t - 1) p1 p2)
    by (assumption || lia).
  destruct (nrows _ =? 0); [split; reflexivity|].
  destruct (EmpSigma.values _); split; reflexivity.
Qed.

Lemma nrows_empty_slices {A} (start : nat) (df : DataFrame A) :
  nrows (map (fun c => firstn 0 (skipn start c)) df) = 0.
Proof. destruct df; reflexivity. Qed.

(** X2.  [EmpSigma._estimate] has no window at the second timestamp, nor
    at any later one when [lookback] is zero: the slice is empty and the
    call fails its assertion ([KeyError] comes first when [t] is not in
    the index), leaving the model as it was. *)
Theorem emp_sigma_estimate_without_window
        (self : EmpSigma.instance) (t : nat) (wplus z v : Expression) :
  1 <= t ->
  t = 1 \/ EmpSigma.lookback self = 0 ->
  EmpSigma._estimate self t wplus z v =
  (self,
   Raise (if nrows (EmpSigma.returns self) <=? t
          then KeyError else AssertionError)).
Proof.
  intros H1 Hcase.
  unfold EmpSigma._estimate.
  destruct (nrows (EmpSigma.returns self) <=? t); [reflexivity|].
  destruct (Nat.eqb_spec t 0); [lia|].
  replace (t - 1 - (t - 1 - EmpSigma.lookback self)) with 0 by lia.
  now rewrite nrows_empty_slices.
Qed.

(** X3.  At the first timestamp the stop [idx - 1] of the slice is [-1],
    which counts from the end: [EmpSigma._estimate] then compiles its term
    from every row of the panel but the last one, all of them at or after
    the timestamp. *)
Theorem emp_sigma_first_timestamp_reads_whole_panel
        (self : EmpSigma.instance) (wplus z v : Expression) (Rv : Tensor) :
  2 <= nrows (EmpSigma.returns self) ->
  EmpSigma.values
    (head (nrows (EmpSigma.returns self) - 1) (EmpSigma.returns self))
  = Some Rv ->
  snd (EmpSigma._estimate self 0 wplus z v) =
  Ok (expr (Div (sum_squares (matmul (Const Rv) wplus))
                (INR (EmpSigma.lookback self)))).
Proof.
  intros Hn HRv.
  unfold EmpSigma._estimate.
  destruct (Nat.leb_spec (nrows (EmpSigma.returns self)) 0); [lia|].
  cbn [Nat.eqb Nat.sub].
  rewrite Nat.sub_0_r.
  change (map (fun c => firstn (nrows (EmpSigma.returns self) - 1) (skipn 0 c))
              (EmpSigma.returns self))
    with (head (nrows (EmpSigma.returns self) - 1) (EmpSigma.returns self)).
  rewrite HRv.
  destruct (EmpSigma.returns self) as [|c p] eqn:E; [simpl in Hn; lia|].
  simpl nrows in *.
  rewrite length_firstn.
  destruct (Nat.eqb_spec (Nat.min (length c - 1) (length c)) 0); [lia|].
  reflexivity.
Qed.

Lemma existsb_slice_false {A} (P : A -> bool) (a b : nat) (c : list A) :
  existsb P c = false -> existsb P (firstn a (skipn b c)) = false.
Proof.
  intros H.
  destruct (existsb P (firstn a (skipn b c))) eqn:E; [|reflexivity].
  apply existsb_exists in E as (x & Hin & Hx).
  assert (Hc : In x c).
  { rewrite <- (firstn_skipn b c); apply in_or_app; right.
    rewrite <- (firstn_skipn a (skipn b c)); apply in_or_app; now left. }
  assert (existsb P c = true) by (apply existsb_exists; eauto).
  congruence.
Qed.

Lemma no_null_slices (a b : nat) (df : DataFrame float) :
  existsb (existsb isnull) df = false ->
  existsb (existsb isnull) (map (fun c => firstn a (skipn b c)) df) = false.
Proof.
  induction df as [|c df IH]; simpl; [reflexivity|].
  intros H; apply orb_false_iff in H as [Hc Hdf].
  now rewrite existsb_slice_false, IH.
Qed.

Lemma observations_all (c : list float) :
  existsb isnull c = false -> length (observations c) = length c.
Proof.
  unfold observations.
  induction c as [|[x|] c IH]; simpl; [reflexivity| |discriminate].
  intros H; now rewrite IH.
Qed.

(** X4.  From the third timestamp on, on a panel without missing cells,
    [EmpSigma._estimate] compiles the sum of squares over the
    [min(lookback, t - 1)] rows that end two periods before [t] and divides
    it by [lookback], also while fewer than [lookback] rows are there; the
    term is what it leaves in [expression]. *)
Theorem emp_sigma_estimate_window
        (self : EmpSigma.instance) (t : nat) (wplus z v : Expression) :
  2 <= t -> t < nrows (EmpSigma.returns self) ->
  1 <= EmpSigma.lookback self ->
  existsb (existsb isnull) (EmpSigma.returns self) = false ->
  exists Rv,
    let e := expr (Div (sum_squares (matmul (Const Rv) wplus))
                       (INR (EmpSigma.lookback self))) in
    length Rv = Nat.min (EmpSigma.lookback self) (t - 1) /\
    snd (EmpSigma._estimate self t wplus z v) = Ok e /\
    BaseRiskModel.expression
      (EmpSigma.base (fst (EmpSigma._estimate self t wplus z v))) = Some e.
Proof.
  intros H2 Ht HL Hnull.
  unfold EmpSigma._estimate.
  destruct (Nat.leb_spec (nrows (EmpSigma.returns self)) t); [lia|].
  destruct (Nat.eqb_spec t 0); [lia|].
  set (start := t - 1 - EmpSigma.lookback self).
  set (R := map (fun c => firstn (t - 1 - start) (skipn start c))
                (EmpSigma.returns self)).
  assert (HR : existsb (existsb isnull) R = false)
    by (apply no_null_slices; assumption).
  destruct (EmpSigma.returns self) as [|c p] eqn:E; [simpl in Ht; lia|].
  simpl nrows in Ht.
  assert (Hrows : nrows R = Nat.min (EmpSigma.lookback self) (t - 1)).
  { subst R; simpl nrows.
    rewrite length_firstn, length_skipn; subst start; lia. }
  rewrite Hrows.
  destruct (Nat.eqb_spec (Nat.min (EmpSigma.lookback self) (t - 1)) 0);
    [lia|].
  unfold EmpSigma.values; rewrite HR.
  eexists; cbn zeta; split; [|split; reflexivity].
  unfold transpose_; rewrite length_map, length_seq.
  subst R; simpl map; simpl ncols.
  rewrite observations_all.
  - rewrite length_firstn, length_skipn; subst start; lia.
  - simpl in Hnull; apply orb_false_iff in Hnull as [Hc _].
    now apply existsb_slice_false.
Qed.

(** ** The legacy compile interface *)

(** X5.  [DiagonalCovariance.__init__] does not run the constructor of
    [BaseRiskModel], so its instances have no [w_bench]: compiling one
    through [weight_expr] raises [AttributeError] before [_estimate] is
    reached and leaves the model as it was, also once [set_benchmark] has
    been called. *)
Theorem diagonal_covariance_has_no_legacy_compile
        (sd bw : estimator.data) (d : DiagonalCovariance.instance)
        (a : BaseRiskModel.attrs)
        (est : BaseRiskModel.attrs -> nat -> Expression -> Expression ->
               Expression -> BaseRiskModel.attrs * Result object)
        (t : nat) (w_plus z v : Expression) :
  DiagonalCovariance.__init__ sd = Ok d ->
  BaseRiskModel.set_benchmark (DiagonalCovariance.base d) bw = Ok a ->
  let m := BaseRiskModel.Build "DiagonalCovariance"
                               (DiagonalCovariance.base d) est in
  let m' := BaseRiskModel.Build "DiagonalCovariance" a est in
  BaseRiskModel.weight_expr m t w_plus z v = (m, Raise AttributeError) /\
  BaseRiskModel.weight_expr m' t w_plus z v = (m', Raise AttributeError).
Proof.
  intros Hd Ha.
  injection Hd as <-.
  injection Ha as <-.
  split; reflexivity.
Qed.

(** X6.  Compiling through [weight_expr] and then asking for the log
    reports the value of the very term [_estimate] returned: the value
    itself when it is not zero, [NaN] when it is. *)
Theorem optimization_log_after_weight_expr
        (m : BaseRiskModel.instance) (t : nat) (w z v wb : Expression)
        (s1 : BaseRiskModel.attrs) (e : Expression) (c : object) (x : R) :
  BaseRiskModel.w_bench (BaseRiskModel.self_ m) = Some wb ->
  BaseRiskModel._estimate m (BaseRiskModel.self_ m) t (Sub w wb) z v
  = (s1, Ok (tuple [expr e; c])) ->
  value e = Some (scalar x) ->
  BaseRiskModel.optimization_log
    (BaseRiskModel.self_ (fst (BaseRiskModel.weight_expr m t w z v))) t
  = Ok (if Req_dec_T x 0 then BaseRiskModel.NaN
        else BaseRiskModel.realized (scalar x)).
Proof.
  intros Hwb Hest Hval.
  rewrite (weight_expr_ok m t w z v Hwb Hest); simpl.
  unfold BaseRiskModel.optimization_log; simpl.
  rewrite Hval; simpl.
  destruct (Req_dec_T x 0); reflexivity.
Qed.

(** ** Worst-case risk: what compiling keeps *)

(** X7.  Whatever happens inside [WorstCaseRisk._estimate], the model it
    leaves behind combines the same risk models: the list has the same
    length, each entry keeps its class and its [_estimate], and the base
    attributes of the worst-case model itself are untouched. *)
Theorem worst_case_estimate_keeps_models
        (cast_to_const : object -> Result Expression)
        (self : WorstCaseRisk.instance) (t : nat) (wplus z v : Expression) :
  let self' := fst (WorstCaseRisk._estimate cast_to_const self t wplus z v) in
  WorstCaseRisk.base self' = WorstCaseRisk.base self /\
  length (WorstCaseRisk.riskmodels self')
  = length (WorstCaseRisk.riskmodels self) /\
  map BaseRiskModel.__class__ (WorstCaseRisk.riskmodels self')
  = map BaseRiskModel.__class__ (WorstCaseRisk.riskmodels self) /\
  Forall2 (fun m m' => BaseRiskModel._estimate m' = BaseRiskModel._estimate m)
          (WorstCaseRisk.riskmodels self) (WorstCaseRisk.riskmodels self').
Proof.
  intros self'.
  pose proof (comprehension_keeps_classes
                (WorstCaseRisk.riskmodels self) t wplus z v) as H.
  assert (E : WorstCaseRisk.riskmodels self'
              = fst (WorstCaseRisk.comprehension
                       (WorstCaseRisk.riskmodels self) t wplus z v) /\
              WorstCaseRisk.base self' = WorstCaseRisk.base self).
  { subst self'; unfold WorstCaseRisk._estimate.
    destruct (WorstCaseRisk.comprehension _ t wplus z v) as [ms [rs|x]];
      split; reflexivity. }
  destruct E as [-> Hbase].
  split; [exact Hbase|].
  split; [symmetry; exact (Forall2_length H)|].
  split.
  - symmetry.
    eapply map_Forall2; [|exact H].
    intros a b [Hc _]; now rewrite Hc.
  - eapply Forall2_impl; [|exact H].
    intros a b [_ He]; exact He.
Qed.

(** ** Diagonal deviations, covariances and forecast errors *)

Lemma block_entry_at_time {A} (k t a j : nat) (df : DataFrame A) :
  a < k ->
  block_entry k t a j df =
  match nth_error (at_time k t df) j with
  | Some blk => nth_error blk a
  | None => None
  end.
Proof.
  intros Ha; unfold block_entry, at_time, DataFrame, Series in *.
  rewrite nth_error_map.
  destruct (nth_error df j) as [c|]; cbn [option_map]; [|reflexivity].
  rewrite nth_error_firstn, nth_error_skipn.
  destruct (Nat.ltb_spec a k); [reflexivity | lia].
Qed.

Lemma stacked_entry (G : nat -> Series float -> Series float -> float)
      (t a j : nat) (df : DataFrame float) (ca cj : Series float) :
  Forall (fun c => t < length c) df ->
  nth_error df a = Some ca ->
  nth_error df j = Some cj ->
  block_entry (length df) t a j
    (map (shift (length df))
         (map (fun cj =>
                 flat_map (fun i => map (fun ca => G i ca cj) df)
                          (seq 0 (nrows df)))
              df))
  = Some (match t with
          | O => nan
          | S i => G i ca cj
          end).
Proof.
  intros Hrows Ha Hj.
  assert (Hlt : a < length df) by (apply nth_error_Some; congruence).
  rewrite block_entry_at_time by assumption.
  rewrite cov_blocks by assumption.
  rewrite nth_error_map, Hj; simpl.
  destruct t as [|i].
  - now apply nth_error_repeat.
  - now rewrite nth_error_map, Ha.
Qed.

Lemma asset_column {A} (returns : DataFrame A) (j : nat) :
  S j < shape1 returns ->
  exists init cash cj,
    returns = init ++ [cash] /\ nth_error init j = Some cj /\
    shape1 returns - 1 = length init.
Proof.
  intros Hj.
  destruct (snoc_cases returns) as [->|(init & cash & ->)];
    [simpl in Hj; lia|].
  unfold shape1 in *; rewrite length_app in *; simpl in *.
  destruct (nth_error init j) as [cj|] eqn:E;
    [|apply nth_error_None in E; lia].
  exists init, cash, cj; split; [reflexivity|]; split; [exact E | lia].
Qed.

Lemma rolling_var_cell (w t : nat) (s : Series float) :
  t < length s ->
  nth_error (shift 1 (rolling_var w s)) t =
  Some (match t with
        | O => nan
        | S i => rolling_cov_at w i s s
        end).
Proof.
  intros Ht; unfold rolling_var.
  now rewrite cell_shift1.
Qed.

Lemma ewm_var_cell (h : R) (t : nat) (s : Series float) :
  t < length s ->
  nth_error (shift 1 (ewm_var h s)) t =
  Some (match t with
        | O => nan
        | S i => ewm_cov_at h i s s
        end).
Proof.
  intros Ht; unfold ewm_var.
  now rewrite cell_shift1.
Qed.

(** X8.  At every timestamp and for every asset, the deviation that
    [RollingWindowDiagonalCovariance] derives is [np.sqrt] of the diagonal
    entry of the covariance matrix that [RollingWindowFullCovariance]
    derives for the same lookback: missing together, and equal otherwise. *)
Theorem rolling_deviation_is_root_of_covariance_diagonal
        (L : nat) (returns : DataFrame float) (t j : nat) :
  well_formed returns ->
  t < nrows returns ->
  S j < shape1 returns ->
  exists x,
    block_entry (shape1 returns - 1) t j j
      (RollingWindowFullCovariance.covariances
         (RollingWindowFullCovariance.mk L None) returns) = Some x /\
    iat (RollingWindowDiagonalCovariance.deviations
           (RollingWindowDiagonalCovariance.mk L None) returns) t j
    = Some (np.sqrt x).
Proof.
  intros W Ht Hj.
  pose proof (wf_rows W Ht) as Rall.
  destruct (asset_column returns Hj) as (init & cash & cj & -> & Hc & HN).
  destruct (nrows_snoc_rows _ _ Rall) as (_ & _ & Rinit).
  assert (Hlen : t < length cj).
  { rewrite Forall_forall in Rinit; apply Rinit.
    eapply nth_error_In; eassumption. }
  eexists; split.
  - unfold RollingWindowFullCovariance.covariances, iloc_all_but_last.
    rewrite HN, removelast_last; unfold shape1, rolling_cov; simpl.
    apply (stacked_entry (fun i ca cj => rolling_cov_at L i ca cj));
      eassumption.
  - unfold RollingWindowDiagonalCovariance.deviations, iloc_all_but_last, iat.
    rewrite removelast_last, nth_error_map, Hc; simpl.
    now rewrite nth_error_map, rolling_var_cell.
Qed.

(** X9.  The same for the exponential windows, for every positive half
    life: the deviation of [ExponentialWindowDiagonalCovariance] is
    [np.sqrt] of the diagonal entry of the covariance of
    [ExponentialWindowFullCovariance]. *)
Theorem exponential_deviation_is_root_of_covariance_diagonal
        (h : R) (returns : DataFrame float) (t j : nat) :
  (0 < h)%R ->
  well_formed returns ->
  t < nrows returns ->
  S j < shape1 returns ->
  exists covs devs x,
    ExponentialWindowFullCovariance.covariances
      (ExponentialWindowFullCovariance.mk h None) returns = Ok covs /\
    ExponentialWindowDiagonalCovariance.deviations
      (ExponentialWindowDiagonalCovariance.mk h None) returns = Ok devs /\
    block_entry (shape1 returns - 1) t j j covs = Some x /\
    iat devs t j = Some (np.sqrt x).
Proof.
  intros Hh W Ht Hj.
  pose proof (wf_rows W Ht) as Rall.
  destruct (asset_column returns Hj) as (init & cash & cj & -> & Hc & HN).
  destruct (nrows_snoc_rows _ _ Rall) as (_ & _ & Rinit).
  assert (Hlen : t < length cj).
  { rewrite Forall_forall in Rinit; apply Rinit.
    eapply nth_error_In; eassumption. }
  unfold ExponentialWindowFullCovariance.covariances,
    ExponentialWindowDiagonalCovariance.deviations, ewm_check,
    iloc_all_but_last.
  simpl ExponentialWindowFullCovariance.half_life.
  simpl ExponentialWindowDiagonalCovariance.half_life.
  destruct (Rlt_dec 0 h); [|contradiction].
  rewrite HN, removelast_last; unfold shape1; simpl bind.
  eexists _, _, _; split; [reflexivity|]; split; [reflexivity|]; split.
  - unfold ewm_cov.
    apply (stacked_entry (fun i ca cj => ewm_cov_at h i ca cj));
      eassumption.
  - unfold iat.
    rewrite nth_error_map, Hc; simpl.
    now rewrite nth_error_map, ewm_var_cell.
Qed.

Lemma observations2_diag (win : list float) :
  observations2 win win = combine (observations win) (observations win).
Proof.
  unfold observations2, observations.
  induction win as [|[x|] win IH]; simpl; [reflexivity| |assumption].
  now rewrite IH.
Qed.

Lemma zsqrt_rolling_var (w i : nat) (s : Series float) :
  zsqrt (rolling_cov_at w i s s) = np.sqrt (rolling_cov_at w i s s).
Proof.
  unfold rolling_cov_at.
  rewrite observations2_diag.
  set (o := observations (window w i s)).
  rewrite length_combine, Nat.min_id.
  destruct (length o <? w); [reflexivity|].
  destruct (Nat.leb_spec (length o) 1); [reflexivity|].
  simpl orb; cbv iota.
  unfold zsqrt, np.sqrt.
  fold (var o).
  destruct (Rlt_dec (var o) 0) as [Hneg|_]; [|reflexivity].
  assert (Hv : (0 <= var o)%R) by (apply var_nonneg; lia); lra.
Qed.

(** X10.  In every column but cash and at every timestamp, the rolling
    forecast error is the deviation that [RollingWindowDiagonalCovariance]
    derives for the same lookback, divided by [sqrt(lookback)]; the two
    are missing together. *)
Theorem rolling_forecast_error_is_scaled_deviation
        (L : nat) (zero_for_cash : bool) (returns : DataFrame float)
        (t j : nat) :
  well_formed returns ->
  t < nrows returns ->
  S j < shape1 returns ->
  exists f d,
    RollingWindowReturnsForecastErrorRisk.errors
      (RollingWindowReturnsForecastErrorRisk.mk L zero_for_cash None) returns
    = Ok f /\
    iat (RollingWindowDiagonalCovariance.deviations
           (RollingWindowDiagonalCovariance.mk L None) returns) t j = Some d /\
    iat f t j = Some (divide d (R_sqrt.sqrt (INR L))).
Proof.
  intros W Ht Hj.
  pose proof (wf_rows W Ht) as Rall.
  destruct (asset_column returns Hj) as (init & cash & cj & -> & Hc & HN).
  destruct (nrows_snoc_rows _ _ Rall) as (_ & _ & Rinit).
  assert (Hlen : t < length cj).
  { rewrite Forall_forall in Rinit; apply Rinit.
    eapply nth_error_In; eassumption. }
  assert (Hlt : j < length init) by (apply nth_error_Some; congruence).
  eexists _, _; split; [apply errors_snoc|].
  cbv zeta; simpl RollingWindowReturnsForecastErrorRisk.lookback_period.
  unfold RollingWindowDiagonalCovariance.deviations, iloc_all_but_last, iat.
  rewrite removelast_last.
  rewrite nth_error_snoc_init by (rewrite length_map; lia).
  rewrite !nth_error_map, Hc; simpl option_map; cbv iota.
  rewrite !nth_error_map, rolling_var_cell, rolling_std_cell by assumption.
  simpl option_map.
  split; [reflexivity|].
  destruct t as [|i]; [reflexivity|].
  now rewrite zsqrt_rolling_var.
Qed.

(** ** The first timestamp and the shape of the derived frames *)

Lemma first_cell_shift (k : nat) (s : Series float) :
  1 <= k -> 0 < length s -> nth_error (shift k s) 0 = Some nan.
Proof.
  intros Hk Hs.
  rewrite nth_error_shift.
  destruct (Nat.ltb_spec 0 (length s)); [|lia].
  destruct (Nat.ltb_spec 0 k); [reflexivity | lia].
Qed.

Lemma first_row_missing (F : Series float -> Series float)
      (df : DataFrame float) :
  (forall c, 0 < length c -> nth_error (F c) 0 = Some nan) ->
  Forall (fun c => 0 < length c) df ->
  all_missing (at_time 1 0 (map F df)).
Proof.
  intros HF Hrows.
  rewrite at_time1, map_map.
  unfold all_missing.
  apply Forall_map.
  eapply Forall_impl; [|exact Hrows].
  intros c Hc; cbv beta.
  rewrite (HF c Hc); repeat constructor.
Qed.

Lemma all_missing_app (a b : list (list float)) :
  all_missing a -> all_missing b -> all_missing (a ++ b).
Proof. unfold all_missing; intros; now apply Forall_app. Qed.

Lemma first_cell_shifted_map (f : float -> float)
      (G : Series float -> Series float) (c : Series float) :
  f nan = nan -> length (G c) = length c -> 0 < length c ->
  nth_error (map f (shift 1 (G c))) 0 = Some nan.
Proof.
  intros Hf HG Hc.
  rewrite nth_error_map, first_cell_shift by (rewrite ?HG; lia).
  simpl; now rewrite Hf.
Qed.

Lemma rolling_mean_length (w : nat) (s : Series float) :
  length (rolling_mean w s) = length s.
Proof. unfold rolling_mean; now rewrite length_map, length_seq. Qed.

Lemma rolling_var_length (w : nat) (s : Series float) :
  length (rolling_var w s) = length s.
Proof. unfold rolling_var; now rewrite length_map, length_seq. Qed.

Lemma ewm_mean_length (h : R) (s : Series float) :
  length (ewm_mean h s) = length s.
Proof. unfold ewm_mean; now rewrite length_map, length_seq. Qed.

Lemma ewm_var_length (h : R) (s : Series float) :
  length (ewm_var h s) = length s.
Proof. unfold ewm_var; now rewrite length_map, length_seq. Qed.

Lemma first_cell_shifted (G : Series float -> Series float)
      (c : Series float) :
  length (G c) = length c -> 0 < length c ->
  nth_error (shift 1 (G c)) 0 = Some nan.
Proof. intros HG Hc; apply first_cell_shift; rewrite ?HG; lia. Qed.

Lemma all_missing_repeat (n : nat) (df : DataFrame float) :
  all_missing (map (fun _ => repeat nan n) df).
Proof.
  unfold all_missing; apply Forall_map, Forall_forall; intros c _.
  apply Forall_forall; intros x Hx; now apply repeat_spec in Hx.
Qed.

Lemma first_row_missing_snoc (F G : Series float -> Series float)
      (init : DataFrame float) (cash : Series float) :
  (forall c, 0 < length c -> nth_error (F c) 0 = Some nan) ->
  (forall c, 0 < length c -> nth_error (G c) 0 = Some nan) ->
  Forall (fun c => 0 < length c) (init ++ [cash]) ->
  all_missing (at_time 1 0 (map F init ++ [G cash])).
Proof.
  intros HF HG Hrows.
  apply Forall_app in Hrows as [Hinit Hcash].
  rewrite at_time_app; apply all_missing_app.
  - now apply first_row_missing.
  - now apply (first_row_missing G (df := [cash])).
Qed.

(** X11.  No estimator produces an estimate at the first timestamp of the
    panel: every cell it attributes to that timestamp is missing, except
    the cash cell that the forecast error sets to zero. *)
Theorem no_estimate_at_first_timestamp
        (e : WindowEstimator) (returns : DataFrame float)
        (cells : list (list float)) :
  well_formed returns ->
  0 < nrows returns ->
  estimate_at e returns 0 = Ok cells ->
  all_missing (if zeroes_cash e then removelast cells else cells).
Proof.
  intros W Hn Hcells.
  pose proof (wf_rows W Hn) as Rall.
  destruct (snoc_cases returns) as [->|(init & cash & ->)];
    [simpl in Hn; lia|].
  destruct (nrows_snoc_rows _ _ Rall) as (Hrows & Hcash & Rinit).
  unfold estimate_at, pre_evaluation in Hcells.
  destruct e as [s|s|s|s|s|s|s]; simpl zeroes_cash.
  - unfold RollingWindowReturnsForecast.pre_evaluation in Hcells.
    rewrite rolling_forecasts_snoc in Hcells; cbn in Hcells.
    injection Hcells as <-.
    destruct (RollingWindowReturnsForecast.use_last_for_cash s).
    + apply (first_row_missing_snoc _ (shift 1)); auto.
      * intros c Hc; apply first_cell_shifted;
          [apply rolling_mean_length | assumption].
      * intros c Hc; now apply first_cell_shift.
    + apply (first_row_missing_snoc
               _ (fun c => shift 1 (rolling_mean _ c))); auto;
        intros c Hc; apply first_cell_shifted;
        (apply rolling_mean_length || assumption).
  - unfold ExponentialWindowReturnsForecast.pre_evaluation in Hcells.
    destruct (Rlt_dec 0 (ExponentialWindowReturnsForecast.half_life s))
      as [Hh|Hh].
    + rewrite exponential_forecasts_snoc in Hcells by assumption.
      cbn in Hcells; injection Hcells as <-.
      destruct (ExponentialWindowReturnsForecast.use_last_for_cash s).
      * apply (first_row_missing_snoc _ (shift 1)); auto.
        -- intros c Hc; apply first_cell_shifted;
             [apply ewm_mean_length | assumption].
        -- intros c Hc; now apply first_cell_shift.
      * apply (first_row_missing_snoc
                 _ (fun c => shift 1 (ewm_mean _ c))); auto;
          intros c Hc; apply first_cell_shifted;
          (apply ewm_mean_length || assumption).
    + unfold ExponentialWindowReturnsForecast.forecasts, ewm_check in Hcells.
      destruct (Rlt_dec 0 (ExponentialWindowReturnsForecast.half_life s));
        [contradiction | discriminate].
  - unfold RollingWindowReturnsForecastErrorRisk.pre_evaluation in Hcells.
    rewrite errors_snoc in Hcells; cbn in Hcells.
    injection Hcells as <-.
    set (L := RollingWindowReturnsForecastErrorRisk.lookback_period s).
    assert (HF : forall c : Series float,
               0 < length c ->
               nth_error
                 (map (fun x => divide x (R_sqrt.sqrt (INR L)))
                      (shift 1 (rolling_std L c))) 0 = Some nan).
    { intros c Hc; apply first_cell_shifted_map;
        [reflexivity | apply rolling_std_length | assumption]. }
    destruct (RollingWindowReturnsForecastErrorRisk.zero_for_cash s).
    + rewrite at_time_app.
      change (at_time 1 0 [repeat (num 0) (nrows (init ++ [cash]))])
        with [firstn 1 (skipn (0 * 1)
                          (repeat (num 0) (nrows (init ++ [cash]))))].
      rewrite removelast_last.
      now apply first_row_missing.
    + apply (first_row_missing_snoc
               _ (fun c => map _ (shift 1 (rolling_std _ c)))); auto.
  - unfold RollingWindowFullCovariance.pre_evaluation,
      RollingWindowFullCovariance.covariances, iloc_all_but_last, shape1
      in Hcells.
    rewrite !removelast_last in Hcells; cbn in Hcells.
    injection Hcells as <-.
    unfold rolling_cov; rewrite cov_blocks by assumption.
    apply all_missing_repeat.
  - unfold ExponentialWindowFullCovariance.pre_evaluation,
      ExponentialWindowFullCovariance.covariances, iloc_all_but_last, shape1,
      ewm_check in Hcells.
    rewrite !removelast_last in Hcells.
    destruct (Rlt_dec 0 (ExponentialWindowFullCovariance.half_life s));
      [|discriminate].
    cbn in Hcells; injection Hcells as <-.
    unfold ewm_cov; rewrite cov_blocks by assumption.
    apply all_missing_repeat.
  - unfold RollingWindowDiagonalCovariance.pre_evaluation,
      RollingWindowDiagonalCovariance.deviations, iloc_all_but_last
      in Hcells.
    rewrite !removelast_last in Hcells; cbn in Hcells.
    injection Hcells as <-.
    apply first_row_missing; [|assumption].
    intros c Hc; apply first_cell_shifted_map;
      [reflexivity | apply rolling_var_length | assumption].
  - unfold ExponentialWindowDiagonalCovariance.pre_evaluation,
      ExponentialWindowDiagonalCovariance.deviations, iloc_all_but_last,
      ewm_check in Hcells.
    rewrite !removelast_last in Hcells.
    destruct (Rlt_dec 0 (ExponentialWindowDiagonalCovariance.half_life s));
      [|discriminate].
    cbn in Hcells; injection Hcells as <-.
    apply first_row_missing; [|assumption].
    intros c Hc; apply first_cell_shifted_map;
      [reflexivity | apply ewm_var_length | assumption].
Qed.

Lemma wf_lengths {A} (p : DataFrame A) :
  well_formed p -> Forall (fun c => length c = nrows p) p.
Proof.
  intros [T HT].
  destruct p as [|c p]; [constructor|].
  assert (T = length c) by (inversion HT; subst; reflexivity); subst T.
  exact HT.
Qed.

Lemma lengths_map {A B} (F : Series A -> Series B) (T : nat)
      (df : DataFrame A) :
  (forall c, length (F c) = length c) ->
  Forall (fun c => length c = T) df ->
  Forall (fun c => length c = T * 1) (map F df).
Proof.
  intros HF H; apply Forall_map.
  eapply Forall_impl; [|exact H].
  intros c Hc; cbv beta in Hc; rewrite HF; lia.
Qed.

Lemma lengths_snoc {A B} (F : Series A -> Series B) (T : nat)
      (init : DataFrame A) (x : Series B) :
  (forall c, length (F c) = length c) ->
  Forall (fun c => length c = T) init ->
  length x = T ->
  Forall (fun c => length c = T * 1) (map F init ++ [x]).
Proof.
  intros HF H Hx; apply Forall_app; split.
  - now apply lengths_map.
  - constructor; [lia | constructor].
Qed.

Lemma lengths_stacked (G : nat -> Series float -> Series float -> float)
      (T : nat) (df : DataFrame float) :
  Forall (fun c => length c = T) df ->
  Forall (fun c => length c = T * length df)
         (map (shift (length df))
              (map (fun cj =>
                      flat_map (fun i => map (fun ca => G i ca cj) df)
                               (seq 0 (nrows df)))
                   df)).
Proof.
  intros H.
  rewrite map_map; apply Forall_map, Forall_forall; intros cj _.
  rewrite shift_length.
  rewrite (length_flat_map_const _ (N := length df))
    by (intros; apply length_map).
  rewrite length_seq.
  destruct df as [|c df]; [simpl; lia|].
  inversion H; subst; reflexivity.
Qed.

(** X12.  The frame an estimator derives keeps the shape of the panel: one
    column per asset (cash included for the forecasts and their errors,
    dropped for the covariances and deviations), and for every timestamp of
    the panel one row, or one row per asset in the stacked frame of
    covariances. *)
Theorem derived_frame_has_panel_shape
        (e : WindowEstimator) (returns : DataFrame float)
        (p : estimator.ParameterEstimator) :
  well_formed returns ->
  1 <= shape1 returns ->
  pre_evaluation e returns = Ok p ->
  exists f,
    estimator.data_ p = estimator.TimeIndexed (rows_per_label e returns) f /\
    shape1 f = (if drops_cash e then shape1 returns - 1 else shape1 returns) /\
    Forall (fun c => length c = nrows returns * rows_per_label e returns) f.
Proof.
  intros W Hcols Hp.
  pose proof (wf_lengths W) as Hlen.
  destruct (snoc_cases returns) as [->|(init & cash & ->)];
    [simpl in Hcols; lia|].
  apply Forall_app in Hlen as [Hinit Hcash].
  inversion Hcash as [|? ? Hc _]; subst.
  set (T := nrows (init ++ [cash])) in *.
  assert (Hshape : shape1 (init ++ [cash]) - 1 = length init)
    by (unfold shape1; rewrite length_app; simpl; lia).
  assert (Hshape' : forall (F : Series float -> Series float) x,
             shape1 (map F init ++ [x]) = shape1 (init ++ [cash]))
    by (intros; unfold shape1; now rewrite !length_app, length_map).
  unfold pre_evaluation in Hp.
  destruct e as [s|s|s|s|s|s|s]; simpl drops_cash; simpl rows_per_label.
  - unfold RollingWindowReturnsForecast.pre_evaluation in Hp.
    rewrite rolling_forecasts_snoc in Hp; cbn in Hp.
    injection Hp as <-.
    eexists; split; [reflexivity|]; split; [apply Hshape'|].
    apply lengths_snoc; auto.
    + intros c; now rewrite shift_length, rolling_mean_length.
    + destruct (RollingWindowReturnsForecast.use_last_for_cash s);
        now rewrite shift_length, ?rolling_mean_length.
  - unfold ExponentialWindowReturnsForecast.pre_evaluation in Hp.
    destruct (Rlt_dec 0 (ExponentialWindowReturnsForecast.half_life s))
      as [Hh|Hh].
    + rewrite exponential_forecasts_snoc in Hp by assumption.
      cbn in Hp; injection Hp as <-.
      eexists; split; [reflexivity|]; split; [apply Hshape'|].
      apply lengths_snoc; auto.
      * intros c; now rewrite shift_length, ewm_mean_length.
      * destruct (ExponentialWindowReturnsForecast.use_last_for_cash s);
          now rewrite shift_length, ?ewm_mean_length.
    + unfold ExponentialWindowReturnsForecast.forecasts, ewm_check in Hp.
      destruct (Rlt_dec 0 (ExponentialWindowReturnsForecast.half_life s));
        [contradiction | discriminate].
  - unfold RollingWindowReturnsForecastErrorRisk.pre_evaluation in Hp.
    rewrite errors_snoc in Hp; cbn in Hp.
    injection Hp as <-.
    eexists; split; [reflexivity|]; split; [apply Hshape'|].
    apply lengths_snoc; auto.
    + intros c; now rewrite length_map, shift_length, rolling_std_length.
    + destruct (RollingWindowReturnsForecastErrorRisk.zero_for_cash s);
        [apply repeat_length|].
      now rewrite length_map, shift_length, rolling_std_length.
  - unfold RollingWindowFullCovariance.pre_evaluation,
      RollingWindowFullCovariance.covariances, iloc_all_but_last in Hp.
    rewrite !removelast_last in Hp; cbn in Hp.
    injection Hp as <-.
    rewrite Hshape.
    eexists; split; [reflexivity|]; split.
    + unfold shape1, rolling_cov; now rewrite !length_map.
    + unfold shape1, rolling_cov; now apply lengths_stacked.
  - unfold ExponentialWindowFullCovariance.pre_evaluation,
      ExponentialWindowFullCovariance.covariances, iloc_all_but_last,
      ewm_check in Hp.
    rewrite !removelast_last in Hp.
    destruct (Rlt_dec 0 (ExponentialWindowFullCovariance.half_life s));
      [|discriminate].
    cbn in Hp; injection Hp as <-.
    rewrite Hshape.
    eexists; split; [reflexivity|]; split.
    + unfold shape1, ewm_cov; now rewrite !length_map.
    + unfold shape1, ewm_cov; now apply lengths_stacked.
  - unfold RollingWindowDiagonalCovariance.pre_evaluation,
      RollingWindowDiagonalCovariance.deviations, iloc_all_but_last in Hp.
    rewrite !removelast_last in Hp; cbn in Hp.
    injection Hp as <-.
    eexists; split; [reflexivity|]; split.
    + unfold shape1 in *; now rewrite length_map.
    + apply lengths_map; auto.
      intros c; now rewrite length_map, shift_length, rolling_var_length.
  - unfold ExponentialWindowDiagonalCovariance.pre_evaluation,
      ExponentialWindowDiagonalCovariance.deviations, iloc_all_but_last,
      ewm_check in Hp.
    rewrite !removelast_last in Hp.
    destruct (Rlt_dec 0 (ExponentialWindowDiagonalCovariance.half_life s));
      [|discriminate].
    cbn in Hp; injection Hp as <-.
    eexists; split; [reflexivity|]; split.
    + unfold shape1 in *; now rewrite length_map.
    + apply lengths_map; auto.
      intros c; now rewrite length_map, shift_length, ewm_var_length.
Qed.

(** X13.  The exponential estimators accept any half life when they are
    built, but a half life that is not positive makes [pre_evaluation]
    raise [ValueError] on every panel, before any column is looked at. *)
Theorem nonpositive_half_life_fails_at_pre_evaluation
        (e : WindowEstimator) (h : R) (returns : DataFrame float) :
  half_life_of e = Some h ->
  (h <= 0)%R ->
  pre_evaluation e returns = Raise ValueError.
Proof.
  intros He Hh.
  destruct e as [s|s|s|s|s|s|s]; simpl in He; try discriminate;
    injection He as <-; unfold pre_evaluation.
  - unfold ExponentialWindowReturnsForecast.pre_evaluation,
      ExponentialWindowReturnsForecast.forecasts, ewm_check.
    destruct (Rlt_dec 0 (ExponentialWindowReturnsForecast.half_life s));
      [lra | reflexivity].
  - unfold ExponentialWindowFullCovariance.pre_evaluation,
      ExponentialWindowFullCovariance.covariances, ewm_check.
    destruct (Rlt_dec 0 (ExponentialWindowFullCovariance.half_life s));
      [lra | reflexivity].
  - unfold ExponentialWindowDiagonalCovariance.pre_evaluation,
      ExponentialWindowDiagonalCovariance.deviations, ewm_check.
    destruct (Rlt_dec 0 (ExponentialWindowDiagonalCovariance.half_life s));
      [lra | reflexivity].
Qed.

(** ** Values of the compiled terms *)

Lemma nonempty_length {A} (l : list A) : l <> [] <-> 0 < length l.
Proof.
  destruct l; simpl; split; intros H; try lia; try discriminate.
  now elim H.
Qed.

Lemma broadcast_columns (f : R -> R -> R) (u v : list R) :
  length u = length v ->
  broadcast f (column u) (column v)
  = Some (column (map (fun p => f (fst p) (snd p)) (combine u v))).
Proof.
  intros Hlen; unfold broadcast, same_shape.
  rewrite !length_column, Hlen, Nat.eqb_refl.
  assert (Hn : ncols (column u) = ncols (column v)).
  { destruct u, v; try discriminate; reflexivity. }
  rewrite Hn, Nat.eqb_refl; simpl.
  now rewrite map2_column.
Qed.

Lemma row_times_column (a d : list R) :
  a <> [] -> length a = length d ->
  matmul_ [a] (column d) = Some (scalar (dot a d)).
Proof.
  intros Ha Hlen.
  assert (Hd : d <> []) by (destruct a, d; try discriminate; congruence).
  unfold matmul_; simpl ncols.
  rewrite length_column, Hlen, Nat.eqb_refl.
  now rewrite (transpose_column Hd).
Qed.

Lemma dot_nonneg (u v : list R) :
  Forall (fun x => 0 <= x)%R u -> Forall (fun x => 0 <= x)%R v ->
  (0 <= dot u v)%R.
Proof.
  intros Hu; revert v; induction Hu as [|a u Ha Hu IH]; intros v Hv.
  - unfold dot; simpl; lra.
  - destruct Hv as [|x v Hx Hv]; [unfold dot; simpl; lra|].
    rewrite dot_cons.
    specialize (IH v Hv).
    pose proof (Rmult_le_pos a x Ha Hx); lra.
Qed.

Lemma dot_zero_l (u v : list R) :
  Forall (fun x => x = 0%R) u -> dot u v = 0%R.
Proof.
  intros Hu; revert v; induction Hu as [|a u Ha Hu IH]; intros v;
    [reflexivity|].
  destruct v as [|x v]; [reflexivity|].
  rewrite dot_cons, IH, Ha; lra.
Qed.

Lemma dot_zero_r (u v : list R) :
  Forall (fun x => x = 0%R) v -> dot u v = 0%R.
Proof.
  intros Hv; revert u; induction Hv as [|x v Hx Hv IH]; intros u.
  - destruct u; reflexivity.
  - destruct u as [|a u]; [reflexivity|].
    rewrite dot_cons, IH, Hx; lra.
Qed.

Lemma differences_zero (bs : list R) :
  Forall (fun x => x = 0%R)
         (map (fun p => fst p - snd p)%R (combine bs bs)).
Proof.
  induction bs as [|b bs IH]; simpl; constructor; [lra | assumption].
Qed.

Lemma abs_column (v : list R) :
  map (map Rabs) (column v) = column (map Rabs v).
Proof. unfold column; now rewrite !map_map. Qed.

(** X14.  The forecast-error term is the sum over the assets of the
    absolute deviation from the benchmark times the forecast error: it is
    never negative when the errors are not, and it vanishes when the
    holdings are the benchmark. *)
Theorem forecast_error_penalty_value
        (self : ReturnsForecastErrorRisk.instance)
        (ws bs ds : list R) (z v : Expression) :
  ws <> [] ->
  length bs = length ws -> length ds = length ws ->
  ReturnsForecastErrorRisk.benchmark_weights self = Param (Some (column bs)) ->
  estimator.value (ReturnsForecastErrorRisk.deltas_errors self)
  = Some (column ds) ->
  Forall (fun d => 0 <= d)%R ds ->
  let x := dot (map Rabs (map (fun p => fst p - snd p)%R (combine ws bs))) ds in
  value (ReturnsForecastErrorRisk.compile_to_cvxpy
           self (Var (Some (column ws))) z v) = Some (scalar x) /\
  (0 <= x)%R /\
  (ws = bs -> x = 0%R).
Proof.
  intros Hws Hb Hd Hbench Hdelta Hnonneg x.
  split; [|split].
  - unfold ReturnsForecastErrorRisk.compile_to_cvxpy, estimator.as_cvxpy.
    rewrite Hbench, Hdelta.
    cbn [value lift2 option_map].
    rewrite broadcast_columns by congruence.
    cbn [option_map lift2].
    rewrite abs_column, transpose_column.
    + apply row_times_column.
      * apply nonempty_length; apply nonempty_length in Hws.
        rewrite !length_map, length_combine; lia.
      * rewrite !length_map, length_combine; lia.
    + apply nonempty_length; apply nonempty_length in Hws.
      rewrite !length_map, length_combine; lia.
  - apply dot_nonneg; [|assumption].
    apply Forall_map, Forall_forall; intros y _; apply Rabs_pos.
  - intros <-; apply dot_zero_l.
    apply Forall_map.
    eapply Forall_impl; [|apply differences_zero].
    intros y ->; apply Rabs_R0.
Qed.

(** X15.  The full-covariance term vanishes when the holdings are the
    benchmark, whatever the (square) matrix [Sigma] holds. *)
Theorem full_covariance_vanishes_at_benchmark
        (f : FullCovariance.instance) (bs : list R) (P : Tensor)
        (z v : Expression) :
  bs <> [] ->
  BaseRiskModel.benchmark_weights (FullCovariance.base f)
  = Param (Some (column bs)) ->
  estimator.value (FullCovariance.Sigma f) = Some P ->
  length P = length bs -> ncols P = length bs ->
  value (FullCovariance.compile_to_cvxpy f (Var (Some (column bs))) z v)
  = Some (scalar 0).
Proof.
  intros Hbs Hbench HSigma HP HnP.
  unfold FullCovariance.compile_to_cvxpy, estimator.as_cvxpy.
  rewrite Hbench, HSigma.
  cbn [value lift2].
  rewrite broadcast_columns by reflexivity.
  set (d := map (fun p => (fst p - snd p)%R) (combine bs bs)).
  assert (Hlen : length d = length bs)
    by (subst d; rewrite length_map, length_combine; lia).
  rewrite quad_form_value;
    [|apply nonempty_length; apply nonempty_length in Hbs; lia
     |congruence|congruence].
  now rewrite (dot_zero_r _ (differences_zero bs)).
Qed.

Lemma sum_squares_nonneg_list (l : list R) :
  (0 <= pd.sum (map (fun y => y * y)%R l))%R.
Proof.
  induction l as [|y l IH]; simpl; [lra|].
  pose proof (Rle_0_sqr y) as H; unfold Rsqr in H; lra.
Qed.

(** X16.  The diagonal term is the sum over the assets of the squared
    product of holding and deviation, so it is never negative; the
    benchmark weights, the trades and the portfolio value do not enter. *)
Theorem diagonal_covariance_value
        (d : DiagonalCovariance.instance) (ws sds : list R)
        (z v : Expression) :
  length ws = length sds ->
  estimator.value (DiagonalCovariance.standard_deviations d)
  = Some (column sds) ->
  let x := pd.sum (map (fun y => y * y)%R (zipmul ws sds)) in
  value (DiagonalCovariance.compile_to_cvxpy d (Var (Some (column ws))) z v)
  = Some (scalar x) /\
  (0 <= x)%R.
Proof.
  intros Hlen Hsd x.
  split; [|apply sum_squares_nonneg_list].
  unfold DiagonalCovariance.compile_to_cvxpy, estimator.as_cvxpy.
  rewrite Hsd.
  cbn [value lift2 option_map].
  rewrite (multiply_columns _ _ Hlen).
  cbn [option_map].
  now rewrite entries_column.
Qed.

Lemma dot_plus_l (u1 u2 r : list R) :
  length u1 = length u2 ->
  dot (map (fun p => fst p + snd p)%R (combine u1 u2)) r
  = (dot u1 r + dot u2 r)%R.
Proof.
  revert u2 r; induction u1 as [|a u1 IH]; intros [|b u2] r Hlen;
    try discriminate.
  - unfold dot; simpl; lra.
  - injection Hlen as Hlen.
    destruct r as [|x r]; [unfold dot; simpl; lra|].
    simpl combine; simpl map.
    rewrite !dot_cons, IH by assumption; lra.
Qed.

(** X17.  The return term is the inner product of holdings and expected
    returns, and it is additive in the holdings. *)
Theorem returns_forecast_value_is_linear
        (self : ReturnsForecast.instance) (ws ws' rs : list R)
        (z v : Expression) :
  ws <> [] ->
  length ws = length rs -> length ws' = length rs ->
  estimator.value (ReturnsForecast.expected_returns self)
  = Some (column rs) ->
  let at_ := fun w =>
    value (ReturnsForecast.compile_to_cvxpy self (Var (Some (column w))) z v) in
  at_ ws = Some (scalar (dot ws rs)) /\
  at_ (map (fun p => fst p + snd p)%R (combine ws ws'))
  = Some (scalar (dot ws rs + dot ws' rs)).
Proof.
  intros Hws Hlen Hlen' Hr at_.
  assert (Hval : forall w, w <> [] -> length w = length rs ->
                           at_ w = Some (scalar (dot w rs))).
  { intros w Hw Hl; subst at_.
    unfold ReturnsForecast.compile_to_cvxpy, estimator.as_cvxpy.
    rewrite Hr; cbn [value lift2 option_map].
    rewrite (transpose_column Hw).
    now apply row_times_column. }
  split; [now apply Hval|].
  rewrite <- dot_plus_l by congruence.
  apply Hval.
  - apply nonempty_length; apply nonempty_length in Hws.
    rewrite length_map, length_combine; lia.
  - rewrite length_map, length_combine; lia.
Qed.

(** ** Weighted combination of return forecasts *)

Lemma loop_runs_out_of_weights
      (weights : list R) (t : nat) (wplus : Expression)
      (sources : list MultipleReturnsForecasts.source) :
  Forall (fun src => Py.succeeds (src t wplus)) sources ->
  forall idx alpha,
    idx <= length weights ->
    length weights < idx + length sources ->
    MultipleReturnsForecasts.loop sources idx weights alpha t wplus
    = Raise IndexError.
Proof.
  induction 1 as [|src rest [a Ha] Hrest IH]; intros idx alpha Hidx Hlen;
    simpl in *; [lia|].
  rewrite Ha; simpl.
  unfold MultipleReturnsForecasts.getitem.
  destruct (nth_error weights idx) eqn:E; [|reflexivity].
  assert (idx < length weights) by (apply nth_error_Some; congruence).
  simpl; apply IH; lia.
Qed.

(** X18.  [MultipleReturnsForecasts.weight_expr] looks up one weight per
    source: with fewer weights than sources, and sources that all return,
    it raises [IndexError]. *)
Theorem multiple_forecasts_need_a_weight_per_source
        (self : MultipleReturnsForecasts.instance) (t : nat)
        (wplus : Expression) :
  length (MultipleReturnsForecasts.weights self)
  < length (MultipleReturnsForecasts.alpha_sources self) ->
  Forall (fun src => Py.succeeds (src t wplus))
         (MultipleReturnsForecasts.alpha_sources self) ->
  MultipleReturnsForecasts.weight_expr self t wplus = Raise IndexError.
Proof.
  intros Hlen Hall.
  unfold MultipleReturnsForecasts.weight_expr.
  apply loop_runs_out_of_weights; [assumption | lia | simpl; lia].
Qed.

Lemma nth_error_skipn_cons {A} (l : list A) (idx : nat) :
  idx < length l ->
  exists w, nth_error l idx = Some w /\ skipn idx l = w :: skipn (S idx) l.
Proof.
  revert idx; induction l as [|a l IH]; intros idx Hidx; [simpl in Hidx; lia|].
  destruct idx as [|idx]; [now exists a|].
  simpl in Hidx.
  destruct (IH idx) as (w & Hw & Hs); [lia|].
  exists w; split; [exact Hw | exact Hs].
Qed.

Lemma loop_value
      (weights : list R) (t : nat) (wplus : Expression)
      (sources : list MultipleReturnsForecasts.source) (vs : list R) :
  Forall2 (fun src x => exists a, src t wplus = Ok a /\
                                  value a = Some (scalar x)) sources vs ->
  forall idx alpha acc,
    value alpha = Some (scalar acc) ->
    idx + length sources <= length weights ->
    exists e,
      MultipleReturnsForecasts.loop sources idx weights alpha t wplus = Ok e /\
      value e = Some (scalar (acc + dot vs (skipn idx weights))).
Proof.
  induction 1 as [|src x rest vs (a & Ha & Hx) Hrest IH];
    intros idx alpha acc Halpha Hlen; simpl in *.
  - exists alpha; split; [reflexivity|].
    rewrite Halpha; unfold dot; simpl.
    now rewrite Rplus_0_r.
  - destruct (@nth_error_skipn_cons _ weights idx) as (w & Hw & Hs); [lia|].
    rewrite Ha; simpl.
    unfold MultipleReturnsForecasts.getitem; rewrite Hw; simpl.
    destruct (IH (S idx) (Add alpha (multiply a (Const (scalar w))))
                 (acc + x * w)%R) as (e & He & Hv).
    + simpl; now rewrite Halpha, Hx.
    + lia.
    + exists e; split; [exact He|].
      rewrite Hv, Hs, dot_cons.
      now rewrite Rplus_assoc.
Qed.

(** X19.  With at least one weight per source,
    [MultipleReturnsForecasts.weight_expr] compiles a term whose value is
    the sum of the sources' values, each times its weight; weights beyond
    the number of sources are not used. *)
Theorem multiple_forecasts_value_is_weighted_sum
        (self : MultipleReturnsForecasts.instance) (t : nat)
        (wplus : Expression) (vs : list R) :
  Forall2 (fun src x => exists a, src t wplus = Ok a /\
                                  value a = Some (scalar x))
          (MultipleReturnsForecasts.alpha_sources self) vs ->
  length (MultipleReturnsForecasts.alpha_sources self)
  <= length (MultipleReturnsForecasts.weights self) ->
  exists e,
    MultipleReturnsForecasts.weight_expr self t wplus = Ok e /\
    value e
    = Some (scalar (dot vs (firstn (length vs)
                                   (MultipleReturnsForecasts.weights self)))).
Proof.
  intros Hsrc Hlen.
  destruct (loop_value (MultipleReturnsForecasts.weights self) Hsrc
                       0 (Const (scalar 0)) (acc := 0%R) eq_refl)
    as (e & He & Hv); [simpl; lia|].
  exists e; split; [exact He|].
  rewrite Hv; simpl skipn.
  rewrite Rplus_0_l.
  unfold dot.
  now rewrite <- combine_firstn_l.
Qed.

(** ** Warm-up of the windows *)

Lemma window_at_most {A} (w i : nat) (s : Series A) :
  length (window w i s) <= w.
Proof.
  unfold window.
  rewrite length_skipn, length_firstn; lia.
Qed.

Lemma rolling_cov_at_missing (w i : nat) (sx sy : Series float) :
  S i < w \/ w <= 1 -> rolling_cov_at w i sx sy = nan.
Proof.
  intros H; unfold rolling_cov_at.
  pose proof (observations2_length (window w i sx) (window w i sy)) as Ho.
  pose proof (window_length w i sx) as H1.
  pose proof (window_at_most w i sx) as H2.
  destruct (Nat.ltb_spec (length (observations2 (window w i sx)
                                                (window w i sy))) w);
    [reflexivity|].
  destruct (Nat.leb_spec (length (observations2 (window w i sx)
                                                (window w i sy))) 1);
    [reflexivity | lia].
Qed.

(** X20.  [RollingWindowFullCovariance] has no partial-window estimate:
    every entry of the matrix attributed to a timestamp with fewer than
    [lookback_period] earlier periods is missing, and with a lookback of 0
    or 1 every entry is missing at every timestamp. *)
Theorem rolling_covariance_needs_full_window
        (L : nat) (returns : DataFrame float) (t a j : nat) :
  well_formed returns ->
  t < nrows returns ->
  S a < shape1 returns -> S j < shape1 returns ->
  t < L \/ L <= 1 ->
  block_entry (shape1 returns - 1) t a j
    (RollingWindowFullCovariance.covariances
       (RollingWindowFullCovariance.mk L None) returns) = Some nan.
Proof.
  intros W Ht Ha Hj HL.
  pose proof (wf_rows W Ht) as Rall.
  destruct (asset_column returns Hj) as (init & cash & cj & -> & Hc & HN).
  destruct (nrows_snoc_rows _ _ Rall) as (_ & _ & Rinit).
  destruct (nth_error init a) as [ca|] eqn:Eca.
  - unfold RollingWindowFullCovariance.covariances, iloc_all_but_last.
    rewrite HN, removelast_last; unfold shape1, rolling_cov; simpl.
    rewrite (@stacked_entry (fun i ca cj => rolling_cov_at L i ca cj)
                            t a j init ca cj Rinit Eca Hc).
    destruct t as [|i]; [reflexivity|].
    f_equal; apply rolling_cov_at_missing; lia.
  - apply nth_error_None in Eca.
    unfold shape1 in Ha; rewrite length_app in Ha; simpl in Ha; lia.
Qed.

Lemma decay_now (h : R) : decay h 0 = 1%R.
Proof.
  unfold decay; simpl INR.
  unfold Rdiv at 2; rewrite Rmult_0_l.
  apply Rpower_O; lra.
Qed.

(** X21.  The exponential forecast has no warm-up: at the second
    timestamp it is the return observed at the first one, for every
    positive half life. *)
Theorem exponential_forecast_starts_at_second_timestamp
        (h : R) (use_last_for_cash : bool) (returns : DataFrame float)
        (j : nat) (c : Series float) (x : R) :
  (0 < h)%R ->
  well_formed returns ->
  1 < nrows returns ->
  nth_error returns j = Some c ->
  nth_error c 0 = Some (num x) ->
  exists f,
    ExponentialWindowReturnsForecast.forecasts
      (ExponentialWindowReturnsForecast.mk h use_last_for_cash None) returns
    = Ok f /\
    iat f 1 j = Some (num x).
Proof.
  intros Hh W Ht Hc Hx.
  pose proof (wf_rows W Ht) as Rall.
  assert (Hlen : 1 < length c).
  { rewrite Forall_forall in Rall; apply Rall.
    eapply nth_error_In; eassumption. }
  assert (Hmean : nth_error (shift 1 (ewm_mean h c)) 1 = Some (num x)).
  { unfold ewm_mean; rewrite cell_shift1 by assumption.
    f_equal; unfold ewm_mean_at, weighted.
    destruct c as [|c0 c]; [discriminate|].
    simpl in Hx; injection Hx as ->.
    simpl; rewrite decay_now.
    f_equal; unfold pd.sum; simpl; field. }
  assert (Hshift : nth_error (shift 1 c) 1 = Some (num x)).
  { rewrite nth_error_shift.
    destruct (Nat.ltb_spec 1 (length c)); [|lia].
    exact Hx. }
  destruct (snoc_cases returns) as [->|(init & cash & ->)];
    [destruct j; discriminate|].
  eexists; split; [now apply exponential_forecasts_snoc|].
  cbv zeta; simpl ExponentialWindowReturnsForecast.half_life.
  simpl ExponentialWindowReturnsForecast.use_last_for_cash.
  unfold iat.
  assert (Hlt : j < length (init ++ [cash]))
    by (apply nth_error_Some; congruence).
  rewrite length_app in Hlt; simpl in Hlt.
  destruct (Nat.eq_dec j (length init)) as [->|Hne].
  - rewrite nth_error_snoc_last in Hc; injection Hc as ->.
    replace (length init)
      with (length (map (fun c0 => shift 1 (ewm_mean h c0)) init))
      by apply length_map.
    rewrite nth_error_snoc_last.
    now destruct use_last_for_cash.
  - rewrite nth_error_snoc_init in Hc by lia.
    rewrite nth_error_snoc_init by (rewrite length_map; lia).
    now rewrite nth_error_map, Hc.
Qed.

(** ** Gaps in the panel *)

Lemma observations_gap (win : list float) :
  In nan win -> length (observations win) < length win.
Proof.
  unfold observations.
  induction win as [|[x|] win IH]; simpl; intros Hin; [contradiction| |].
  - destruct Hin as [Hin|Hin]; [discriminate|].
    specialize (IH Hin); lia.
  - pose proof (observations_length win) as H.
    unfold observations in H; lia.
Qed.

Lemma window_holds (w i k : nat) (s : Series float) (x : float) :
  k <= i -> i < k + w -> nth_error s k = Some x -> In x (window w i s).
Proof.
  intros Hki Hw Hx.
  unfold window.
  apply (nth_error_In _ (k - (i + 1 - w))).
  rewrite nth_error_skipn, nth_error_firstn.
  replace (i + 1 - w + (k - (i + 1 - w))) with k by lia.
  destruct (Nat.ltb_spec k (i + 1)); [assumption | lia].
Qed.

(** X22.  A missing return makes the rolling mean forecast missing for as
    long as it lies in the window: if one of the [lookback_period] rows
    before [t] has no return in a column forecast by the window mean, the
    forecast attributed to [t] in that column is missing. *)
Theorem rolling_forecast_missing_while_gap_in_window
        (L : nat) (use_last_for_cash : bool) (returns : DataFrame float)
        (t k j : nat) (c : Series float) :
  well_formed returns ->
  t < nrows returns ->
  nth_error returns j = Some c ->
  use_last_for_cash = false \/ S j < shape1 returns ->
  k < t -> t <= k + L ->
  nth_error c k = Some nan ->
  exists f,
    RollingWindowReturnsForecast.forecasts
      (RollingWindowReturnsForecast.mk L use_last_for_cash None) returns
    = Ok f /\
    iat f t j = Some nan.
Proof.
  intros W Ht Hc Hj Hk HL Hgap.
  set (self := RollingWindowReturnsForecast.mk L use_last_for_cash None).
  assert (Hex : exists f,
             RollingWindowReturnsForecast.forecasts self returns = Ok f).
  { destruct (snoc_cases returns) as [->|(init & cash & ->)];
      [destruct j; discriminate|].
    rewrite rolling_forecasts_snoc; eauto. }
  destruct Hex as [f Hf].
  pose proof (forecasts_column self _ Hf Hc Hj) as Hcol.
  simpl in Hcol.
  pose proof (wf_rows W Ht) as Rall.
  assert (Hlen : t < length c).
  { rewrite Forall_forall in Rall; apply Rall.
    eapply nth_error_In; eassumption. }
  exists f; split; [exact Hf|].
  unfold iat; rewrite Hcol, rolling_mean_cell by assumption.
  destruct t as [|i]; [reflexivity|].
  cbv zeta.
  assert (Hin : In nan (window L i c))
    by (apply (window_holds L (i := i) (k := k)); (lia || assumption)).
  pose proof (observations_gap _ Hin) as Hobs.
  pose proof (window_at_most L i c) as Hwin.
  destruct (Nat.ltb_spec (length (observations (window L i c))) L);
    [reflexivity | lia].
Qed.

(** ** The further properties at concrete inputs *)

Lemma emp_sigma_estimate_skips_previous_period_witness :
  let w := scenarios.holdings in
  let r1 := EmpSigma._estimate
              (EmpSigma.mk BaseRiskModel.new [[num 1; num 2; num 3]] 1)
              2 w w w in
  let r2 := EmpSigma._estimate
              (EmpSigma.mk BaseRiskModel.new [[num 1; num 9; num 8]] 1)
              2 w w w in
  snd r1 = snd r2 /\ EmpSigma.base (fst r1) = EmpSigma.base (fst r2).
Proof.
  apply (@emp_sigma_estimate_skips_previous_period
           BaseRiskModel.new 1 2
           [[num 1; num 2; num 3]] [[num 1; num 9; num 8]]).
  - lia.
  - simpl; lia.
  - simpl; lia.
  - reflexivity.
Defined.

Lemma emp_sigma_estimate_without_window_witness :
  EmpSigma._estimate scenarios.emp_sigma 1
                     scenarios.holdings scenarios.holdings scenarios.holdings
  = (scenarios.emp_sigma,
     Raise (if nrows (EmpSigma.returns scenarios.emp_sigma) <=? 1
            then KeyError else AssertionError)).
Proof.
  apply (@emp_sigma_estimate_without_window scenarios.emp_sigma 1).
  - lia.
  - left; reflexivity.
Defined.

Lemma emp_sigma_first_timestamp_reads_whole_panel_witness :
  snd (EmpSigma._estimate scenarios.emp_sigma 0
         scenarios.holdings scenarios.holdings scenarios.holdings) =
  Ok (expr (Div (sum_squares (matmul (Const [[1%R]; [2%R]])
                                     scenarios.holdings))
                (INR (EmpSigma.lookback scenarios.emp_sigma)))).
Proof.
  apply (@emp_sigma_first_timestamp_reads_whole_panel scenarios.emp_sigma).
  - simpl; lia.
  - reflexivity.
Defined.

Lemma emp_sigma_estimate_window_witness :
  exists Rv,
    let e := expr (Div (sum_squares (matmul (Const Rv) scenarios.holdings))
                       (INR (EmpSigma.lookback scenarios.emp_sigma))) in
    length Rv = Nat.min (EmpSigma.lookback scenarios.emp_sigma) (2 - 1) /\
    snd (EmpSigma._estimate scenarios.emp_sigma 2 scenarios.holdings
                            scenarios.holdings scenarios.holdings) = Ok e /\
    BaseRiskModel.expression
      (EmpSigma.base
         (fst (EmpSigma._estimate scenarios.emp_sigma 2 scenarios.holdings
                                  scenarios.holdings scenarios.holdings)))
    = Some e.
Proof.
  apply (@emp_sigma_estimate_window scenarios.emp_sigma 2).
  - lia.
  - simpl; lia.
  - simpl; lia.
  - reflexivity.
Defined.

Lemma diagonal_covariance_has_no_legacy_compile_witness :
  let est := fun (a : BaseRiskModel.attrs) (_ : nat)
                 (_ _ _ : Expression) => (a, @Raise object KeyError) in
  let sd := estimator.Constant [[num 1]] in
  let a := BaseRiskModel.mk
             None
             (estimator.as_cvxpy
                (estimator.mkParameterEstimator sd false None))
             None in
  let m := BaseRiskModel.Build "DiagonalCovariance" BaseRiskModel.new est in
  let m' := BaseRiskModel.Build "DiagonalCovariance" a est in
  BaseRiskModel.weight_expr m 0 scenarios.holdings scenarios.holdings
                            scenarios.holdings
  = (m, Raise AttributeError) /\
  BaseRiskModel.weight_expr m' 0 scenarios.holdings scenarios.holdings
                            scenarios.holdings
  = (m', Raise AttributeError).
Proof.
  intros est sd a.
  apply (@diagonal_covariance_has_no_legacy_compile
           sd sd
           (DiagonalCovariance.mk
              BaseRiskModel.new
              (estimator.mkParameterEstimator sd false None))
           a est 0).
  - reflexivity.
  - reflexivity.
Defined.

Lemma optimization_log_after_weight_expr_witness :
  BaseRiskModel.optimization_log
    (BaseRiskModel.self_
       (fst (BaseRiskModel.weight_expr scenarios.pure_full 0
               scenarios.holdings scenarios.holdings scenarios.holdings))) 0
  = Ok (if Req_dec_T 1 0 then BaseRiskModel.NaN
        else BaseRiskModel.realized (scalar 1)).
Proof.
  apply (@optimization_log_after_weight_expr
           scenarios.pure_full 0 scenarios.holdings scenarios.holdings
           scenarios.holdings (Const (scalar 0))
           (BaseRiskModel.self_ scenarios.pure_full)
           (FullCovariance.compile_to_cvxpy
              (FullCovariance.mk (BaseRiskModel.self_ scenarios.pure_full)
                                 (scenarios.resolved (diag [1%R])))
              (Sub scenarios.holdings (Const (scalar 0)))
              scenarios.holdings scenarios.holdings)
           (list_ []) 1%R).
  - reflexivity.
  - reflexivity.
  - cbn; unfold scalar, dot, pd.sum; simpl; real_cell.
Defined.

Lemma rolling_deviation_is_root_of_covariance_diagonal_witness :
  exists x,
    block_entry (shape1 scenarios.panel3 - 1) 2 0 0
      (RollingWindowFullCovariance.covariances
         (RollingWindowFullCovariance.mk 2 None) scenarios.panel3) = Some x /\
    iat (RollingWindowDiagonalCovariance.deviations
           (RollingWindowDiagonalCovariance.mk 2 None) scenarios.panel3) 2 0
    = Some (np.sqrt x).
Proof.
  apply (@rolling_deviation_is_root_of_covariance_diagonal
           2 scenarios.panel3 2 0).
  - exact panel3_well_formed.
  - simpl; lia.
  - unfold shape1; simpl; lia.
Defined.

Lemma exponential_deviation_is_root_of_covariance_diagonal_witness :
  exists covs devs x,
    ExponentialWindowFullCovariance.covariances
      (ExponentialWindowFullCovariance.mk 1 None) scenarios.panel3 = Ok covs /\
    ExponentialWindowDiagonalCovariance.deviations
      (ExponentialWindowDiagonalCovariance.mk 1 None) scenarios.panel3
    = Ok devs /\
    block_entry (shape1 scenarios.panel3 - 1) 2 0 0 covs = Some x /\
    iat devs 2 0 = Some (np.sqrt x).
Proof.
  apply (@exponential_deviation_is_root_of_covariance_diagonal
           1%R scenarios.panel3 2 0).
  - lra.
  - exact panel3_well_formed.
  - simpl; lia.
  - unfold shape1; simpl; lia.
Defined.

Lemma rolling_forecast_error_is_scaled_deviation_witness :
  exists f d,
    RollingWindowReturnsForecastErrorRisk.errors
      (RollingWindowReturnsForecastErrorRisk.mk 2 true None) scenarios.panel3
    = Ok f /\
    iat (RollingWindowDiagonalCovariance.deviations
           (RollingWindowDiagonalCovariance.mk 2 None) scenarios.panel3) 2 0
    = Some d /\
    iat f 2 0 = Some (divide d (R_sqrt.sqrt (INR 2))).
Proof.
  apply (@rolling_forecast_error_is_scaled_deviation
           2 true scenarios.panel3 2 0).
  - exact panel3_well_formed.
  - simpl; lia.
  - unfold shape1; simpl; lia.
Defined.

Lemma no_estimate_at_first_timestamp_witness :
  estimate_at scenarios.rolling1 scenarios.panel 0 = Ok [[nan]; [nan]] /\
  all_missing [[nan]; [nan]].
Proof.
  split; [reflexivity|].
  apply (@no_estimate_at_first_timestamp
           scenarios.rolling1 scenarios.panel [[nan]; [nan]]).
  - exact panel_well_formed.
  - simpl; lia.
  - reflexivity.
Defined.

Lemma derived_frame_has_panel_shape_witness :
  exists p f,
    pre_evaluation scenarios.rolling1 scenarios.panel = Ok p /\
    estimator.data_ p
    = estimator.TimeIndexed
        (rows_per_label scenarios.rolling1 scenarios.panel) f /\
    shape1 f = shape1 scenarios.panel /\
    Forall (fun c => length c = nrows scenarios.panel * 1) f.
Proof.
  eexists.
  assert (E : pre_evaluation scenarios.rolling1 scenarios.panel = Ok ?[p])
    by reflexivity.
  destruct (@derived_frame_has_panel_shape
              scenarios.rolling1 scenarios.panel _ panel_well_formed
              (le_S 1 1 (le_n 1)) E)
    as (f & Hdata & Hshape & Hrows).
  exists f; repeat split; assumption.
Defined.

Lemma nonpositive_half_life_fails_at_pre_evaluation_witness :
  pre_evaluation
    (ExponentialReturns (ExponentialWindowReturnsForecast.mk (-1) true None))
    scenarios.panel
  = Raise ValueError.
Proof.
  apply (@nonpositive_half_life_fails_at_pre_evaluation
           (ExponentialReturns
              (ExponentialWindowReturnsForecast.mk (-1) true None))
           (-1)%R scenarios.panel).
  - reflexivity.
  - lra.
Defined.

Lemma forecast_error_penalty_value_witness :
  let self := ReturnsForecastErrorRisk.mk
                (Param (Some (column [1%R])))
                (scenarios.resolved (column [2%R])) in
  let x := dot (map Rabs (map (fun p => fst p - snd p)%R
                              (combine [3%R] [1%R]))) [2%R] in
  value (ReturnsForecastErrorRisk.compile_to_cvxpy
           self (Var (Some (column [3%R])))
           scenarios.holdings scenarios.holdings) = Some (scalar x) /\
  (0 <= x)%R /\
  ([3%R] = [1%R] -> x = 0%R).
Proof.
  intros self.
  apply (@forecast_error_penalty_value self [3%R] [1%R] [2%R]).
  - discriminate.
  - reflexivity.
  - reflexivity.
  - reflexivity.
  - reflexivity.
  - repeat constructor; lra.
Defined.

Lemma full_covariance_vanishes_at_benchmark_witness :
  value (FullCovariance.compile_to_cvxpy
           scenarios.full (Var (Some (column [1%R])))
           scenarios.holdings scenarios.holdings)
  = Some (scalar 0).
Proof.
  apply (@full_covariance_vanishes_at_benchmark
           scenarios.full [1%R] (diag [(1 * 1)%R])).
  - discriminate.
  - reflexivity.
  - reflexivity.
  - reflexivity.
  - reflexivity.
Defined.

Lemma diagonal_covariance_value_witness :
  let x := pd.sum (map (fun y => y * y)%R (zipmul [1%R] [1%R])) in
  value (DiagonalCovariance.compile_to_cvxpy
           scenarios.diagonal (Var (Some (column [1%R])))
           scenarios.holdings scenarios.holdings)
  = Some (scalar x) /\
  (0 <= x)%R.
Proof.
  apply (@diagonal_covariance_value scenarios.diagonal [1%R] [1%R]).
  - reflexivity.
  - reflexivity.
Defined.

Lemma returns_forecast_value_is_linear_witness :
  let self := ReturnsForecast.mk (scenarios.resolved (column [2%R])) in
  let at_ := fun w =>
    value (ReturnsForecast.compile_to_cvxpy
             self (Var (Some (column w)))
             scenarios.holdings scenarios.holdings) in
  at_ [1%R] = Some (scalar (dot [1%R] [2%R])) /\
  at_ (map (fun p => fst p + snd p)%R (combine [1%R] [3%R]))
  = Some (scalar (dot [1%R] [2%R] + dot [3%R] [2%R])).
Proof.
  intros self.
  apply (@returns_forecast_value_is_linear self [1%R] [3%R] [2%R]).
  - discriminate.
  - reflexivity.
  - reflexivity.
  - reflexivity.
Defined.

Lemma multiple_forecasts_need_a_weight_per_source_witness :
  MultipleReturnsForecasts.weight_expr
    (MultipleReturnsForecasts.mk [fun _ w => Ok w] [])
    0 scenarios.holdings
  = Raise IndexError.
Proof.
  apply (@multiple_forecasts_need_a_weight_per_source
           (MultipleReturnsForecasts.mk [fun _ w => Ok w] [])
           0 scenarios.holdings).
  - simpl; lia.
  - constructor; [|constructor].
    exists scenarios.holdings; reflexivity.
Defined.

Lemma multiple_forecasts_value_is_weighted_sum_witness :
  exists e,
    MultipleReturnsForecasts.weight_expr
      (MultipleReturnsForecasts.mk [fun _ w => Ok w] [2%R; 5%R])
      0 (Const (scalar 3)) = Ok e /\
    value e = Some (scalar (dot [3%R] (firstn 1 [2%R; 5%R]))).
Proof.
  apply (@multiple_forecasts_value_is_weighted_sum
           (MultipleReturnsForecasts.mk [fun _ w => Ok w] [2%R; 5%R])
           0 (Const (scalar 3)) [3%R]).
  - constructor; [|constructor].
    exists (Const (scalar 3)); split; reflexivity.
  - simpl; lia.
Defined.

Lemma rolling_covariance_needs_full_window_witness :
  block_entry (shape1 scenarios.panel3 - 1) 1 0 0
    (RollingWindowFullCovariance.covariances
       (RollingWindowFullCovariance.mk 2 None) scenarios.panel3) = Some nan.
Proof.
  apply (@rolling_covariance_needs_full_window 2 scenarios.panel3 1 0 0).
  - exact panel3_well_formed.
  - simpl; lia.
  - unfold shape1; simpl; lia.
  - unfold shape1; simpl; lia.
  - left; lia.
Defined.

Lemma exponential_forecast_starts_at_second_timestamp_witness :
  exists f,
    ExponentialWindowReturnsForecast.forecasts
      (ExponentialWindowReturnsForecast.mk 1 true None) scenarios.panel
    = Ok f /\
    iat f 1 0 = Some (num 1).
Proof.
  apply (@exponential_forecast_starts_at_second_timestamp
           1%R true scenarios.panel 0 [num 1; num 2] 1%R).
  - lra.
  - exact panel_well_formed.
  - simpl; lia.
  - reflexivity.
  - reflexivity.
Defined.

Lemma rolling_forecast_missing_while_gap_in_window_witness :
  exists f,
    RollingWindowReturnsForecast.forecasts
      (RollingWindowReturnsForecast.mk 2 true None)
      [[num 1; nan; num 3; num 4]; [num 0; num 0; num 0; num 0]]
    = Ok f /\
    iat f 3 0 = Some nan.
Proof.
  apply (@rolling_forecast_missing_while_gap_in_window
           2 true [[num 1; nan; num 3; num 4]; [num 0; num 0; num 0; num 0]]
           3 1 0 [num 1; nan; num 3; num 4]).
  - exists 4; repeat constructor.
  - simpl; lia.
  - reflexivity.
  - right; unfold shape1; simpl; lia.
  - lia.
  - lia.
  - reflexivity.
Defined.
